(** * Brainot: calendar items, their translation to the remote calendar
    and the synchronisation paths of the web client.

    The development embeds the TypeScript sources shallowly:
    - [JsDate]: the time values of the JavaScript [Date] object, with the
      calendar arithmetic, [toISOString] and the ISO parser the sources use;
    - the item model of [types.ts] ([MyEvent]) and the wire shapes of the
      calendar provider;
    - a state-and-exception monad [M] over a [World] holding the browser
      storage, the document store and the scripted provider;
    - [GoogleCalendarService] (services/googleCalendarService.ts), its copy
      with the connection check ([CheckedCalendarService]), the gapi and
      the "working" services with their batch [syncEvents], [Dashboard] and
      [EditorPanel];
    - the service on the Firebase sign-in ([FirebaseService]), the snapshot
      listeners of the dashboard ([DashboardFeed]), the sync button of the
      header ([Header]), the day filter of the calendar panel
      ([CalendarPanel]) and the weekday phrases of the date detection
      ([DateDetection]).
    Console output and purely visual component state are left out. *)

From Stdlib Require Import ZArith Lia Bool Ascii String DecimalString.
From stdpp Require Import base option list strings gmap.

Local Open Scope Z_scope.

(* ===================================================================== *)
(** ** JavaScript values *)

(** Truthiness of an optional string ([undefined], [null] and the empty
    string are falsy). *)
Definition truthy (o : option string) : bool :=
  match o with
  | Some s => negb (String.eqb s "")
  | None => false
  end.

(** Truthiness of an optional boolean. *)
Definition truthy_bool (o : option bool) : bool :=
  match o with
  | Some b => b
  | None => false
  end.

(** [a || b] on strings. *)
Definition or_else (o : option string) (d : string) : string :=
  match o with
  | Some s => if String.eqb s "" then d else s
  | None => d
  end.

(** The decimal text of an integer, as a template literal writes it. *)
Definition string_of_Z (n : Z) : string := NilZero.string_of_int (Z.to_int n).

(** White space of ECMAScript ([WhiteSpace] and [LineTerminator]). A text
    is the sequence of the bytes of its UTF-8 encoding, so that a
    white-space character takes one, two or three bytes: U+0009 to U+000D
    and U+0020; U+00A0; U+1680, U+2000 to U+200A, U+2028, U+2029, U+202F,
    U+205F, U+3000 and U+FEFF. *)
Definition is_space (c : ascii) : bool :=
  match c with
  | " "%char | "009"%char | "010"%char | "011"%char | "012"%char | "013"%char => true
  | _ => false
  end.

Definition code (c : ascii) : Z := Z.of_N (N_of_ascii c).

Definition is_space2 (a b : ascii) : bool :=
  (code a =? 194) && (code b =? 160).

Definition is_space3 (a b c : ascii) : bool :=
  let x := code a in
  let y := code b in
  let z := code c in
  ((x =? 225) && (y =? 154) && (z =? 128))
  || ((x =? 226) && (y =? 128)
      && (((128 <=? z) && (z <=? 138)) || (z =? 168) || (z =? 169) || (z =? 175)))
  || ((x =? 226) && (y =? 129) && (z =? 159))
  || ((x =? 227) && (y =? 128) && (z =? 128))
  || ((x =? 239) && (y =? 187) && (z =? 191)).

Fixpoint trim_start (s : string) : string :=
  match s with
  | String a r1 =>
      if is_space a then trim_start r1
      else
        match r1 with
        | String b r2 =>
            if is_space2 a b then trim_start r2
            else
              match r2 with
              | String c r3 => if is_space3 a b c then trim_start r3 else s
              | EmptyString => s
              end
        | EmptyString => s
        end
  | EmptyString => EmptyString
  end.

(** The same on the reversed text: the bytes of a character come last
    byte first. *)
Fixpoint trim_start_rev (s : string) : string :=
  match s with
  | String c r1 =>
      if is_space c then trim_start_rev r1
      else
        match r1 with
        | String b r2 =>
            if is_space2 b c then trim_start_rev r2
            else
              match r2 with
              | String a r3 => if is_space3 a b c then trim_start_rev r3 else s
              | EmptyString => s
              end
        | EmptyString => s
        end
  | EmptyString => EmptyString
  end.

Definition trim_end (s : string) : string :=
  String.rev (trim_start_rev (String.rev s)).

(** [String.prototype.trim]. *)
Definition trim (s : string) : string := trim_end (trim_start s).

(* ===================================================================== *)
(** ** Time values and calendar arithmetic of [Date] *)

Module JsDate.

(** A [Date] holds a time value in milliseconds since the epoch; [None]
    is the invalid date (time value NaN). *)
Definition Date : Type := option Z.

Definition msPerDay : Z := 86400000.
Definition msPerMinute : Z := 60000.
Definition msPerHour : Z := 3600000.
Definition msPerSecond : Z := 1000.

(** Day number and time within the day of a time value. *)
Definition Day (t : Z) : Z := t / msPerDay.
Definition TimeWithinDay (t : Z) : Z := t mod msPerDay.
Definition MakeDate (day time : Z) : Z := day * msPerDay + time.
Definition MakeTime (h m s ms : Z) : Z :=
  h * msPerHour + m * msPerMinute + s * msPerSecond + ms.

(** Proleptic Gregorian calendar: day number (days since 1970-01-01) of a
    year, a month in 1..12 and a day of the month. *)
Definition days_from_civil (y m d : Z) : Z :=
  let y' := if m <=? 2 then y - 1 else y in
  let era := y' / 400 in
  let yoe := y' mod 400 in
  let mp := if 2 <? m then m - 3 else m + 9 in
  let doy := (153 * mp + 2) / 5 + d - 1 in
  let doe := yoe * 365 + yoe / 4 - yoe / 100 + doy in
  era * 146097 + doe - 719468.

(** Year of the era, from the day of the era. *)
Definition yoe_of_doe (doe : Z) : Z :=
  (doe - doe / 1460 + doe / 36524 - doe / 146096) / 365.

Definition doy_of_doe (doe : Z) : Z :=
  let yoe := yoe_of_doe doe in
  doe - (365 * yoe + yoe / 4 - yoe / 100).

(** Year, month (1..12) and day of the month of a day number. *)
Definition civil_from_days (z : Z) : Z * Z * Z :=
  let z0 := z + 719468 in
  let era := z0 / 146097 in
  let doe := z0 mod 146097 in
  let yoe := yoe_of_doe doe in
  let doy := doy_of_doe doe in
  let mp := (5 * doy + 2) / 153 in
  let d := doy - (153 * mp + 2) / 5 + 1 in
  let m := if mp <? 10 then mp + 3 else mp - 9 in
  (yoe + era * 400 + (if m <=? 2 then 1 else 0), m, d).

Definition is_leap (y : Z) : bool :=
  ((y mod 4 =? 0) && negb (y mod 100 =? 0)) || (y mod 400 =? 0).

Definition days_in_month (y m : Z) : Z :=
  if m =? 2 then (if is_leap y then 29 else 28)
  else if (m =? 4) || (m =? 6) || (m =? 9) || (m =? 11) then 30
  else 31.

(** [MakeDay(year, month, date)] of ECMAScript; the month is 0-based and
    may lie outside 0..11, the date may lie outside the month. *)
Definition MakeDay (year month date : Z) : Z :=
  days_from_civil (year + month / 12) (month mod 12 + 1) 1 + date - 1.

(** *** Formatting *)

Definition digit_char (d : Z) : ascii :=
  ascii_of_nat (Z.to_nat (48 + d mod 10)).

(** The [w] low decimal digits of [n], most significant first. *)
Fixpoint fmt_digits (w : nat) (n : Z) : string :=
  match w with
  | O => EmptyString
  | S k => fmt_digits k (n / 10) +:+ String (digit_char n) EmptyString
  end.

(** Years 0..9999 are written with four digits, the others as an
    expanded year with a sign and six digits. *)
Definition fmt_year (y : Z) : string :=
  if (0 <=? y) && (y <=? 9999) then fmt_digits 4 y
  else (if y <? 0 then "-" else "+") +:+ fmt_digits 6 (Z.abs y).

Definition fmt_date (y m d : Z) : string :=
  fmt_year y +:+ "-" +:+ fmt_digits 2 m +:+ "-" +:+ fmt_digits 2 d.

(** The [YYYY-MM-DD] text of a day number. *)
Definition isoDate (day : Z) : string :=
  let '(y, m, d) := civil_from_days day in fmt_date y m d.

Definition isoTime (tod : Z) : string :=
  fmt_digits 2 (tod / msPerHour) +:+ ":" +:+
  fmt_digits 2 (tod / msPerMinute mod 60) +:+ ":" +:+
  fmt_digits 2 (tod / msPerSecond mod 60) +:+ "." +:+
  fmt_digits 3 (tod mod 1000).

(** [Date.prototype.toISOString]: the UTC fields of the time value. *)
Definition toISOString (t : Z) : string :=
  isoDate (Day t) +:+ "T" +:+ isoTime (TimeWithinDay t) +:+ "Z".

(** [a <= b] on dates: a comparison with the invalid date is false. *)
Definition date_le (a b : Date) : bool :=
  match a, b with
  | Some x, Some y => x <=? y
  | _, _ => false
  end.

(** [s.split(sep)[0]]: the text before the first separator. *)
Fixpoint split_head (sep : ascii) (s : string) : string :=
  match s with
  | String c r => if Ascii.eqb c sep then EmptyString else String c (split_head sep r)
  | EmptyString => EmptyString
  end.

(** *** Parsing *)

Definition digit_of (c : ascii) : option Z :=
  let n := Z.of_nat (nat_of_ascii c) in
  if (48 <=? n) && (n <=? 57) then Some (n - 48) else None.

(** Reads exactly [w] decimal digits. *)
Fixpoint take_digits (w : nat) (acc : Z) (s : string) : option (Z * string) :=
  match w with
  | O => Some (acc, s)
  | S k =>
      match s with
      | String c r =>
          match digit_of c with
          | Some d => take_digits k (acc * 10 + d) r
          | None => None
          end
      | EmptyString => None
      end
  end.

Definition expect (c : ascii) (s : string) : option string :=
  match s with
  | String c' r => if Ascii.eqb c c' then Some r else None
  | EmptyString => None
  end.

(** Optional [:ss] and [.sss] after the minutes. *)
Definition take_seconds (s : string) : option (Z * Z * string) :=
  match s with
  | String ":" r =>
      '(sec, r1) ← take_digits 2 0 r;
      match r1 with
      | String "." r2 =>
          '(ms, r3) ← take_digits 3 0 r2; Some (sec, ms, r3)
      | _ => Some (sec, 0, r1)
      end
  | _ => Some (0, 0, s)
  end.

(** The zone designator: none (local time), [Z], or a signed [HH:mm];
    the result is the offset to add to the fields to obtain UTC, in
    minutes, or [None] for local time. *)
Definition take_zone (s : string) : option (option Z) :=
  match s with
  | EmptyString => Some None
  | String "Z" EmptyString => Some (Some 0)
  | String sg r =>
      if Ascii.eqb sg "+" || Ascii.eqb sg "-" then
        '(hh, r1) ← take_digits 2 0 r;
        r2 ← expect ":" r1;
        '(mm, r3) ← take_digits 2 0 r2;
        match r3 with
        | EmptyString =>
            if (hh <=? 23) && (mm <=? 59) then
              Some (Some ((if Ascii.eqb sg "+" then -1 else 1) * (hh * 60 + mm)))
            else None
        | _ => None
        end
      else None
  end.

Section Zone.
(** The value of [getTimezoneOffset()] of the host, in minutes (UTC minus
    local time); the host zone is taken to have this one offset. *)
Variable tzOffset : Z.

Definition LocalTime (t : Z) : Z := t - tzOffset * msPerMinute.
Definition UTC (t : Z) : Z := t + tzOffset * msPerMinute.

(** [Date.prototype.getDate]: day of the month, local time. *)
Definition getDate (t : Z) : Z :=
  let '(_, _, d) := civil_from_days (Day (LocalTime t)) in d.

Definition getMonth (t : Z) : Z :=
  let '(_, m, _) := civil_from_days (Day (LocalTime t)) in m - 1.

(** [Date.prototype.setDate]. *)
Definition setDate (t date : Z) : Z :=
  let tl := LocalTime t in
  let '(y, m, _) := civil_from_days (Day tl) in
  UTC (MakeDate (MakeDay y (m - 1) date) (TimeWithinDay tl)).

(** [Date.prototype.setMonth] with one argument. *)
Definition setMonth (t month : Z) : Z :=
  let tl := LocalTime t in
  let '(y, _, d) := civil_from_days (Day tl) in
  UTC (MakeDate (MakeDay y month d) (TimeWithinDay tl)).

(** [new Date(text)] for the ISO date-time forms: a date alone is UTC,
    a date-time without zone designator is local time. The day of the
    month runs from 1 to 31 whatever the month, a day past the end of the
    month counting into the next one; the hour 24 is read with 00:00.000
    only. [None] stands for the invalid date; a text of another form is
    read as the invalid date here. *)
Definition parse (s : string) : option Z :=
  '(y, r) ← take_digits 4 0 s;
  r ← expect "-" r;
  '(mo, r) ← take_digits 2 0 r;
  r ← expect "-" r;
  '(d, r) ← take_digits 2 0 r;
  if negb ((1 <=? mo) && (mo <=? 12) && (1 <=? d) && (d <=? 31))
  then None
  else
    let day := MakeDay y (mo - 1) d in
    match r with
    | EmptyString => Some (MakeDate day 0)
    | String "T" r =>
        '(hh, r) ← take_digits 2 0 r;
        r ← expect ":" r;
        '(mi, r) ← take_digits 2 0 r;
        '(sec, ms, r) ← take_seconds r;
        zone ← take_zone r;
        if negb (((hh <=? 23) && (mi <=? 59) && (sec <=? 59))
                 || ((hh =? 24) && (mi =? 0) && (sec =? 0) && (ms =? 0)))
        then None
        else
          let fields := MakeDate day (MakeTime hh mi sec ms) in
          Some (match zone with
                | None => UTC fields
                | Some off => fields + off * msPerMinute
                end)
    | _ => None
    end.
End Zone.

End JsDate.

(* ===================================================================== *)
(** ** The item model (types.ts) *)

Inductive Priority := low | medium | high.

Record Resource := {
  isNote : option bool;
  content : option string;
  color : option string;
  priority : option Priority;
  googleEventId : option string;
  syncedToGoogle : option bool
}.

Record MyEvent := {
  id : option string;
  title : string;
  start : JsDate.Date;
  end_ : JsDate.Date;
  allDay : option bool;
  resource : option Resource
}.

(** [event.resource?.field]. *)
Definition res_isNote (e : MyEvent) : option bool := r ← resource e; isNote r.
Definition res_content (e : MyEvent) : option string := r ← resource e; content r.
Definition res_priority (e : MyEvent) : option Priority := r ← resource e; priority r.
Definition res_googleEventId (e : MyEvent) : option string := r ← resource e; googleEventId r.

Definition empty_resource : Resource :=
  {| isNote := None; content := None; color := None; priority := None;
     googleEventId := None; syncedToGoogle := None |}.

(** [{ ...event.resource, googleEventId }]. *)
Definition spread_googleEventId (r : option Resource) (g : option string) : Resource :=
  let r0 := default empty_resource r in
  {| isNote := isNote r0; content := content r0; color := color r0;
     priority := priority r0; googleEventId := g;
     syncedToGoogle := syncedToGoogle r0 |}.

(** [{ ...event.resource, googleEventId, syncedToGoogle: true }]. *)
Definition spread_synced (r : option Resource) (g : option string) : Resource :=
  let r0 := default empty_resource r in
  {| isNote := isNote r0; content := content r0; color := color r0;
     priority := priority r0; googleEventId := g;
     syncedToGoogle := Some true |}.

Definition with_resource (e : MyEvent) (r : Resource) : MyEvent :=
  {| id := id e; title := title e; start := start e; end_ := end_ e;
     allDay := allDay e; resource := Some r |}.

(* ===================================================================== *)
(** ** Wire shapes of the calendar provider *)

(** A boundary of a remote event: [{dateTime, timeZone}] or [{date}]. *)
Record EventTime := {
  dateTime : option string;
  timeZone : option string;
  date : option string
}.

(** The body of a create or update request. *)
Record GoogleEvent := {
  summary : string;
  description : string;
  colorId : option string;
  g_start : EventTime;
  g_end : EventTime
}.

(** An event as listed by the provider. *)
Record GoogleItem := {
  item_id : string;
  item_summary : option string;
  item_description : option string;
  item_start : EventTime;
  item_end : EventTime
}.

(** Requests to [calendars/primary/events], and the two requests of the
    connection check. *)
Inductive Request :=
| POST (body : GoogleEvent)
| PATCH (eventId : string) (body : GoogleEvent)
| PUT (eventId : string) (body : GoogleEvent)
| DELETE (eventId : string)
| GET (timeMin timeMax : string)
| GET_primary                          (* calendars/primary, the token test *)
| POST_oauth_token (refresh_token : string).

Record Json := {
  json_id : option string;
  json_items : option (list GoogleItem);
  json_access_token : option string
}.

(** What the provider answers to one request: no answer at all, or a
    status with an optional JSON body. *)
Inductive Reply :=
| NetworkError
| Http (status : Z) (body : option Json).

(* ===================================================================== *)
(** ** The document store *)

(** A document of the [events] or [notes] collection. *)
Record Doc := {
  d_title : option string;
  d_start : option Z;
  d_end : option Z;
  d_content : option string;
  d_isNote : option bool;
  d_allDay : option bool;
  d_priority : option Priority;
  d_googleEventId : option string
}.

Definition or_field {A} (new old : option A) : option A :=
  match new with Some _ => new | None => old end.

(** The fields of [data] replace those of the stored document. *)
Definition merge_doc (data old : Doc) : Doc :=
  {| d_title := or_field (d_title data) (d_title old);
     d_start := or_field (d_start data) (d_start old);
     d_end := or_field (d_end data) (d_end old);
     d_content := or_field (d_content data) (d_content old);
     d_isNote := or_field (d_isNote data) (d_isNote old);
     d_allDay := or_field (d_allDay data) (d_allDay old);
     d_priority := or_field (d_priority data) (d_priority old);
     d_googleEventId := or_field (d_googleEventId data) (d_googleEventId old) |}.

Inductive Collection := events_collection | notes_collection.

Inductive Toast :=
| toast_success (msg : string)
| toast_error (msg : string).

(* ===================================================================== *)
(** ** The world and the monad of the asynchronous code *)

(** The host's zone: [Intl.DateTimeFormat().resolvedOptions().timeZone] and
    [getTimezoneOffset()]. *)
Record Host := {
  hostTimeZone : string;
  hostTimezoneOffset : Z
}.

(** What [signInWithPopup] yields: a rejection, or a credential with an
    optional access token. *)
Inductive Popup :=
| PopupRejected
| PopupCredential (credentialAccessToken : option string).

Record World := {
  currentUser : bool;                       (* auth.currentUser is set *)
  google_access_token : option string;      (* sessionStorage *)
  googleAccessToken : option string;        (* localStorage *)
  googleRefreshToken : option string;       (* localStorage *)
  popups : list Popup;                      (* coming outcomes of signInWithPopup *)
  isSignedIn : bool;                        (* state of the gapi service *)
  accessToken : option string;              (* state of the working service *)
  remote : list Reply;                      (* the provider's coming answers *)
  sent : list Request;                      (* requests sent so far *)
  events : gmap string Doc;                 (* the events collection *)
  notes : gmap string Doc;                  (* the notes collection *)
  store_available : bool;                   (* store writes succeed *)
  fresh_ids : list string;                  (* ids the store will assign *)
  now : Z;                                  (* the clock *)
  toasts : list Toast                       (* notices shown *)
}.

Definition set_token (t : option string) (w : World) : World :=
  {| currentUser := currentUser w;
     google_access_token := t;
     googleAccessToken := googleAccessToken w;
     googleRefreshToken := googleRefreshToken w;
     popups := popups w;
     isSignedIn := isSignedIn w;
     accessToken := accessToken w;
     remote := remote w;
     sent := sent w;
     events := events w;
     notes := notes w;
     store_available := store_available w;
     fresh_ids := fresh_ids w;
     now := now w;
     toasts := toasts w |}.

Definition set_local_tokens (t r : option string) (w : World) : World :=
  {| currentUser := currentUser w;
     google_access_token := google_access_token w;
     googleAccessToken := t;
     googleRefreshToken := r;
     popups := popups w;
     isSignedIn := isSignedIn w;
     accessToken := accessToken w;
     remote := remote w;
     sent := sent w;
     events := events w;
     notes := notes w;
     store_available := store_available w;
     fresh_ids := fresh_ids w;
     now := now w;
     toasts := toasts w |}.

Definition set_popups (ps : list Popup) (w : World) : World :=
  {| currentUser := currentUser w;
     google_access_token := google_access_token w;
     googleAccessToken := googleAccessToken w;
     googleRefreshToken := googleRefreshToken w;
     popups := ps;
     isSignedIn := isSignedIn w;
     accessToken := accessToken w;
     remote := remote w;
     sent := sent w;
     events := events w;
     notes := notes w;
     store_available := store_available w;
     fresh_ids := fresh_ids w;
     now := now w;
     toasts := toasts w |}.

Definition set_remote (r : list Reply) (s : list Request) (w : World) : World :=
  {| currentUser := currentUser w;
     google_access_token := google_access_token w;
     googleAccessToken := googleAccessToken w;
     googleRefreshToken := googleRefreshToken w;
     popups := popups w;
     isSignedIn := isSignedIn w;
     accessToken := accessToken w;
     remote := r;
     sent := s;
     events := events w;
     notes := notes w;
     store_available := store_available w;
     fresh_ids := fresh_ids w;
     now := now w;
     toasts := toasts w |}.

Definition set_store (ev nt : gmap string Doc) (ids : list string) (w : World) : World :=
  {| currentUser := currentUser w;
     google_access_token := google_access_token w;
     googleAccessToken := googleAccessToken w;
     googleRefreshToken := googleRefreshToken w;
     popups := popups w;
     isSignedIn := isSignedIn w;
     accessToken := accessToken w;
     remote := remote w;
     sent := sent w;
     events := ev;
     notes := nt;
     store_available := store_available w;
     fresh_ids := ids;
     now := now w;
     toasts := toasts w |}.

Definition add_toast (t : Toast) (w : World) : World :=
  {| currentUser := currentUser w;
     google_access_token := google_access_token w;
     googleAccessToken := googleAccessToken w;
     googleRefreshToken := googleRefreshToken w;
     popups := popups w;
     isSignedIn := isSignedIn w;
     accessToken := accessToken w;
     remote := remote w;
     sent := sent w;
     events := events w;
     notes := notes w;
     store_available := store_available w;
     fresh_ids := fresh_ids w;
     now := now w;
     toasts := toasts w ++ [t] |}.

Inductive Exn := Error (msg : string).

(** A computation either throws or returns, and leaves a world. *)
Definition M (A : Type) : Type := World → (Exn + A) * World.

Definition ret {A} (a : A) : M A := λ w, (inr a, w).

Definition bind {A B} (m : M A) (k : A → M B) : M B :=
  λ w, match m w with
       | (inl e, w') => (inl e, w')
       | (inr a, w') => k a w'
       end.

Definition throw {A} (msg : string) : M A := λ w, (inl (Error msg), w).

(** [try { m } catch (error) { h error }]. *)
Definition try_catch {A} (m : M A) (h : Exn → M A) : M A :=
  λ w, match m w with
       | (inl e, w') => h e w'
       | (inr a, w') => (inr a, w')
       end.

Notation "x <~ m ;; k" := (bind m (λ x, k))
  (at level 100, m at next level, right associativity).
Notation "m ;;; k" := (bind m (λ _, k))
  (at level 100, right associativity).

(** [for (const x of l) { body x }]. *)
Fixpoint for_of {A} (l : list A) (body : A → M unit) : M unit :=
  match l with
  | [] => ret tt
  | x :: r => body x ;;; for_of r body
  end.

Definition toast (t : Toast) : M unit := λ w, (inr tt, add_toast t w).

(** [fetch]: the request goes out and the provider's next answer comes
    back; with no answer the promise rejects. *)
Definition fetch (req : Request) : M (Z * option Json) :=
  λ w, match remote w with
       | Http status body :: rs => (inr (status, body), set_remote rs (sent w ++ [req]) w)
       | NetworkError :: rs => (inl (Error "Failed to fetch"), set_remote rs (sent w ++ [req]) w)
       | [] => (inl (Error "Failed to fetch"), set_remote [] (sent w ++ [req]) w)
       end.

(** [response.ok]. *)
Definition response_ok (status : Z) : bool := (200 <=? status) && (status <=? 299).

(** [response.json()]. *)
Definition response_json (body : option Json) : M Json :=
  match body with
  | Some j => ret j
  | None => throw "Unexpected end of JSON input"
  end.

Definition collection_of (c : Collection) (w : World) : gmap string Doc :=
  match c with events_collection => events w | notes_collection => notes w end.

Definition set_collection (c : Collection) (m : gmap string Doc) (ids : list string)
    (w : World) : World :=
  match c with
  | events_collection => set_store m (notes w) ids w
  | notes_collection => set_store (events w) m ids w
  end.

(** [addDoc(collection(...), data)]: stores [data] under a new id. *)
Definition addDoc (c : Collection) (data : Doc) : M string :=
  λ w, if store_available w then
         match fresh_ids w with
         | i :: ids => (inr i, set_collection c (<[i := data]> (collection_of c w)) ids w)
         | [] => (inl (Error "unavailable"), w)
         end
       else (inl (Error "unavailable"), w).

(** [updateDoc(doc(...), data)]: fails when the document does not exist. *)
Definition updateDoc (c : Collection) (i : string) (data : Doc) : M unit :=
  λ w, if store_available w then
         match collection_of c w !! i with
         | Some old =>
             (inr tt, set_collection c (<[i := merge_doc data old]> (collection_of c w)) (fresh_ids w) w)
         | None => (inl (Error "not-found"), w)
         end
       else (inl (Error "unavailable"), w).

(** [deleteDoc(doc(...))]. *)
Definition deleteDoc (c : Collection) (i : string) : M unit :=
  λ w, if store_available w then
         (inr tt, set_collection c (delete i (collection_of c w)) (fresh_ids w) w)
       else (inl (Error "unavailable"), w).

(* ===================================================================== *)
(** ** services/googleCalendarService.ts *)

Module GoogleCalendarService.
Import JsDate.

Definition getAccessToken : M string :=
  λ w, if negb (currentUser w) then throw "User not authenticated" w
       else match google_access_token w with
            | Some t =>
                if String.eqb t "" then
                  throw "Google Access Token missing. Please re-login for Calendar sync." w
                else ret t w
            | None =>
                throw "Google Access Token missing. Please re-login for Calendar sync." w
            end.

Definition makeRequest (req : Request) : M Json :=
  _token <~ getAccessToken ;;
  response <~ fetch req ;;
  if negb (response_ok response.1) then
    if response.1 =? 401 then
      (λ w, (inr tt, set_token None w)) ;;;
      throw "Google Calendar access expired. Please re-login."
    else throw ("Google Calendar API Error: " +:+ string_of_Z response.1)
  else response_json response.2.

Definition colorMap (p : Priority) : string :=
  match p with
  | low => "2"
  | medium => "9"
  | high => "11"
  end.

(** The result is [None] when [toISOString] throws a [RangeError], that
    is when a boundary of the item is the invalid date. *)
Definition convertToGoogleEvent (h : Host) (event : MyEvent) : option GoogleEvent :=
  let off := hostTimezoneOffset h in
  let colorId := colorMap (default medium (res_priority event)) in
  if truthy_bool (allDay event) then
    s ← start event;
    let startDate := split_head "T" (toISOString (s - off * 60000)) in
    e ← end_ event;
    let endDateObj := setDate off e (getDate off e + 1) in
    let endDate := split_head "T" (toISOString (endDateObj - off * 60000)) in
    Some {| summary := title event;
            description := or_else (res_content event) "";
            colorId := Some colorId;
            g_start := {| dateTime := None; timeZone := None; date := Some startDate |};
            g_end := {| dateTime := None; timeZone := None; date := Some endDate |} |}
  else
    s ← start event;
    e ← end_ event;
    Some {| summary := title event;
            description := or_else (res_content event) "";
            colorId := Some colorId;
            g_start := {| dateTime := Some (toISOString s);
                          timeZone := Some (hostTimeZone h); date := None |};
            g_end := {| dateTime := Some (toISOString e);
                        timeZone := Some (hostTimeZone h); date := None |} |}.

Definition createEvent (h : Host) (event : MyEvent) : M (option string) :=
  match convertToGoogleEvent h event with
  | None => throw "Invalid time value"
  | Some googleEvent =>
      result <~ makeRequest (POST googleEvent) ;;
      ret (json_id result)
  end.

Definition deleteEvent (googleEventId : string) : M unit :=
  makeRequest (DELETE googleEventId) ;;; ret tt.

Definition updateEvent (h : Host) (event : MyEvent) : M unit :=
  match res_googleEventId event with
  | Some googleEventId =>
      if String.eqb googleEventId "" then throw "No Google Event ID found to update"
      else
        match convertToGoogleEvent h event with
        | None => throw "Invalid time value"
        | Some googleEvent =>
            makeRequest (PATCH googleEventId googleEvent) ;;; ret tt
        end
  | None => throw "No Google Event ID found to update"
  end.

(** Returns the remote identifier, or [None] for [null]. *)
Definition syncEvent (h : Host) (event : MyEvent) : M (option string) :=
  try_catch
    (if negb (truthy (res_googleEventId event)) then
       googleEventId <~ createEvent h event ;;
       ret googleEventId
     else
       updateEvent h event ;;;
       ret (res_googleEventId event))
    (λ _, ret None).

End GoogleCalendarService.

(** The copy of the service that checks the connection before every
    operation ([ensureValidToken]); its converter and its dispatch are
    written as in the service above. *)
Module CheckedCalendarService.

Definition setItem_googleAccessToken (t : string) : M unit :=
  λ w, (inr tt, set_local_tokens (Some t) (googleRefreshToken w) w).

Definition signInWithPopup : M (option string) :=
  λ w, match popups w with
       | PopupCredential t :: ps => (inr t, set_popups ps w)
       | PopupRejected :: ps => (inl (Error "auth/popup-closed-by-user"), set_popups ps w)
       | [] => (inl (Error "auth/popup-blocked"), w)
       end.

Definition requestNewTokens : M bool :=
  try_catch
    (λ w, if negb (currentUser w) then ret false w
          else (credential <~ signInWithPopup ;;
                if truthy credential then
                  setItem_googleAccessToken (default "" credential) ;;; ret true
                else ret false) w)
    (λ _, ret false).

Definition refreshAccessToken (refreshToken : string) : M bool :=
  refreshed <~ try_catch
                 (response <~ fetch (POST_oauth_token refreshToken) ;;
                  if response_ok response.1 then
                    data <~ response_json response.2 ;;
                    setItem_googleAccessToken (default "undefined" (json_access_token data)) ;;;
                    ret true
                  else ret false)
                 (λ _, ret false) ;;
  if refreshed then ret true
  else
    (λ w, (inr tt, set_local_tokens None None w)) ;;;
    requestNewTokens.

Definition ensureValidToken : M bool :=
  try_catch
    (λ w, let token := googleAccessToken w in
          let refreshToken := googleRefreshToken w in
          (if negb (truthy token) && negb (truthy refreshToken) then requestNewTokens
           else
             valid <~ (if truthy token then
                         testResponse <~ fetch GET_primary ;;
                         ret (response_ok testResponse.1)
                       else ret false) ;;
             if valid then ret true
             else if truthy refreshToken then refreshAccessToken (default "" refreshToken)
             else requestNewTokens) w)
    (λ _, ret false).

Definition getAccessToken : M string :=
  λ w, if truthy (googleAccessToken w) then ret (default "" (googleAccessToken w)) w
       else if truthy (google_access_token w) then ret (default "" (google_access_token w)) w
       else throw "Google Access Token missing. Please re-login for Calendar sync." w.

Definition makeRequest (req : Request) : M Json :=
  _token <~ getAccessToken ;;
  response <~ fetch req ;;
  if negb (response_ok response.1) then
    if response.1 =? 401 then
      (λ w, (inr tt, set_token None (set_local_tokens None (googleRefreshToken w) w))) ;;;
      throw "Google Calendar access expired. Please re-login."
    else throw ("Google Calendar API Error: " +:+ string_of_Z response.1)
  else response_json response.2.

Definition convertToGoogleEvent := GoogleCalendarService.convertToGoogleEvent.

Definition createEvent (h : Host) (event : MyEvent) : M (option string) :=
  match convertToGoogleEvent h event with
  | None => throw "Invalid time value"
  | Some googleEvent =>
      result <~ makeRequest (POST googleEvent) ;;
      ret (json_id result)
  end.

Definition deleteEvent (googleEventId : string) : M unit :=
  connected <~ ensureValidToken ;;
  if negb connected then throw "Google Calendar not connected"
  else makeRequest (DELETE googleEventId) ;;; ret tt.

Definition updateEvent (h : Host) (event : MyEvent) : M unit :=
  connected <~ ensureValidToken ;;
  if negb connected then throw "Google Calendar not connected"
  else
    match res_googleEventId event with
    | Some googleEventId =>
        if String.eqb googleEventId "" then throw "No Google Event ID found to update"
        else
          match convertToGoogleEvent h event with
          | None => throw "Invalid time value"
          | Some googleEvent =>
              makeRequest (PATCH googleEventId googleEvent) ;;; ret tt
          end
    | None => throw "No Google Event ID found to update"
    end.

(** Throws when the connection check fails; otherwise as [syncEvent] of the
    service above. *)
Definition syncEvent (h : Host) (event : MyEvent) : M (option string) :=
  connected <~ ensureValidToken ;;
  if negb connected then throw "Google Calendar not connected"
  else
    try_catch
      (if negb (truthy (res_googleEventId event)) then
         googleEventId <~ createEvent h event ;;
         ret googleEventId
       else
         updateEvent h event ;;;
         ret (res_googleEventId event))
      (λ _, ret None).

End CheckedCalendarService.

(* ===================================================================== *)
(** ** services/googleCalendar.ts and its siblings: the batch services *)

(** [a === b] on optional strings. *)
Definition strict_eq (a b : option string) : bool := bool_decide (a = b).

(** [convertFromGoogleEvent], the same text in every batch service. *)
Definition convertFromGoogleEvent (h : Host) (googleEvent : GoogleItem) : MyEvent :=
  let off := hostTimezoneOffset h in
  let start_ :=
    if truthy (dateTime (item_start googleEvent))
    then JsDate.parse off (default "undefined" (dateTime (item_start googleEvent)))
    else JsDate.parse off (default "undefined" (date (item_start googleEvent)) +:+ "T00:00:00") in
  let end' :=
    if truthy (dateTime (item_end googleEvent))
    then JsDate.parse off (default "undefined" (dateTime (item_end googleEvent)))
    else JsDate.parse off (default "undefined" (date (item_end googleEvent)) +:+ "T23:59:59") in
  {| id := Some (item_id googleEvent);
     title := or_else (item_summary googleEvent) "Untitled Event";
     start := start_;
     end_ := end';
     allDay := Some (negb (truthy (dateTime (item_start googleEvent))));
     resource := Some {| isNote := Some false;
                         content := Some (or_else (item_description googleEvent) "");
                         color := None;
                         priority := None;
                         googleEventId := Some (item_id googleEvent);
                         syncedToGoogle := Some true |} |}.

(** The second loop of [syncEvents], the same text in every batch service:
    a fetched event is pushed unless an entry of [syncedEvents] already
    carries its [googleEventId]. *)
Fixpoint merge_google_events (googleEvents syncedEvents : list MyEvent) : list MyEvent :=
  match googleEvents with
  | [] => syncedEvents
  | googleEvent :: rest =>
      let existsLocally :=
        existsb (λ local, strict_eq (res_googleEventId local) (res_googleEventId googleEvent))
                syncedEvents in
      if negb existsLocally
      then merge_google_events rest (syncedEvents ++ [googleEvent])
      else merge_google_events rest syncedEvents
  end.

(** The window of [syncEvents]: one month back, two months forward. *)
Definition sync_window (h : Host) (t : Z) : Z * Z :=
  let off := hostTimezoneOffset h in
  (JsDate.setMonth off t (JsDate.getMonth off t - 1),
   JsDate.setMonth off t (JsDate.getMonth off t + 2)).

(** The converter shared by the batch services: no colour tag, and the
    date of an all-day boundary is the UTC date of the time value. *)
Definition convertToGoogleEvent_batch (h : Host) (event : MyEvent) : option GoogleEvent :=
  s ← start event;
  e ← end_ event;
  Some {| summary := title event;
          description := or_else (res_content event) "";
          colorId := None;
          g_start :=
            if truthy_bool (allDay event)
            then {| dateTime := None; timeZone := None;
                    date := Some (JsDate.split_head "T" (JsDate.toISOString s)) |}
            else {| dateTime := Some (JsDate.toISOString s);
                    timeZone := Some (hostTimeZone h); date := None |};
          g_end :=
            if truthy_bool (allDay event)
            then {| dateTime := None; timeZone := None;
                    date := Some (JsDate.split_head "T" (JsDate.toISOString e)) |}
            else {| dateTime := Some (JsDate.toISOString e);
                    timeZone := Some (hostTimeZone h); date := None |} |}.

(** The service of googleCalendar.ts, on [window.gapi]. *)
Module GapiService.

(** The description is [resource.description || resource.content || ''];
    the item type has no [description], which reads as [undefined]. *)
Definition convertToGoogleEvent := convertToGoogleEvent_batch.

(** [window.gapi.client.request]: rejects unless the status is 2xx. *)
Definition gapi_request (req : Request) : M (option Json) :=
  response <~ fetch req ;;
  if response_ok response.1 then ret response.2
  else throw "gapi request failed".

(** [response.result.field] of an answer without a body throws. *)
Definition result_of (body : option Json) : M Json :=
  match body with
  | Some j => ret j
  | None => throw "Cannot read properties of undefined"
  end.

Definition guard_signed_in : M unit :=
  λ w, if isSignedIn w then ret tt w else throw "Not authenticated" w.

Definition createEvent (h : Host) (event : MyEvent) : M (option string) :=
  guard_signed_in ;;;
  match convertToGoogleEvent h event with
  | None => throw "Invalid time value"
  | Some googleEvent =>
      response <~ gapi_request (POST googleEvent) ;;
      result <~ result_of response ;;
      ret (json_id result)
  end.

Definition updateEvent (h : Host) (eventId : string) (event : MyEvent) : M unit :=
  guard_signed_in ;;;
  match convertToGoogleEvent h event with
  | None => throw "Invalid time value"
  | Some googleEvent => gapi_request (PUT eventId googleEvent) ;;; ret tt
  end.

Definition deleteEvent (eventId : string) : M unit :=
  guard_signed_in ;;;
  gapi_request (DELETE eventId) ;;; ret tt.

Definition getEvents (h : Host) (startDate endDate : Z) : M (list MyEvent) :=
  guard_signed_in ;;;
  response <~ gapi_request (GET (JsDate.toISOString startDate) (JsDate.toISOString endDate)) ;;
  result <~ result_of response ;;
  match json_items result with
  | Some items => ret (map (convertFromGoogleEvent h) items)
  | None => throw "Cannot read properties of undefined"
  end.

(** The body of the first loop: what is pushed for one local item. *)
Definition sync_local (h : Host) (localEvent : MyEvent) : M MyEvent :=
  if truthy_bool (res_isNote localEvent) then ret localEvent
  else
    try_catch
      (if truthy (res_googleEventId localEvent) then
         updateEvent h (default "" (res_googleEventId localEvent)) localEvent ;;;
         ret (with_resource localEvent
                (spread_googleEventId (resource localEvent) (res_googleEventId localEvent)))
       else
         googleEventId <~ createEvent h localEvent ;;
         ret (with_resource localEvent
                (spread_googleEventId (resource localEvent) googleEventId)))
      (λ _, ret localEvent).

Fixpoint sync_locals (h : Host) (localEvents syncedEvents : list MyEvent)
    : M (list MyEvent) :=
  match localEvents with
  | [] => ret syncedEvents
  | localEvent :: rest =>
      pushed <~ sync_local h localEvent ;;
      sync_locals h rest (syncedEvents ++ [pushed])
  end.

Definition syncEvents (h : Host) (localEvents : list MyEvent) : M (list MyEvent) :=
  guard_signed_in ;;;
  t <~ (λ w, ret (now w) w) ;;
  googleEvents <~ getEvents h (sync_window h t).1 (sync_window h t).2 ;;
  syncedEvents <~ sync_locals h localEvents [] ;;
  ret (merge_google_events googleEvents syncedEvents).

End GapiService.

(** [WorkingGoogleCalendarService]: the same batch with a bearer token. *)
Module WorkingService.

Definition convertToGoogleEvent := convertToGoogleEvent_batch.

(** The status text of a response is empty, as it is over HTTP/2. *)
Definition makeRequest (req : Request) : M Json :=
  (λ w, if truthy (accessToken w) then ret tt w
        else throw "Not authenticated with Google Calendar" w) ;;;
  response <~ fetch req ;;
  if negb (response_ok response.1) then
    throw ("Google Calendar API Error: " +:+ string_of_Z response.1 +:+ " ")
  else response_json response.2.

Definition createEvent (h : Host) (event : MyEvent) : M (option string) :=
  match convertToGoogleEvent h event with
  | None => throw "Invalid time value"
  | Some googleEvent =>
      result <~ makeRequest (POST googleEvent) ;;
      ret (json_id result)
  end.

Definition getEvents (h : Host) (startDate endDate : Z) : M (list MyEvent) :=
  result <~ makeRequest (GET (JsDate.toISOString startDate) (JsDate.toISOString endDate)) ;;
  ret (map (convertFromGoogleEvent h) (default [] (json_items result))).

Definition sync_local (h : Host) (localEvent : MyEvent) : M MyEvent :=
  try_catch
    (if negb (truthy (res_googleEventId localEvent)) then
       googleEventId <~ createEvent h localEvent ;;
       ret (with_resource localEvent (spread_synced (resource localEvent) googleEventId))
     else ret localEvent)
    (λ _, ret localEvent).

Fixpoint sync_locals (h : Host) (localEvents syncedEvents : list MyEvent)
    : M (list MyEvent) :=
  match localEvents with
  | [] => ret syncedEvents
  | localEvent :: rest =>
      pushed <~ sync_local h localEvent ;;
      sync_locals h rest (syncedEvents ++ [pushed])
  end.

Definition syncEvents (h : Host) (localEvents : list MyEvent) : M (list MyEvent) :=
  t <~ (λ w, ret (now w) w) ;;
  googleEvents <~ getEvents h (sync_window h t).1 (sync_window h t).2 ;;
  syncedEvents <~ sync_locals h localEvents [] ;;
  ret (merge_google_events googleEvents syncedEvents).

End WorkingService.

(* ===================================================================== *)
(** ** components/Dashboard.tsx *)

Module Dashboard.

Definition collectionName (isNote : bool) : Collection :=
  if isNote then notes_collection else events_collection.

(** [evs] is the component's [events] state. *)
Definition handleEventDelete (evs : list MyEvent) (eventId : string) (isNote : bool)
    : M unit :=
  try_catch
    (let eventToDelete := find (λ e, bool_decide (id e = Some eventId)) evs in
     deleteDoc (collectionName isNote) eventId ;;;
     (if negb isNote && truthy (e ← eventToDelete; res_googleEventId e) then
        try_catch
          (GoogleCalendarService.deleteEvent
             (default "" (e ← eventToDelete; res_googleEventId e)))
          (λ _, ret tt)
      else ret tt) ;;;
     toast (toast_success (if isNote then "Note deleted successfully"
                           else "Event deleted successfully")))
    (λ _, toast (toast_error "Failed to delete event")).

Definition handleSyncCalendar (h : Host) (evs : list MyEvent) : M unit :=
  try_catch
    (let eventsToSync := filter (λ e, negb (truthy_bool (res_isNote e))) evs in
     for_of eventsToSync (λ event, GoogleCalendarService.syncEvent h event ;;; ret tt) ;;;
     toast (toast_success "Calendar synced successfully"))
    (λ _, toast (toast_error "Calendar sync failed")).

End Dashboard.

(* ===================================================================== *)
(** ** components/EditorPanel.tsx *)

Module EditorPanel.

(** The form state and the props the submit handler reads. *)
Record State := {
  s_title : string;
  s_content : string;
  s_startDate : string;
  s_startTime : string;
  s_endDate : string;
  s_endTime : string;
  s_allDay : bool;
  s_isNote : bool;
  s_priority : Priority;
  s_event : option MyEvent;          (* the item being edited, if any *)
  s_editor : option string           (* editorRef.current.innerHTML *)
}.

(** The boundaries of the event the form describes. *)
Definition eventStart (h : Host) (st : State) : JsDate.Date :=
  if s_allDay st
  then JsDate.parse (hostTimezoneOffset h) (s_startDate st +:+ "T00:00:00")
  else JsDate.parse (hostTimezoneOffset h) (s_startDate st +:+ "T" +:+ s_startTime st).

Definition eventEnd (h : Host) (st : State) : JsDate.Date :=
  if s_allDay st
  then JsDate.parse (hostTimezoneOffset h) (s_endDate st +:+ "T23:59:59")
  else JsDate.parse (hostTimezoneOffset h) (s_endDate st +:+ "T" +:+ s_endTime st).

Definition validateEventTimes (h : Host) (st : State) : M bool :=
  if s_allDay st then ret true
  else
    let start_ := JsDate.parse (hostTimezoneOffset h) (s_startDate st +:+ "T" +:+ s_startTime st) in
    let end' := JsDate.parse (hostTimezoneOffset h) (s_endDate st +:+ "T" +:+ s_endTime st) in
    if JsDate.date_le end' start_ then
      toast (toast_error "End time must be after start time") ;;; ret false
    else ret true.

Definition some_if {A} (b : bool) (a : A) : option A := if b then Some a else None.

(** A timestamp of the store; [None] is the timestamp of NaN seconds. *)
Definition Timestamp : Type := option Z.

(** The first instant of the year 1 and the first instant of the year
    10000: a timestamp lies between them. *)
Definition Timestamp_min : Z := -62135596800000.
Definition Timestamp_max : Z := 253402300800000.

(** [Timestamp.fromDate]: a date outside the years 1 to 9999 is refused;
    the invalid date passes the range tests and gives the timestamp of
    NaN seconds. *)
Definition Timestamp_fromDate (d : JsDate.Date) : M Timestamp :=
  match d with
  | Some t =>
      if (t <? Timestamp_min) || (Timestamp_max <=? t)
      then throw ("Timestamp seconds out of range: " +:+ string_of_Z (t / 1000))
      else ret (Some t)
  | None => ret None
  end.

(** [addDoc] and [updateDoc] encode the data before anything is written;
    the timestamp of NaN seconds has no encoding. [data] gives the
    document from the two encoded timestamps. *)
Definition encode (data : Z → Z → Doc) (ts_start ts_end : Timestamp) : M Doc :=
  match ts_start, ts_end with
  | Some s, Some e => ret (data s e)
  | _, _ => throw "Invalid time value"
  end.

(** [format(date, 'yyyy-MM-dd')] of date-fns: the local fields, each
    padded with zeros; a year before year 1 is written as 1 - year. *)
Definition addLeadingZeros (n : Z) (targetLength : nat) : string :=
  let digits := string_of_Z (Z.abs n) in
  (if n <? 0 then "-" else "") +:+
  String.concat "" (replicate (targetLength - String.length digits) "0") +:+ digits.

Definition format_yyyy_MM_dd (h : Host) (t : Z) : string :=
  let '(signedYear, month, day) :=
    JsDate.civil_from_days (JsDate.Day (JsDate.LocalTime (hostTimezoneOffset h) t)) in
  let year := if 0 <? signedYear then signedYear else 1 - signedYear in
  addLeadingZeros year 4 +:+ "-" +:+ addLeadingZeros month 2 +:+ "-" +:+
  addLeadingZeros day 2.

(** [format] refuses the invalid date. *)
Definition format (h : Host) (date : JsDate.Date) : M string :=
  match date with
  | Some t => ret (format_yyyy_MM_dd h t)
  | None => throw "Invalid time value"
  end.

Definition handleSubmit (h : Host) (st : State) : M unit :=
  if String.eqb (trim (s_title st)) "" then toast (toast_error "Please enter a title")
  else
    invalid <~ (if negb (s_isNote st)
                then (ok <~ validateEventTimes h st ;; ret (negb ok))
                else ret false) ;;
    if invalid then ret tt
    else
      let isNote := s_isNote st in
      let allDay_ := s_allDay st in
      let currentContent :=
        if isNote then
          match s_editor st with
          | Some html => html
          | None => s_content st
          end
        else s_content st in
      let event_gid := e ← s_event st; res_googleEventId e in
      try_catch
        (t <~ (λ w, ret (now w) w) ;;
         let startDateTime := if isNote then Some t else eventStart h st in
         let endDateTime := if isNote then Some t else eventEnd h st in
         ts_start <~ Timestamp_fromDate startDateTime ;;
         ts_end <~ Timestamp_fromDate endDateTime ;;
         let eventData (start_ end' : Z) :=
           {| d_title := Some (trim (s_title st));
              d_start := Some start_;
              d_end := Some end';
              d_content := some_if (negb (String.eqb (trim currentContent) "")) (trim currentContent);
              d_isNote := some_if isNote true;
              d_allDay := some_if (negb isNote) allDay_;
              d_priority := some_if (negb isNote) (s_priority st);
              d_googleEventId :=
                if negb isNote && truthy event_gid then event_gid else None |} in
         match (e ← s_event st; i ← id e; some_if (negb (String.eqb i "")) i) with
         | Some event_id =>
             data <~ encode eventData ts_start ts_end ;;
             updateDoc (Dashboard.collectionName isNote) event_id data ;;;
             (if negb isNote && truthy event_gid then
                try_catch
                  (GoogleCalendarService.updateEvent h
                     {| id := Some event_id;
                        title := trim (s_title st);
                        start := startDateTime;
                        end_ := endDateTime;
                        allDay := Some allDay_;
                        resource := Some {| isNote := Some false;
                                            content := Some (trim currentContent);
                                            color := None;
                                            priority := Some (s_priority st);
                                            googleEventId := event_gid;
                                            syncedToGoogle := None |} |})
                  (λ _, ret tt)
              else ret tt) ;;;
             toast (toast_success (if isNote then "Note updated successfully"
                                   else "Event updated successfully"))
         | None =>
             data <~ encode eventData ts_start ts_end ;;
             docRef <~ addDoc (Dashboard.collectionName isNote) data ;;
             (if negb isNote then
                try_catch
                  (googleEventId <~ GoogleCalendarService.syncEvent h
                     {| id := Some docRef;
                        title := trim (s_title st);
                        start := startDateTime;
                        end_ := endDateTime;
                        allDay := Some allDay_;
                        resource := Some {| isNote := Some false;
                                            content := Some (trim currentContent);
                                            color := None;
                                            priority := Some (s_priority st);
                                            googleEventId := None;
                                            syncedToGoogle := None |} |} ;;
                   if truthy googleEventId then
                     updateDoc events_collection docRef
                       {| d_title := None; d_start := None; d_end := None;
                          d_content := None; d_isNote := None; d_allDay := None;
                          d_priority := None; d_googleEventId := googleEventId |}
                   else ret tt)
                  (λ _, ret tt)
              else ret tt) ;;;
             toast (toast_success (if isNote then "Note created successfully"
                                   else "Event created successfully"))
         end)
        (λ _, toast (toast_error "Failed to save. Please try again.")).

(** The form that creates an event on a date detected in the text of a
    note; [selectedDetectedDate] is the date, if one is selected. *)
Record EventFormData := {
  f_title : string;
  f_startTime : string;
  f_endTime : string
}.

Definition handleCreateEventFromDate (h : Host) (selectedDetectedDate : option JsDate.Date)
    (eventFormData : EventFormData) : M unit :=
  match selectedDetectedDate with
  | None => ret tt
  | Some date =>
      if String.eqb (trim (f_title eventFormData)) "" then ret tt
      else
        try_catch
          (startDay <~ format h date ;;
           let startDateTime :=
             JsDate.parse (hostTimezoneOffset h)
               (startDay +:+ "T" +:+ f_startTime eventFormData) in
           endDay <~ format h date ;;
           let endDateTime :=
             JsDate.parse (hostTimezoneOffset h)
               (endDay +:+ "T" +:+ f_endTime eventFormData) in
           ts_start <~ Timestamp_fromDate startDateTime ;;
           ts_end <~ Timestamp_fromDate endDateTime ;;
           let eventData (start_ end' : Z) :=
             {| d_title := Some (trim (f_title eventFormData));
                d_start := Some start_;
                d_end := Some end';
                d_content := None;
                d_isNote := None;
                d_allDay := Some false;
                d_priority := Some medium;
                d_googleEventId := None |} in
           data <~ encode eventData ts_start ts_end ;;
           docRef <~ addDoc events_collection data ;;
           try_catch
             (googleEventId <~ GoogleCalendarService.syncEvent h
                {| id := Some docRef;
                   title := trim (f_title eventFormData);
                   start := startDateTime;
                   end_ := endDateTime;
                   allDay := Some false;
                   resource := Some {| isNote := Some false;
                                       content := None;
                                       color := None;
                                       priority := Some medium;
                                       googleEventId := None;
                                       syncedToGoogle := None |} |} ;;
              if truthy googleEventId then
                updateDoc events_collection docRef
                  {| d_title := None; d_start := None; d_end := None;
                     d_content := None; d_isNote := None; d_allDay := None;
                     d_priority := None; d_googleEventId := googleEventId |}
              else ret tt)
             (λ _, ret tt) ;;;
           toast (toast_success "Event created successfully!"))
          (λ _, toast (toast_error "Failed to create event"))
  end.

End EditorPanel.

(* ===================================================================== *)
(** ** Auxiliary notions used in the statements *)

(** The identifier alone, as the handlers write it to the document of an
    event after a create. *)
Definition link_data (googleEventId : option string) : Doc :=
  {| d_title := None; d_start := None; d_end := None;
     d_content := None; d_isNote := None; d_allDay := None;
     d_priority := None; d_googleEventId := googleEventId |}.

(** The character occurs in the text. *)
Fixpoint has_char (c : ascii) (s : string) : bool :=
  match s with
  | String c' r => Ascii.eqb c' c || has_char c r
  | EmptyString => false
  end.

(** The calendar date, as text, of a time value read in the host's zone. *)
Definition localDate (h : Host) (t : Z) : string :=
  JsDate.isoDate (JsDate.Day (JsDate.LocalTime (hostTimezoneOffset h) t)).

(** The calendar date one day after the local date of a time value. *)
Definition localDate_next (h : Host) (t : Z) : string :=
  JsDate.isoDate (JsDate.Day (JsDate.LocalTime (hostTimezoneOffset h) t) + 1).

(** The local time value of a calendar day at a time of the day. *)
Definition local_time_on (h : Host) (y m d time : Z) : Z :=
  JsDate.UTC (hostTimezoneOffset h) (JsDate.MakeDate (JsDate.days_from_civil y m d) time).

(** A date-only boundary of a remote event. *)
Definition date_only (text : string) : EventTime :=
  {| dateTime := None; timeZone := None; date := Some text |}.

(** Reading a colour tag back. *)
Definition priority_of_colorId (tag : string) : option Priority :=
  if String.eqb tag "2" then Some low
  else if String.eqb tag "9" then Some medium
  else if String.eqb tag "11" then Some high
  else None.

(** The service holds a credential: a signed-in user and a stored token. *)
Definition authenticated (w : World) : bool :=
  currentUser w && truthy (google_access_token w).

(** The service with the connection check finds a token in one of the two
    storages. *)
Definition has_token (w : World) : bool :=
  truthy (googleAccessToken w) || truthy (google_access_token w).

(** The requests a computation sends when run from a world. *)
Definition requests_of {A} (m : M A) (w : World) : list Request :=
  drop (length (sent w)) (sent (m w).2).

Definition is_create (r : Request) : bool :=
  match r with POST _ => true | _ => false end.

(** The JSON the provider's next answer carries, when that answer is a
    success with a body. *)
Definition next_json (w : World) : option Json :=
  match remote w with
  | Http status (Some j) :: _ => if response_ok status then Some j else None
  | _ => None
  end.

(** The world after the provider's next answer has been consumed by a
    request. *)
Definition consume (req : Request) (w : World) : World :=
  set_remote (tail (remote w)) (sent w ++ [req]) w.

(** The world after [makeRequest] of the token service: nothing is sent
    without a credential, and an answer 401 clears the stored token. *)
Definition after_makeRequest (req : Request) (w : World) : World :=
  if authenticated w then
    match remote w with
    | Http status _ :: _ =>
        if negb (response_ok status) && (status =? 401)
        then set_token None (consume req w)
        else consume req w
    | _ => consume req w
    end
  else w.

(** What the caller of [syncEvent] does with its result: a truthy
    identifier is stored on the item ([updateDoc(docRef, {googleEventId})] in
    the editor, read back by the snapshot listener). *)
Definition record_link (event : MyEvent) (result : option string) : MyEvent :=
  if truthy result
  then with_resource event (spread_googleEventId (resource event) result)
  else event.


Definition result_or {A} (d : A) (r : Exn + A) : A :=
  match r with inr a => a | inl _ => d end.

(** The first loop of a batch service, unrolled: the entries pushed for the
    local items, in order, and the world after the loop. *)
Fixpoint push_all (step : MyEvent → M MyEvent) (l : list MyEvent) (w : World)
    : list MyEvent * World :=
  match l with
  | [] => ([], w)
  | e :: r =>
      let p := result_or e (step e w).1 in
      let rest := push_all step r (step e w).2 in
      (p :: rest.1, rest.2)
  end.

(** The key of an entry of the merged list: the remote identifier when the
    entry has one, its local id otherwise. *)
Definition merge_key (e : MyEvent) : string + option string :=
  match res_googleEventId e with
  | Some g => inl g
  | None => inr (id e)
  end.

(** An entry pushed for a local item is the item itself, or the item with
    the resource rewritten around an identifier. *)
Definition pushed_for (l p : MyEvent) : Prop :=
  p = l ∨
  ∃ g, p = with_resource l (spread_googleEventId (resource l) g) ∨
       p = with_resource l (spread_synced (resource l) g).

(** The requests that address the events collection (the connection check
    sends others). *)
Definition is_event_request (r : Request) : bool :=
  match r with
  | GET_primary | POST_oauth_token _ => false
  | _ => true
  end.

Fixpoint event_requests (l : list Request) : list Request :=
  match l with
  | [] => []
  | r :: rest => if is_event_request r then r :: event_requests rest
                 else event_requests rest
  end.

Fixpoint count_creates (l : list Request) : nat :=
  match l with
  | [] => O
  | r :: rest => ((if is_create r then 1 else 0) + count_creates rest)%nat
  end.

(* ===================================================================== *)
(** ** Scenario values *)

Definition kolkata : Host :=
  {| hostTimeZone := "Asia/Kolkata"; hostTimezoneOffset := -330 |}.

Definition utc_host : Host :=
  {| hostTimeZone := "UTC"; hostTimezoneOffset := 0 |}.

Definition event_resource (p : option Priority) (g : option string) : Resource :=
  {| isNote := Some false; content := Some ""; color := None; priority := p;
     googleEventId := g; syncedToGoogle := None |}.

(** An all-day item from 2024-06-01 through 2024-06-03, local time. *)
Definition vacation (h : Host) : MyEvent :=
  {| id := Some "ev1"; title := "Vacation";
     start := Some (local_time_on h 2024 6 1 0);
     end_ := Some (local_time_on h 2024 6 3 (JsDate.MakeTime 23 59 59 0));
     allDay := Some true;
     resource := Some (event_resource None None) |}.

(** A timed item on 2024-05-01 from 09:00 to 09:30, local time. *)
Definition standup (h : Host) (g : option string) : MyEvent :=
  {| id := Some "ev2"; title := "Standup";
     start := Some (local_time_on h 2024 5 1 (JsDate.MakeTime 9 0 0 0));
     end_ := Some (local_time_on h 2024 5 1 (JsDate.MakeTime 9 30 0 0));
     allDay := Some false;
     resource := Some (event_resource (Some medium) g) |}.

Definition shopping_list : MyEvent :=
  {| id := Some "n1"; title := "Shopping list";
     start := Some 1717200000000; end_ := Some 1717200000000;
     allDay := Some true;
     resource := Some {| isNote := Some true; content := Some "milk"; color := None;
                         priority := None; googleEventId := None;
                         syncedToGoogle := None |} |}.

(** A browser session with a credential, an empty store and a provider
    that will give the scripted answers. *)
Definition browser (script : list Reply) : World :=
  {| currentUser := true; google_access_token := Some "token";
     googleAccessToken := None; googleRefreshToken := None; popups := [];
     isSignedIn := true; accessToken := Some "token";
     remote := script; sent := [];
     events := ∅; notes := ∅;
     store_available := true; fresh_ids := ["doc1"; "doc2"];
     now := 1717200000000; toasts := [] |}.

Definition created (g : string) : Reply :=
  Http 200 (Some {| json_id := Some g; json_items := None; json_access_token := None |}).

Definition listed (items : list GoogleItem) : Reply :=
  Http 200 (Some {| json_id := None; json_items := Some items; json_access_token := None |}).

(** A remote all-day event from 2024-06-01 to 2024-06-04 (exclusive). *)
Definition remote_vacation : GoogleItem :=
  {| item_id := "g7"; item_summary := Some "Vacation"; item_description := None;
     item_start := date_only "2024-06-01"; item_end := date_only "2024-06-04" |}.

(** An all-day form whose end date lies before its start date. *)
Definition backwards_trip : EditorPanel.State :=
  {| EditorPanel.s_title := "Trip"; EditorPanel.s_content := "";
     EditorPanel.s_startDate := "2024-06-05"; EditorPanel.s_startTime := "09:00";
     EditorPanel.s_endDate := "2024-06-01"; EditorPanel.s_endTime := "10:00";
     EditorPanel.s_allDay := true; EditorPanel.s_isNote := false;
     EditorPanel.s_priority := medium; EditorPanel.s_event := None;
     EditorPanel.s_editor := None |}.

(** A timed form whose end time lies before its start time. *)
Definition backwards_meeting : EditorPanel.State :=
  {| EditorPanel.s_title := "Meeting"; EditorPanel.s_content := "";
     EditorPanel.s_startDate := "2024-06-05"; EditorPanel.s_startTime := "10:00";
     EditorPanel.s_endDate := "2024-06-05"; EditorPanel.s_endTime := "09:00";
     EditorPanel.s_allDay := false; EditorPanel.s_isNote := false;
     EditorPanel.s_priority := medium; EditorPanel.s_event := None;
     EditorPanel.s_editor := None |}.

(** The form for a detected date, with an end time before its start
    time. *)
Definition backwards_call : EditorPanel.EventFormData :=
  {| EditorPanel.f_title := "Call"; EditorPanel.f_startTime := "10:00";
     EditorPanel.f_endTime := "09:00" |}.

(* ===================================================================== *)
(** ** services/googleCalendar.ts: the service on the Firebase sign-in *)

(** [FirebaseGoogleCalendarService]. [hasGoogleProvider] tells whether the
    user's provider data lists google.com. *)
Module FirebaseService.

Definition getAccessToken (hasGoogleProvider : bool) : M string :=
  λ w, if negb (currentUser w) then throw "User not authenticated" w
       else if negb hasGoogleProvider then
         throw "User did not sign in with Google. Please sign in with Google to sync calendar." w
       else
         throw "Calendar sync requires additional Google permissions. Please enable Google Calendar API with proper OAuth setup." w.

Definition makeRequest (hasGoogleProvider : bool) (req : Request) : M Json :=
  _token <~ getAccessToken hasGoogleProvider ;;
  response <~ fetch req ;;
  if negb (response_ok response.1) then
    throw ("HTTP " +:+ string_of_Z response.1 +:+ ": ")
  else response_json response.2.

Definition convertToGoogleEvent := convertToGoogleEvent_batch.

Definition createEvent (hasGoogleProvider : bool) (h : Host) (event : MyEvent)
    : M (option string) :=
  match convertToGoogleEvent h event with
  | None => throw "Invalid time value"
  | Some googleEvent =>
      result <~ makeRequest hasGoogleProvider (POST googleEvent) ;;
      ret (json_id result)
  end.

Definition getEvents (hasGoogleProvider : bool) (h : Host) (startDate endDate : Z)
    : M (list MyEvent) :=
  result <~ makeRequest hasGoogleProvider
              (GET (JsDate.toISOString startDate) (JsDate.toISOString endDate)) ;;
  ret (map (convertFromGoogleEvent h) (default [] (json_items result))).

Definition sync_local (hasGoogleProvider : bool) (h : Host) (localEvent : MyEvent)
    : M MyEvent :=
  try_catch
    (if negb (truthy (res_googleEventId localEvent)) then
       googleEventId <~ createEvent hasGoogleProvider h localEvent ;;
       ret (with_resource localEvent (spread_synced (resource localEvent) googleEventId))
     else ret localEvent)
    (λ _, ret localEvent).

Fixpoint sync_locals (hasGoogleProvider : bool) (h : Host)
    (localEvents syncedEvents : list MyEvent) : M (list MyEvent) :=
  match localEvents with
  | [] => ret syncedEvents
  | localEvent :: rest =>
      pushed <~ sync_local hasGoogleProvider h localEvent ;;
      sync_locals hasGoogleProvider h rest (syncedEvents ++ [pushed])
  end.

Definition syncEvents (hasGoogleProvider : bool) (h : Host) (localEvents : list MyEvent)
    : M (list MyEvent) :=
  try_catch
    (t <~ (λ w, ret (now w) w) ;;
     googleEvents <~ getEvents hasGoogleProvider h (sync_window h t).1 (sync_window h t).2 ;;
     syncedEvents <~ sync_locals hasGoogleProvider h localEvents [] ;;
     ret (merge_google_events googleEvents syncedEvents))
    (λ error, match error with Error msg => throw msg end).

End FirebaseService.

(* ===================================================================== *)
(** ** components/Dashboard.tsx: the snapshot listeners *)

(** A document of a snapshot: its id, its data and, for notes written by
    earlier versions, the [date] field. *)
Record SnapshotDoc := {
  doc_id : string;
  doc_data : Doc;
  doc_date : option Z
}.

Module DashboardFeed.

Definition eventsList (docs : list SnapshotDoc) : list MyEvent :=
  map (λ doc,
         let data := doc_data doc in
         {| id := Some (doc_id doc);
            title := or_else (d_title data) "Untitled Event";
            start := d_start data;
            end_ := d_end data;
            allDay := Some (truthy_bool (d_allDay data));
            resource := Some {| isNote := Some false;
                                content := Some (or_else (d_content data) "");
                                color := None;
                                priority := Some (default medium (d_priority data));
                                googleEventId :=
                                  if truthy (d_googleEventId data)
                                  then d_googleEventId data else None;
                                syncedToGoogle := None |} |})
      (filter (λ doc, is_Some (d_start (doc_data doc)) ∧ is_Some (d_end (doc_data doc)))
              docs).

Definition notesList (docs : list SnapshotDoc) : list MyEvent :=
  map (λ doc,
         let data := doc_data doc in
         let startDate := match d_start data with
                          | Some t => Some t
                          | None => doc_date doc
                          end in
         {| id := Some (doc_id doc);
            title := or_else (d_title data) "Untitled Note";
            start := startDate;
            end_ := match d_end data with
                    | Some t => Some t
                    | None => startDate
                    end;
            allDay := Some (default true (d_allDay data));
            resource := Some {| isNote := Some true;
                                content := Some (or_else (d_content data) "");
                                color := None;
                                priority := None;
                                googleEventId := None;
                                syncedToGoogle := None |} |})
      (filter (λ doc, is_Some (d_start (doc_data doc)) ∨ is_Some (doc_date doc)) docs).

(** The two state updates: [prev] is the component's [events] state. *)
Definition onEventsSnapshot (docs : list SnapshotDoc) (prev : list MyEvent)
    : list MyEvent :=
  filter (λ e, truthy_bool (res_isNote e)) prev ++ eventsList docs.

Definition onNotesSnapshot (docs : list SnapshotDoc) (prev : list MyEvent)
    : list MyEvent :=
  filter (λ e, negb (truthy_bool (res_isNote e))) prev ++ notesList docs.

End DashboardFeed.

(* ===================================================================== *)
(** ** components/Header.tsx *)

Module Header.

(** [onSyncCalendar] is the handler the dashboard passes down. *)
Definition handleGoogleCalendarSync (onSyncCalendar : option (M unit)) : M unit :=
  try_catch
    ((λ w, if truthy (googleAccessToken w) then ret tt w
           else throw "Google Calendar not connected" w) ;;;
     match onSyncCalendar with
     | Some sync => sync
     | None => ret tt
     end ;;;
     toast (toast_success "Calendar synced successfully"))
    (λ error, match error with
              | Error msg =>
                  toast (toast_error (if String.eqb msg ""
                                      then "Failed to sync with Google Calendar"
                                      else msg))
              end).

End Header.

(* ===================================================================== *)
(** ** CalendarPanel (components/TypeSelector.tsx): the items of a day *)

Module CalendarPanel.
Import JsDate.

Section HostZone.
Variable off : Z.

Definition getFullYear (t : Z) : Z :=
  let '(y, _, _) := civil_from_days (Day (LocalTime off t)) in y.

(** [new Date(year, month, date)]: the local midnight of the day; a year
    from 0 to 99 stands for 1900 + year. *)
Definition Date_of_fields (year month date : Z) : Z :=
  let yr := if (0 <=? year) && (year <=? 99) then 1900 + year else year in
  UTC off (MakeDate (MakeDay yr month date) 0).

(** [isSameDay] of date-fns: the two start in the same local day. *)
Definition isSameDay (a b : Z) : bool :=
  Day (LocalTime off a) =? Day (LocalTime off b).

Definition shown_on (date : Z) (event : MyEvent) : bool :=
  if truthy_bool (allDay event) then
    match start event, end_ event with
    | Some s, Some e =>
        let eventStart := Date_of_fields (getFullYear s) (getMonth off s) (getDate off s) in
        let eventEnd := Date_of_fields (getFullYear e) (getMonth off e) (getDate off e) in
        let checkDate :=
          Date_of_fields (getFullYear date) (getMonth off date) (getDate off date) in
        (eventStart <=? checkDate) && (checkDate <=? eventEnd)
    | _, _ => false
    end
  else
    match start event with
    | Some s => isSameDay s date
    | None => false
    end.

Definition getEventsForDate (events : list MyEvent) (date : Z) : list MyEvent :=
  filter (λ event, shown_on date event) events.

End HostZone.

End CalendarPanel.

(* ===================================================================== *)
(** ** utils/dateDetection.ts: the day a weekday phrase names *)

Module DateDetection.
Import JsDate.

(** [Date.prototype.getDay]: 0 is Sunday. *)
Definition getDay (off t : Z) : Z := (Day (LocalTime off t) + 4) mod 7.

(** The branch of [detectDatesInText] for "next" or "this" followed by a
    weekday: [isNext] tells whether the phrase holds "next", [targetDay] is
    the index of the weekday, [now] is the clock. *)
Definition weekday_date (off : Z) (isNext : bool) (targetDay now : Z) : Z :=
  let currentDay := getDay off now in
  let daysUntilTarget := Z.rem (targetDay - currentDay + 7) 7 in
  if isNext || (daysUntilTarget =? 0) then
    setDate off now (getDate off now + (if daysUntilTarget =? 0 then 7 else daysUntilTarget))
  else
    setDate off now (getDate off now + daysUntilTarget).

End DateDetection.

(* ===================================================================== *)
(** ** Further notions used in the statements *)

(** The event as the provider lists it after a create or an update with
    the body [googleEvent], under the identifier [gid]. *)
Definition listed_as (gid : string) (googleEvent : GoogleEvent) : GoogleItem :=
  {| item_id := gid;
     item_summary := Some (summary googleEvent);
     item_description := Some (description googleEvent);
     item_start := g_start googleEvent;
     item_end := g_end googleEvent |}.

(** The request the gapi batch sends for one local item. *)
Definition gapi_requests_for (h : Host) (e : MyEvent) : list Request :=
  if truthy_bool (res_isNote e) then []
  else
    match GapiService.convertToGoogleEvent h e with
    | Some googleEvent =>
        if truthy (res_googleEventId e)
        then [PUT (default "" (res_googleEventId e)) googleEvent]
        else [POST googleEvent]
    | None => []
    end.

(** The request the batch of the working service sends for one local
    item, once it holds a token. *)
Definition working_requests_for (h : Host) (e : MyEvent) : list Request :=
  if truthy (res_googleEventId e) then []
  else
    match WorkingService.convertToGoogleEvent h e with
    | Some googleEvent => [POST googleEvent]
    | None => []
    end.

(** The documents of a snapshot of a collection. *)
Definition snapshot_docs (c : gmap string Doc) : list SnapshotDoc :=
  map (λ p : string * Doc, {| doc_id := p.1; doc_data := p.2; doc_date := None |})
      (map_to_list c).

(** The first instant and the last instant of the years 0 to 9999. *)
Definition min_four_digit_year : Z := -62167219200000.
Definition max_four_digit_year : Z := 253402300799999.

(** The text is a sequence of white-space characters. *)
Fixpoint all_space (s : string) : bool :=
  match s with
  | String a r1 =>
      if is_space a then all_space r1
      else
        match r1 with
        | String b r2 =>
            if is_space2 a b then all_space r2
            else
              match r2 with
              | String c r3 => is_space3 a b c && all_space r3
              | EmptyString => false
              end
        | EmptyString => false
        end
  | EmptyString => true
  end.

(** The provider's next answer is no success: a status outside 2xx, or no
    answer at all. *)
Definition next_fails (w : World) : bool :=
  match remote w with
  | Http status _ :: _ => negb (response_ok status)
  | _ => true
  end.

(** A computation leaves an observation of the world as it was, whatever
    it returns or throws. *)
Definition keeps {A B} (f : World → B) (m : M A) : Prop :=
  ∀ w, f (m w).2 = f w.

(** Every request a computation sends satisfies [P]. *)
Definition sends_only {A} (P : Request → Prop) (m : M A) : Prop :=
  ∀ w, ∃ l, sent (m w).2 = sent w ++ l ∧ Forall P l.

(* ===================================================================== *)
(** ** Further scenario values *)

(** A browser session: with or without a signed-in user and credential,
    with the store reachable or not. *)
Definition session (user available : bool) (script : list Reply) : World :=
  {| currentUser := user;
     google_access_token := if user then Some "token" else None;
     googleAccessToken := None; googleRefreshToken := None; popups := [];
     isSignedIn := user; accessToken := if user then Some "token" else None;
     remote := script; sent := [];
     events := ∅; notes := ∅;
     store_available := available; fresh_ids := ["doc1"; "doc2"];
     now := 1717200000000; toasts := [] |}.

(** An item whose dates could not be read. *)
Definition undated : MyEvent :=
  {| id := Some "ev3"; title := "Undated"; start := None; end_ := None;
     allDay := Some false; resource := Some (event_resource None None) |}.

(** A timed form for 2024-06-05 from 10:00 to 11:00; [item] is the event
    being edited, if any. *)
Definition planning (startDate : string) (item : option MyEvent) : EditorPanel.State :=
  {| EditorPanel.s_title := "Planning"; EditorPanel.s_content := "agenda";
     EditorPanel.s_startDate := startDate; EditorPanel.s_startTime := "10:00";
     EditorPanel.s_endDate := "2024-06-05"; EditorPanel.s_endTime := "11:00";
     EditorPanel.s_allDay := false; EditorPanel.s_isNote := false;
     EditorPanel.s_priority := high; EditorPanel.s_event := item;
     EditorPanel.s_editor := None |}.

(** A form whose title is a space, a no-break space (U+00A0) and a tab. *)
Definition untitled_form : EditorPanel.State :=
  {| EditorPanel.s_title := String " " (String "194" (String "160" (String "009" "")));
     EditorPanel.s_content := "";
     EditorPanel.s_startDate := "2024-06-05"; EditorPanel.s_startTime := "10:00";
     EditorPanel.s_endDate := "2024-06-05"; EditorPanel.s_endTime := "11:00";
     EditorPanel.s_allDay := false; EditorPanel.s_isNote := false;
     EditorPanel.s_priority := medium; EditorPanel.s_event := None;
     EditorPanel.s_editor := None |}.

(** A stored event document that carries the identifier [g]. *)
Definition linked_doc (g : string) : Doc :=
  {| d_title := Some "Standup"; d_start := Some 1714534200000;
     d_end := Some 1714536000000; d_content := None; d_isNote := None;
     d_allDay := Some false; d_priority := Some medium;
     d_googleEventId := Some g |}.

(** A browser session whose local storage holds an access token, as the
    service with the connection check reads it. *)
Definition connected_browser (script : list Reply) : World :=
  set_local_tokens (Some "token") None (browser script).

(** A browser session whose store holds the document of the item "ev2",
    linked to [g]. *)
Definition editing_session (g : string) (script : list Reply) : World :=
  set_store {[ "ev2" := linked_doc g ]} ∅ ["doc1"; "doc2"] (browser script).

(* ===================================================================== *)
(** * Properties *)

(** ** Calendar arithmetic *)

Ltac zdiv := Z.to_euclidean_division_equations; lia.

Ltac bool_to_Z :=
  repeat match goal with
    | H : (_ <=? _) = true |- _ => apply Z.leb_le in H
    | H : (_ <=? _) = false |- _ => apply Z.leb_gt in H
    | H : (_ <? _) = true |- _ => apply Z.ltb_lt in H
    | H : (_ <? _) = false |- _ => apply Z.ltb_ge in H
    | H : (_ =? _) = true |- _ => apply Z.eqb_eq in H
    | H : (_ =? _) = false |- _ => apply Z.eqb_neq in H
    end.

Section Calendar.
Import JsDate.

Lemma yoe_of_doe_bounds doe : 0 ≤ doe < 146097 → 0 ≤ yoe_of_doe doe ≤ 399.
Proof. intros. unfold yoe_of_doe. zdiv. Qed.

Lemma doy_of_doe_bounds doe : 0 ≤ doe < 146097 → 0 ≤ doy_of_doe doe ≤ 365.
Proof. intros. unfold doy_of_doe, yoe_of_doe. zdiv. Qed.

(** The month of a day number lies in 1..12 and the day is positive. *)
Lemma civil_from_days_range z y m d :
  civil_from_days z = (y, m, d) → 1 ≤ m ≤ 12 ∧ 1 ≤ d ≤ 31.
Proof.
  unfold civil_from_days.
  set (doe := (z + 719468) mod 146097).
  assert (Hdoe : 0 ≤ doe < 146097) by (apply Z.mod_pos_bound; lia).
  pose proof (doy_of_doe_bounds doe Hdoe) as Hdoy.
  set (doy := doy_of_doe doe) in *.
  intros [= _ <- <-].
  destruct ((5 * doy + 2) / 153 <? 10) eqn:Hlt; bool_to_Z; zdiv.
Qed.

(** [days_from_civil] inverts [civil_from_days]. *)
Lemma days_from_civil_of_days z y m d :
  civil_from_days z = (y, m, d) → days_from_civil y m d = z.
Proof.
  unfold civil_from_days.
  set (z0 := z + 719468).
  set (era := z0 / 146097).
  set (doe := z0 mod 146097).
  assert (Hdoe : 0 ≤ doe < 146097) by (apply Z.mod_pos_bound; lia).
  pose proof (yoe_of_doe_bounds doe Hdoe) as Hyoe.
  pose proof (doy_of_doe_bounds doe Hdoe) as Hdoy.
  assert (Hz0 : z0 = 146097 * era + doe) by (apply Z.div_mod; lia).
  assert (Hsplit : doe = 365 * yoe_of_doe doe + yoe_of_doe doe / 4
                         - yoe_of_doe doe / 100 + doy_of_doe doe)
    by (unfold doy_of_doe; lia).
  set (yoe := yoe_of_doe doe) in *.
  set (doy := doy_of_doe doe) in *.
  set (mp := (5 * doy + 2) / 153).
  assert (Hmp : 0 ≤ mp ≤ 11) by (unfold mp; zdiv).
  assert (Hz : z = z0 - 719468) by (unfold z0; lia).
  intros [= <- <- <-].
  unfold days_from_civil.
  destruct (mp <? 10) eqn:Hlt; bool_to_Z.
  - replace (mp + 3 <=? 2) with false by (symmetry; apply Z.leb_gt; lia).
    replace (2 <? mp + 3) with true by (symmetry; apply Z.ltb_lt; lia).
    replace ((yoe + era * 400 + 0) / 400) with era by zdiv.
    replace ((yoe + era * 400 + 0) mod 400) with yoe by zdiv.
    replace (mp + 3 - 3) with mp by lia.
    fold mp. lia.
  - replace (mp - 9 <=? 2) with true by (symmetry; apply Z.leb_le; lia).
    replace (2 <? mp - 9) with false by (symmetry; apply Z.ltb_ge; lia).
    replace ((yoe + era * 400 + 1 - 1) / 400) with era by zdiv.
    replace ((yoe + era * 400 + 1 - 1) mod 400) with yoe by zdiv.
    replace (mp - 9 + 9) with mp by lia.
    fold mp. lia.
Qed.

Lemma days_from_civil_day y m d : days_from_civil y m d = days_from_civil y m 1 + d - 1.
Proof. unfold days_from_civil. lia. Qed.

(** [MakeDay] on the fields of a day number, with the date moved. *)
Lemma MakeDay_of_days z y m d date :
  civil_from_days z = (y, m, d) → MakeDay y (m - 1) date = z + (date - d).
Proof.
  intros Hc. unfold MakeDay.
  destruct (civil_from_days_range _ _ _ _ Hc) as [Hm _].
  replace ((m - 1) / 12) with 0 by zdiv.
  replace ((m - 1) mod 12 + 1) with m by zdiv.
  rewrite Z.add_0_r.
  pose proof (days_from_civil_of_days _ _ _ _ Hc) as Hinv.
  rewrite days_from_civil_day in Hinv. lia.
Qed.

Lemma Day_MakeDate day time : 0 ≤ time < msPerDay → Day (MakeDate day time) = day.
Proof. unfold Day, MakeDate, msPerDay. intros. zdiv. Qed.

Lemma TimeWithinDay_bounds t : 0 ≤ TimeWithinDay t < msPerDay.
Proof. unfold TimeWithinDay, msPerDay. apply Z.mod_pos_bound. lia. Qed.

Lemma LocalTime_eq off t : t - off * 60000 = LocalTime off t.
Proof. reflexivity. Qed.

Lemma LocalTime_UTC off t : LocalTime off (UTC off t) = t.
Proof. unfold LocalTime, UTC. lia. Qed.

(** [d.setDate(d.getDate() + 1)] moves the local calendar day by one and
    keeps the local time of the day. *)
Lemma setDate_next_day off t :
  LocalTime off (setDate off t (getDate off t + 1))
  = MakeDate (Day (LocalTime off t) + 1) (TimeWithinDay (LocalTime off t)).
Proof.
  unfold setDate, getDate.
  destruct (civil_from_days (Day (LocalTime off t))) as [[y m] d] eqn:Hc.
  rewrite LocalTime_UTC.
  rewrite (MakeDay_of_days _ _ _ _ _ Hc). f_equal. lia.
Qed.

Lemma Day_setDate_next off t :
  Day (LocalTime off (setDate off t (getDate off t + 1))) = Day (LocalTime off t) + 1.
Proof. rewrite setDate_next_day. apply Day_MakeDate, TimeWithinDay_bounds. Qed.

End Calendar.

(** ** Formatting and parsing of dates *)

Section Text.
Import JsDate.

Lemma append_cons x (a b : string) : String x a +:+ b = String x (a +:+ b).
Proof. reflexivity. Qed.

Lemma append_nil_l (b : string) : "" +:+ b = b.
Proof. reflexivity. Qed.

Lemma append_nil_r (a : string) : a +:+ "" = a.
Proof. induction a as [|x a IH]; [reflexivity|]. by rewrite append_cons, IH. Qed.

Lemma append_assoc (a b c : string) : (a +:+ b) +:+ c = a +:+ (b +:+ c).
Proof.
  induction a as [|x a IH]; [reflexivity|].
  by rewrite !append_cons, IH.
Qed.

Lemma has_char_append c a b : has_char c (a +:+ b) = has_char c a || has_char c b.
Proof.
  induction a as [|x a IH]; [reflexivity|].
  rewrite append_cons. simpl. rewrite IH. apply orb_assoc.
Qed.

Lemma split_head_append sep a b :
  has_char sep a = false → split_head sep (a +:+ String sep b) = a.
Proof.
  induction a as [|x a IH].
  - intros _. rewrite append_nil_l. simpl. by rewrite Ascii.eqb_refl.
  - simpl. intros H. apply orb_false_iff in H as [Hx Ha].
    rewrite ?append_cons. simpl. rewrite Hx. f_equal. by apply IH.
Qed.

Lemma digit_of_digit_char n : digit_of (digit_char n) = Some (n mod 10).
Proof.
  unfold digit_of, digit_char.
  assert (Hr : 0 ≤ n mod 10 < 10) by (apply Z.mod_pos_bound; lia).
  rewrite nat_ascii_embedding by lia.
  rewrite Z2Nat.id by lia.
  replace (48 <=? 48 + n mod 10) with true by (symmetry; apply Z.leb_le; lia).
  replace (48 + n mod 10 <=? 57) with true by (symmetry; apply Z.leb_le; lia).
  simpl. f_equal. lia.
Qed.

(** A character that is not a digit is not written by [digit_char]. *)
Lemma digit_char_neq c n : digit_of c = None → Ascii.eqb (digit_char n) c = false.
Proof.
  intros Hc. destruct (Ascii.eqb_spec (digit_char n) c) as [<-|]; [|reflexivity].
  by rewrite digit_of_digit_char in Hc.
Qed.

Lemma has_char_fmt_digits c w n : digit_of c = None → has_char c (fmt_digits w n) = false.
Proof.
  intros Hc. revert n. induction w as [|k IH]; intros n; simpl; [reflexivity|].
  rewrite has_char_append, IH. simpl.
  by rewrite digit_char_neq.
Qed.

Lemma has_char_T_isoDate day : has_char "T" (isoDate day) = false.
Proof.
  unfold isoDate. destruct (civil_from_days day) as [[y m] d].
  unfold fmt_date, fmt_year.
  destruct ((0 <=? y) && (y <=? 9999)); [|destruct (y <? 0)];
    repeat (rewrite has_char_append || rewrite has_char_fmt_digits by reflexivity);
    reflexivity.
Qed.

(** [t.toISOString().split('T')[0]] is the date text of the UTC day. *)
Lemma split_T_toISOString t : split_head "T" (toISOString t) = isoDate (Day t).
Proof.
  unfold toISOString.
  rewrite (append_cons "T" "" _), append_nil_l.
  apply split_head_append, has_char_T_isoDate.
Qed.

Lemma take_digits_cons w acc c r :
  take_digits (S w) acc (String c r)
  = match digit_of c with
    | Some d => take_digits w (acc * 10 + d) r
    | None => None
    end.
Proof. reflexivity. Qed.

Lemma take_digits_step w acc s :
  take_digits (S w) acc s
  = '(x, r) ← take_digits w acc s; take_digits 1 x r.
Proof.
  revert acc s. induction w as [|k IH]; intros acc s.
  - simpl. destruct s as [|c r]; [reflexivity|]. by destruct (digit_of c).
  - destruct s as [|c r]; [reflexivity|].
    rewrite (take_digits_cons (S k)), (take_digits_cons k).
    destruct (digit_of c) as [d|]; [apply IH|reflexivity].
Qed.

(** Reading back the digits that [fmt_digits] wrote. *)
Lemma take_digits_fmt w n acc rest :
  take_digits w acc (fmt_digits w n +:+ rest)
  = Some (acc * 10 ^ Z.of_nat w + n mod 10 ^ Z.of_nat w, rest).
Proof.
  revert n acc rest. induction w as [|k IH]; intros n acc rest.
  - simpl. rewrite Z.mod_1_r. do 2 f_equal. lia.
  - rewrite take_digits_step. simpl fmt_digits.
    rewrite append_assoc, IH, append_cons, append_nil_l. simpl.
    rewrite digit_of_digit_char. do 2 f_equal.
    rewrite Nat2Z.inj_succ, Z.pow_succ_r by lia.
    assert (Hp : 0 < 10 ^ Z.of_nat k) by (apply Z.pow_pos_nonneg; lia).
    rewrite (Z.rem_mul_r n 10 (10 ^ Z.of_nat k)) by lia.
    lia.
Qed.

Lemma take_digits_fmt_2 n rest :
  0 ≤ n ≤ 99 → take_digits 2 0 (fmt_digits 2 n +:+ rest) = Some (n, rest).
Proof.
  intros. rewrite take_digits_fmt. do 2 f_equal.
  change (10 ^ Z.of_nat 2) with 100. rewrite Z.mod_small; lia.
Qed.

Lemma take_digits_fmt_4 n rest :
  0 ≤ n ≤ 9999 → take_digits 4 0 (fmt_digits 4 n +:+ rest) = Some (n, rest).
Proof.
  intros. rewrite take_digits_fmt. do 2 f_equal.
  change (10 ^ Z.of_nat 4) with 10000. rewrite Z.mod_small; lia.
Qed.

Ltac opt_step :=
  cbn [mbind option_bind expect]; rewrite ?Ascii.eqb_refl; cbn [mbind option_bind].

Lemma days_in_month_le y m : days_in_month y m ≤ 31.
Proof.
  unfold days_in_month.
  repeat match goal with |- context [if ?b then _ else _] => destruct b end; lia.
Qed.

(** The text [YYYY-MM-DDTHH:mm:ss] of a valid local date and time is read
    by [parse] as that local time. *)
Lemma parse_fmt_date_local off y m d hh mi ss :
  0 ≤ y ≤ 9999 → 1 ≤ m ≤ 12 → 1 ≤ d ≤ days_in_month y m →
  0 ≤ hh ≤ 23 → 0 ≤ mi ≤ 59 → 0 ≤ ss ≤ 59 →
  parse off (fmt_date y m d +:+ "T" +:+ fmt_digits 2 hh +:+ ":" +:+ fmt_digits 2 mi
             +:+ ":" +:+ fmt_digits 2 ss)
  = Some (UTC off (MakeDate (MakeDay y (m - 1) d) (MakeTime hh mi ss 0))).
Proof.
  intros Hy Hm Hd Hh Hmi Hs.
  pose proof (days_in_month_le y m) as Hle.
  unfold parse, fmt_date, fmt_year.
  replace ((0 <=? y) && (y <=? 9999)) with true
    by (symmetry; apply andb_true_iff; split; apply Z.leb_le; lia).
  rewrite <- (append_nil_r (fmt_digits 2 ss)).
  rewrite !append_assoc, !append_cons, !append_nil_l.
  rewrite take_digits_fmt_4 by lia. opt_step.
  rewrite take_digits_fmt_2 by lia. opt_step.
  rewrite take_digits_fmt_2 by lia. opt_step.
  replace ((1 <=? m) && (m <=? 12) && (1 <=? d) && (d <=? 31)) with true
    by (symmetry; repeat (apply andb_true_iff; split); apply Z.leb_le; lia).
  cbn [negb].
  rewrite take_digits_fmt_2 by lia. opt_step.
  rewrite take_digits_fmt_2 by lia. opt_step.
  unfold take_seconds.
  rewrite take_digits_fmt_2 by lia. opt_step.
  replace ((hh <=? 23) && (mi <=? 59) && (ss <=? 59)) with true
    by (symmetry; repeat (apply andb_true_iff; split); apply Z.leb_le; lia).
  reflexivity.
Qed.

Lemma MakeDay_civil y m d : 1 ≤ m ≤ 12 → MakeDay y (m - 1) d = days_from_civil y m d.
Proof.
  intros Hm. unfold MakeDay.
  replace ((m - 1) / 12) with 0 by zdiv.
  replace ((m - 1) mod 12 + 1) with m by zdiv.
  rewrite Z.add_0_r, (days_from_civil_day y m d). lia.
Qed.

(** [new Date(date + 'T00:00:00')] is the local midnight that starts the
    day, [new Date(date + 'T23:59:59')] the last second of the day. *)
Lemma parse_date_T000000 off y m d :
  0 ≤ y ≤ 9999 → 1 ≤ m ≤ 12 → 1 ≤ d ≤ days_in_month y m →
  parse off (fmt_date y m d +:+ "T00:00:00")
  = Some (UTC off (MakeDate (days_from_civil y m d) 0)).
Proof.
  intros Hy Hm Hd.
  pose proof (parse_fmt_date_local off y m d 0 0 0 Hy Hm Hd) as H.
  rewrite (MakeDay_civil y m d Hm) in H. apply H; lia.
Qed.

Lemma parse_date_T235959 off y m d :
  0 ≤ y ≤ 9999 → 1 ≤ m ≤ 12 → 1 ≤ d ≤ days_in_month y m →
  parse off (fmt_date y m d +:+ "T23:59:59")
  = Some (UTC off (MakeDate (days_from_civil y m d) (MakeTime 23 59 59 0))).
Proof.
  intros Hy Hm Hd.
  pose proof (parse_fmt_date_local off y m d 23 59 59 Hy Hm Hd) as H.
  rewrite (MakeDay_civil y m d Hm) in H. apply H; lia.
Qed.

End Text.

(** From here on the date functions are used through the lemmas above. *)
Opaque JsDate.toISOString JsDate.isoDate JsDate.split_head JsDate.parse
  JsDate.setDate JsDate.getDate JsDate.setMonth JsDate.getMonth
  JsDate.days_from_civil JsDate.civil_from_days.

(* ===================================================================== *)
(** ** Frame rules of the monad *)

Section Frame.
Context {B : Type} (f : World → B).

Lemma keeps_ret {A} (a : A) : keeps f (ret a).
Proof. by intros w. Qed.

Lemma keeps_throw {A} msg : keeps f (throw (A := A) msg).
Proof. by intros w. Qed.

Lemma keeps_bind {A C} (m : M A) (k : A → M C) :
  keeps f m → (∀ a, keeps f (k a)) → keeps f (bind m k).
Proof.
  intros Hm Hk w. unfold bind. specialize (Hm w).
  destruct (m w) as [[e|a] w1]; cbn [snd] in *; [exact Hm|].
  by rewrite Hk.
Qed.

Lemma keeps_try_catch {A} (m : M A) (k : Exn → M A) :
  keeps f m → (∀ e, keeps f (k e)) → keeps f (try_catch m k).
Proof.
  intros Hm Hk w. unfold try_catch. specialize (Hm w).
  destruct (m w) as [[e|a] w1]; cbn [snd] in *; [|exact Hm].
  by rewrite Hk.
Qed.

Lemma keeps_for_of {A} (l : list A) (body : A → M unit) :
  (∀ a, keeps f (body a)) → keeps f (for_of l body).
Proof.
  intros Hb. induction l as [|x l IH]; cbn [for_of]; [apply keeps_ret|].
  apply keeps_bind; [apply Hb|]. by intros _.
Qed.

End Frame.

(** Breaks a frame goal down along the structure of the computation. *)
Ltac keeps_step :=
  first
    [ apply keeps_ret
    | apply keeps_throw
    | apply keeps_bind; [|intros ?]
    | apply keeps_try_catch; [|intros ?]
    | apply keeps_for_of; intros ?
    | match goal with
      | |- keeps _ (if ?b then _ else _) => destruct b
      | |- keeps _ (match ?x with _ => _ end) => destruct x
      end ].

Section Sends.
Context (P : Request → Prop).

Lemma sends_only_keeps {A} (m : M A) : keeps sent m → sends_only P m.
Proof. intros Hm w. exists []. by rewrite Hm, app_nil_r. Qed.

Lemma sends_only_ret {A} (a : A) : sends_only P (ret a).
Proof. apply sends_only_keeps, keeps_ret. Qed.

Lemma sends_only_throw {A} msg : sends_only P (throw (A := A) msg).
Proof. apply sends_only_keeps, keeps_throw. Qed.

Lemma sends_only_bind {A C} (m : M A) (k : A → M C) :
  sends_only P m → (∀ a, sends_only P (k a)) → sends_only P (bind m k).
Proof.
  intros Hm Hk w. unfold bind. destruct (Hm w) as (l1 & H1 & F1).
  destruct (m w) as [[e|a] w1]; cbn [snd] in *; [by exists l1|].
  destruct (Hk a w1) as (l2 & H2 & F2).
  exists (l1 ++ l2). rewrite H2, H1, app_assoc. split; [done|by apply Forall_app].
Qed.

Lemma sends_only_try_catch {A} (m : M A) (k : Exn → M A) :
  sends_only P m → (∀ e, sends_only P (k e)) → sends_only P (try_catch m k).
Proof.
  intros Hm Hk w. unfold try_catch. destruct (Hm w) as (l1 & H1 & F1).
  destruct (m w) as [[e|a] w1]; cbn [snd] in *; [|by exists l1].
  destruct (Hk e w1) as (l2 & H2 & F2).
  exists (l1 ++ l2). rewrite H2, H1, app_assoc. split; [done|by apply Forall_app].
Qed.

Lemma sends_only_fetch req : P req → sends_only P (fetch req).
Proof.
  intros Hreq w. exists [req]. split; [|by repeat constructor].
  unfold fetch. by destruct (remote w) as [|[|status body] rs].
Qed.

Lemma sends_only_requests_of {A} (m : M A) w :
  sends_only P m → Forall P (requests_of m w).
Proof.
  intros Hm. destruct (Hm w) as (l & Hl & Fl).
  unfold requests_of. by rewrite Hl, drop_app_length.
Qed.

End Sends.

Lemma sends_only_nothing {A} (m : M A) w :
  sends_only (λ _, False) m → requests_of m w = [].
Proof.
  intros Hm. pose proof (sends_only_requests_of _ m w Hm) as Hall.
  destruct (requests_of m w) as [|r l]; [reflexivity|].
  by apply Forall_cons in Hall as [[] _].
Qed.

(** Breaks a goal on the requests sent down along the computation. *)
Ltac sends_step :=
  first
    [ apply sends_only_ret
    | apply sends_only_throw
    | apply sends_only_bind; [|intros ?]
    | apply sends_only_try_catch; [|intros ?]
    | match goal with
      | |- sends_only _ (if ?b then _ else _) => destruct b
      | |- sends_only _ (match ?x with _ => _ end) => destruct x
      end ].

Lemma keeps_sent_toast t : keeps sent (toast t).
Proof. by intros w. Qed.

Lemma keeps_sent_updateDoc c i data : keeps sent (updateDoc c i data).
Proof.
  intros w. unfold updateDoc. destruct (store_available w); [|reflexivity].
  destruct (collection_of c w !! i); [|reflexivity]. by destruct c.
Qed.

Lemma keeps_sent_addDoc c data : keeps sent (addDoc c data).
Proof.
  intros w. unfold addDoc. destruct (store_available w); [|reflexivity].
  destruct (fresh_ids w); [reflexivity|]. by destruct c.
Qed.

Lemma keeps_sent_deleteDoc c i : keeps sent (deleteDoc c i).
Proof.
  intros w. unfold deleteDoc. destruct (store_available w); [|reflexivity]. by destruct c.
Qed.

Lemma keeps_fetch_isSignedIn req : keeps isSignedIn (fetch req).
Proof. intros w. unfold fetch. by destruct (remote w) as [|[|status body] rs]. Qed.

Lemma keeps_fetch_store req : keeps (λ w, (events w, notes w, fresh_ids w, toasts w)) (fetch req).
Proof. intros w. unfold fetch. by destruct (remote w) as [|[|status body] rs]. Qed.

(* ===================================================================== *)
(** ** The translation to the remote representation *)

Section Translation.
Import JsDate GoogleCalendarService.

Lemma convertToGoogleEvent_all_day h event s e :
  allDay event = Some true → start event = Some s → end_ event = Some e →
  convertToGoogleEvent h event
  = Some {| summary := title event;
            description := or_else (res_content event) "";
            colorId := Some (colorMap (default medium (res_priority event)));
            g_start := date_only (localDate h s);
            g_end := date_only (localDate_next h e) |}.
Proof.
  intros Hall Hs He. unfold convertToGoogleEvent.
  rewrite Hall, Hs, He. cbn [truthy_bool mbind option_bind].
  rewrite !split_T_toISOString.
  unfold date_only, localDate, localDate_next.
  rewrite !LocalTime_eq, Day_setDate_next. reflexivity.
Qed.

Lemma convertToGoogleEvent_colorId h event googleEvent :
  convertToGoogleEvent h event = Some googleEvent →
  colorId googleEvent = Some (colorMap (default medium (res_priority event))).
Proof.
  unfold convertToGoogleEvent.
  destruct (truthy_bool (allDay event)), (start event), (end_ event);
    cbn [mbind option_bind]; intros [= <-]; reflexivity.
Qed.

Lemma convertToGoogleEvent_is_Some h event s e :
  start event = Some s → end_ event = Some e →
  is_Some (convertToGoogleEvent h event).
Proof.
  intros Hs He. unfold convertToGoogleEvent. rewrite Hs, He.
  destruct (truthy_bool (allDay event)); cbn [mbind option_bind]; eauto.
Qed.

(** The translation reads the title, the content, the priority, the
    all-day flag and the two dates of an item, nothing else. *)
Lemma convertToGoogleEvent_ext h e1 e2 :
  title e1 = title e2 → res_content e1 = res_content e2 →
  res_priority e1 = res_priority e2 → allDay e1 = allDay e2 →
  start e1 = start e2 → end_ e1 = end_ e2 →
  convertToGoogleEvent h e1 = convertToGoogleEvent h e2.
Proof.
  intros Ht Hc Hp Ha Hs He. unfold convertToGoogleEvent.
  by rewrite Ht, Hc, Hp, Ha, Hs, He.
Qed.

End Translation.

(** C8: the colour tag of the translated item is the image of its priority
    under the mapping low to "2", medium to "9", high to "11", with the
    medium tag when the item has no priority; the three tags are pairwise
    distinct, so the priority is read back from the tag. *)
Theorem C8_priority_colour_tag (h : Host) (event : MyEvent) (s e : Z) :
  start event = Some s → end_ event = Some e →
  (∃ googleEvent,
      GoogleCalendarService.convertToGoogleEvent h event = Some googleEvent ∧
      colorId googleEvent
      = Some (match res_priority event with
              | Some low => "2"
              | Some medium => "9"
              | Some high => "11"
              | None => "9"
              end)) ∧
  GoogleCalendarService.colorMap low = "2" ∧
  GoogleCalendarService.colorMap medium = "9" ∧
  GoogleCalendarService.colorMap high = "11" ∧
  (∀ p q, GoogleCalendarService.colorMap p = GoogleCalendarService.colorMap q → p = q) ∧
  (∀ p, priority_of_colorId (GoogleCalendarService.colorMap p) = Some p).
Proof.
  intros Hs He. split; [|repeat split].
  - destruct (convertToGoogleEvent_is_Some h event s e Hs He) as [g Hg].
    exists g. split; [exact Hg|].
    rewrite (convertToGoogleEvent_colorId _ _ _ Hg).
    by destruct (res_priority event) as [[]|].
  - intros [] []; cbn; congruence.
  - by intros [].
Qed.

(** The token service: for an all-day item both boundaries of the
    translation are date-only; the start date is the local date of the
    item's start and the end date is the local date of the item's end plus
    one day, whatever the offset of the host's zone. *)
Lemma convertToGoogleEvent_exclusive_end (h : Host) (event : MyEvent) (s e : Z) :
  allDay event = Some true → start event = Some s → end_ event = Some e →
  ∃ googleEvent,
    GoogleCalendarService.convertToGoogleEvent h event = Some googleEvent ∧
    g_start googleEvent = date_only (localDate h s) ∧
    g_end googleEvent
    = date_only (JsDate.isoDate
                   (JsDate.Day (JsDate.LocalTime (hostTimezoneOffset h) e) + 1)).
Proof.
  intros Hall Hs He. eexists. split.
  - by apply convertToGoogleEvent_all_day.
  - split; reflexivity.
Qed.

(* ===================================================================== *)
(** ** The token service: requests and [syncEvent] *)

Section TokenService.
Import GoogleCalendarService.

Lemma sent_after_makeRequest req w :
  sent (after_makeRequest req w) = sent w ++ (if authenticated w then [req] else []).
Proof.
  unfold after_makeRequest. destruct (authenticated w).
  - destruct (remote w) as [|[|status body] rs]; try reflexivity.
    by destruct (negb (response_ok status) && (status =? 401)).
  - by rewrite app_nil_r.
Qed.

Lemma makeRequest_world req w : (makeRequest req w).2 = after_makeRequest req w.
Proof.
  unfold makeRequest, getAccessToken, after_makeRequest, authenticated, consume,
    bind, fetch, throw, ret, response_json.
  destruct (currentUser w); simpl; [|reflexivity].
  destruct (google_access_token w) as [t|]; simpl; [|reflexivity].
  destruct (String.eqb t ""); simpl; [reflexivity|].
  destruct (remote w) as [|[|status body] rs]; simpl; try reflexivity.
  destruct (response_ok status); simpl.
  - by destruct body.
  - by destruct (status =? 401).
Qed.

Lemma makeRequest_result req w :
  match (if authenticated w then next_json w else None) with
  | Some j => (makeRequest req w).1 = inr j
  | None => ∃ e, (makeRequest req w).1 = inl e
  end.
Proof.
  unfold makeRequest, getAccessToken, authenticated, next_json,
    bind, fetch, throw, ret, response_json.
  destruct (currentUser w); simpl; [|eauto].
  destruct (google_access_token w) as [t|]; simpl; [|eauto].
  destruct (String.eqb t ""); simpl; [eauto|].
  destruct (remote w) as [|[|status body] rs]; simpl; eauto.
  destruct (response_ok status); simpl.
  - destruct body; simpl; eauto.
  - destruct body; destruct (status =? 401); simpl; eauto.
Qed.

(** The outcome of a request, as one pair. *)
Lemma makeRequest_run req w :
  ∃ r, makeRequest req w = (r, after_makeRequest req w) ∧
       match (if authenticated w then next_json w else None) with
       | Some j => r = inr j
       | None => ∃ e, r = inl e
       end.
Proof.
  exists (makeRequest req w).1. split.
  - rewrite <- makeRequest_world. by destruct (makeRequest req w).
  - apply makeRequest_result.
Qed.

(** [syncEvent] on an item without identifier: one create, whose result
    is the identifier in the provider's answer. *)
Lemma syncEvent_unlinked h event w :
  truthy (res_googleEventId event) = false →
  syncEvent h event w
  = match convertToGoogleEvent h event with
    | Some googleEvent =>
        (inr (if authenticated w then j ← next_json w; json_id j else None),
         after_makeRequest (POST googleEvent) w)
    | None => (inr None, w)
    end.
Proof.
  intros Hno. unfold syncEvent, createEvent, try_catch, bind, ret, throw.
  rewrite Hno. cbn [negb].
  destruct (convertToGoogleEvent h event) as [googleEvent|]; [|reflexivity].
  destruct (makeRequest_run (POST googleEvent) w) as (r & -> & Hr).
  destruct (authenticated w); [destruct (next_json w) as [j|]|].
  - by subst r.
  - by destruct Hr as [e ->].
  - by destruct Hr as [e ->].
Qed.

(** [syncEvent] on an item with an identifier: one update addressed by
    it; the result is the identifier, or [None] when the update failed. *)
Lemma syncEvent_linked h event g w :
  res_googleEventId event = Some g → g ≠ "" →
  syncEvent h event w
  = match convertToGoogleEvent h event with
    | Some googleEvent =>
        (inr (if authenticated w then _ ← next_json w; Some g else None),
         after_makeRequest (PATCH g googleEvent) w)
    | None => (inr None, w)
    end.
Proof.
  intros Hg Hne. unfold syncEvent, updateEvent, try_catch, bind, ret, throw.
  rewrite Hg. cbn [truthy negb].
  apply String.eqb_neq in Hne. rewrite Hne. cbn [negb].
  destruct (convertToGoogleEvent h event) as [googleEvent|]; [|reflexivity].
  destruct (makeRequest_run (PATCH g googleEvent) w) as (r & -> & Hr).
  destruct (authenticated w); [destruct (next_json w) as [j|]|].
  - by subst r.
  - by destruct Hr as [e ->].
  - by destruct Hr as [e ->].
Qed.

Lemma requests_of_after {A} (m : M A) w l :
  sent (m w).2 = sent w ++ l → requests_of m w = l.
Proof. intros H. unfold requests_of. rewrite H. apply drop_app_length. Qed.

End TokenService.

Section SyncEvent.
Import GoogleCalendarService.

Lemma store_after_makeRequest req w :
  events (after_makeRequest req w) = events w ∧
  notes (after_makeRequest req w) = notes w.
Proof.
  unfold after_makeRequest. destruct (authenticated w); [|done].
  destruct (remote w) as [|[|status body] rs]; try done.
  by destruct (negb (response_ok status) && (status =? 401)).
Qed.

(** A successful answer leaves the credential in place. *)
Lemma authenticated_after_success req w j :
  authenticated w = true → next_json w = Some j →
  authenticated (after_makeRequest req w) = true.
Proof.
  unfold after_makeRequest, next_json. intros Ha. rewrite Ha.
  destruct (remote w) as [|[|status [j'|]] rs]; try done.
  destruct (response_ok status); [|done]. intros _.
  cbn [negb andb]. exact Ha.
Qed.

(** Recording a link changes nothing the translation reads. *)
Lemma convertToGoogleEvent_record_link h event r :
  convertToGoogleEvent h (record_link event r) = convertToGoogleEvent h event.
Proof.
  unfold record_link. destruct (truthy r); [|reflexivity].
  apply convertToGoogleEvent_ext; try reflexivity;
    unfold res_content, res_priority, with_resource, spread_googleEventId;
    cbn [resource mbind option_bind content priority];
    by destruct (resource event).
Qed.

Lemma res_googleEventId_record_link event r :
  res_googleEventId (record_link event r)
  = if truthy r then r else res_googleEventId event.
Proof. unfold record_link. by destruct (truthy r). Qed.

(** The requests of one call, whatever the item. *)
Lemma requests_of_syncEvent_unlinked h event w :
  truthy (res_googleEventId event) = false →
  requests_of (syncEvent h event) w
  = match convertToGoogleEvent h event with
    | Some googleEvent => if authenticated w then [POST googleEvent] else []
    | None => []
    end.
Proof.
  intros Hno. apply requests_of_after. rewrite (syncEvent_unlinked _ _ _ Hno).
  destruct (convertToGoogleEvent h event); cbn [snd].
  - apply sent_after_makeRequest.
  - by rewrite app_nil_r.
Qed.

Lemma requests_of_syncEvent_linked h event g w :
  res_googleEventId event = Some g → g ≠ "" →
  requests_of (syncEvent h event) w
  = match convertToGoogleEvent h event with
    | Some googleEvent => if authenticated w then [PATCH g googleEvent] else []
    | None => []
    end.
Proof.
  intros Hg Hne. apply requests_of_after. rewrite (syncEvent_linked _ _ _ _ Hg Hne).
  destruct (convertToGoogleEvent h event); cbn [snd].
  - apply sent_after_makeRequest.
  - by rewrite app_nil_r.
Qed.

Lemma truthy_true_inv o : truthy o = true → ∃ g, o = Some g ∧ g ≠ "".
Proof.
  destruct o as [g|]; [|discriminate]. cbn [truthy]. intros H.
  exists g. split; [reflexivity|]. intros ->. discriminate H.
Qed.

Lemma truthy_Some_ne g : g ≠ "" → truthy (Some g) = true.
Proof. intros H. apply String.eqb_neq in H. cbn. by rewrite H. Qed.


End SyncEvent.

Section TokenServiceMore.
Import GoogleCalendarService.

(** [syncEvent] returns, from the world it started in or from the world
    one request has left. *)
Lemma syncEvent_cases h event w :
  ∃ r, syncEvent h event w = (inr r, w) ∨
       ∃ req, syncEvent h event w = (inr r, after_makeRequest req w).
Proof.
  destruct (truthy (res_googleEventId event)) eqn:Hg.
  - destruct (truthy_true_inv _ Hg) as (g & Hsome & Hne).
    rewrite (syncEvent_linked h event g w Hsome Hne).
    destruct (convertToGoogleEvent h event) as [googleEvent|]; eauto.
  - rewrite (syncEvent_unlinked h event w Hg).
    destruct (convertToGoogleEvent h event) as [googleEvent|]; eauto.
Qed.

Lemma after_makeRequest_rest req w :
  toasts (after_makeRequest req w) = toasts w ∧
  fresh_ids (after_makeRequest req w) = fresh_ids w ∧
  currentUser (after_makeRequest req w) = currentUser w ∧
  store_available (after_makeRequest req w) = store_available w.
Proof.
  unfold after_makeRequest. destruct (authenticated w); [|done].
  destruct (remote w) as [|[|status body] rs]; try done.
  by destruct (negb (response_ok status) && (status =? 401)).
Qed.

Lemma after_makeRequest_token req w :
  (∀ body rs, remote w ≠ Http 401 body :: rs) →
  google_access_token (after_makeRequest req w) = google_access_token w.
Proof.
  intros Hno. unfold after_makeRequest. destruct (authenticated w); [|done].
  destruct (remote w) as [|[|status body] rs] eqn:Hr; try done.
  destruct (status =? 401) eqn:E; bool_to_Z.
  - subst status. by destruct (Hno body rs).
  - by rewrite andb_false_r.
Qed.

Lemma after_makeRequest_unauthenticated req w :
  authenticated w = false → after_makeRequest req w = w.
Proof. intros H. unfold after_makeRequest. by rewrite H. Qed.

End TokenServiceMore.

Section CheckedService.
Import CheckedCalendarService.

Lemma bind_eq {A B} (m : M A) (k : A → M B) w :
  bind m k w = match m w with
               | (inl e, w') => (inl e, w')
               | (inr a, w') => k a w'
               end.
Proof. reflexivity. Qed.

Lemma event_requests_app l1 l2 :
  event_requests (l1 ++ l2) = event_requests l1 ++ event_requests l2.
Proof.
  induction l1 as [|r l1 IH]; [reflexivity|]. cbn [app event_requests].
  destruct (is_event_request r); by rewrite IH.
Qed.

Lemma requestNewTokens_quiet w :
  ∃ b w', requestNewTokens w = (inr b, w') ∧ sent w' = sent w.
Proof.
  unfold requestNewTokens, try_catch, signInWithPopup, setItem_googleAccessToken, bind, ret.
  destruct (currentUser w); cbn [negb]; [|by eauto].
  destruct (popups w) as [|[|t] ps]; try by eauto.
  destruct (truthy t); by eauto.
Qed.

Lemma refreshAccessToken_quiet refreshToken w :
  ∃ b w', refreshAccessToken refreshToken w = (inr b, w') ∧
          sent w' = sent w ++ [POST_oauth_token refreshToken].
Proof.
  unfold refreshAccessToken, bind at 1.
  assert (Hfirst : ∃ b w1,
    try_catch
      (response <~ fetch (POST_oauth_token refreshToken) ;;
       if response_ok response.1 then
         data <~ response_json response.2 ;;
         setItem_googleAccessToken (default "undefined" (json_access_token data)) ;;;
         ret true
       else ret false)
      (λ _, ret false) w = (inr b, w1) ∧
    sent w1 = sent w ++ [POST_oauth_token refreshToken]).
  { unfold try_catch, bind, fetch, response_json, setItem_googleAccessToken, ret, throw.
    destruct (remote w) as [|[|status body] rs]; cbn [fst snd]; try by eauto.
    destruct (response_ok status); [|by eauto].
    destruct body; by eauto. }
  destruct Hfirst as (b & w1 & -> & Hs1).
  destruct b; [by exists true, w1|].
  unfold bind, ret.
  destruct (requestNewTokens_quiet (set_local_tokens None None w1)) as (b & w2 & -> & Hs2).
  exists b, w2. split; [done|]. by rewrite Hs2.
Qed.

(** The connection check returns a boolean and sends no request to the
    events collection. *)
Lemma ensureValidToken_quiet w :
  ∃ b w' l, ensureValidToken w = (inr b, w') ∧ sent w' = sent w ++ l ∧
            event_requests l = [].
Proof.
  unfold ensureValidToken, try_catch.
  destruct (negb (truthy (googleAccessToken w)) && negb (truthy (googleRefreshToken w))).
  { destruct (requestNewTokens_quiet w) as (b & w' & -> & Hs).
    exists b, w', []. by rewrite app_nil_r. }
  unfold bind at 1.
  destruct (truthy (googleAccessToken w)).
  - unfold bind at 1, fetch, ret.
    destruct (remote w) as [|[|status body] rs]; cbn [fst snd].
    + by exists false, (set_remote [] (sent w ++ [GET_primary]) w), [GET_primary].
    + by exists false, (set_remote rs (sent w ++ [GET_primary]) w), [GET_primary].
    + destruct (response_ok status).
      * by exists true, (set_remote rs (sent w ++ [GET_primary]) w), [GET_primary].
      * set (w1 := set_remote rs (sent w ++ [GET_primary]) w).
        destruct (truthy (googleRefreshToken w)).
        -- destruct (refreshAccessToken_quiet (default "" (googleRefreshToken w)) w1)
             as (b & w2 & -> & Hs).
           exists b, w2, [GET_primary; POST_oauth_token (default "" (googleRefreshToken w))].
           split; [done|]. split; [|done]. rewrite Hs. unfold w1. cbn [sent set_remote].
           by rewrite <- app_assoc.
        -- destruct (requestNewTokens_quiet w1) as (b & w2 & -> & Hs).
           exists b, w2, [GET_primary]. split; [done|]. split; [|done]. by rewrite Hs.
  - unfold ret.
    destruct (truthy (googleRefreshToken w)).
    + destruct (refreshAccessToken_quiet (default "" (googleRefreshToken w)) w)
        as (b & w2 & -> & Hs).
      by exists b, w2, [POST_oauth_token (default "" (googleRefreshToken w))].
    + destruct (requestNewTokens_quiet w) as (b & w2 & -> & Hs).
      exists b, w2, []. by rewrite app_nil_r.
Qed.

Lemma checked_makeRequest_sent req w :
  sent (makeRequest req w).2 = sent w ∨ sent (makeRequest req w).2 = sent w ++ [req].
Proof.
  unfold makeRequest, getAccessToken, bind, fetch, ret, throw, response_json.
  destruct (truthy (googleAccessToken w)); [|destruct (truthy (google_access_token w))];
    cbn [fst snd]; try by left.
  all: right; destruct (remote w) as [|[|status body] rs]; cbn [fst snd]; try reflexivity.
  all: destruct (response_ok status); cbn [negb fst snd];
    [by destruct body|by destruct (status =? 401)].
Qed.

(** The dispatch of the checked copy, on the requests that address the
    events collection. *)
Lemma checked_syncEvent_unlinked_sent h event w :
  truthy (res_googleEventId event) = false →
  ∃ l, sent (syncEvent h event w).2 = sent w ++ l ∧
       (event_requests l = [] ∨
        ∃ googleEvent, convertToGoogleEvent h event = Some googleEvent ∧
                       event_requests l = [POST googleEvent]).
Proof.
  intros Hno. unfold syncEvent. unfold bind at 1.
  destruct (ensureValidToken_quiet w) as (b & w1 & l & Hrun & Hs & Hl).
  rewrite Hrun. destruct b; cbn [negb].
  - unfold try_catch, createEvent. rewrite Hno. cbn [negb].
    destruct (convertToGoogleEvent h event) as [googleEvent|] eqn:Hc;
      unfold bind, ret, throw.
    + pose proof (checked_makeRequest_sent (POST googleEvent) w1) as Hm.
      assert (Hsent : ∀ x, sent x = sent w1 ∨ sent x = sent w1 ++ [POST googleEvent] →
                ∃ l0, sent x = sent w ++ l0 ∧
                      (event_requests l0 = [] ∨
                       ∃ ge, Some googleEvent = Some ge ∧ event_requests l0 = [POST ge])).
      { intros x [Hx|Hx]; rewrite Hx, Hs.
        - exists l. split; [done|by left].
        - exists (l ++ [POST googleEvent]). split; [by rewrite app_assoc|].
          right. exists googleEvent. split; [done|]. by rewrite event_requests_app, Hl. }
      destruct (makeRequest (POST googleEvent) w1) as [[exn|j] w2]; cbn [fst snd] in *;
        exact (Hsent w2 Hm).
    + exists l. split; [done|by left].
  - exists l. split; [done|by left].
Qed.

Lemma checked_syncEvent_linked_sent h event g w :
  res_googleEventId event = Some g → g ≠ "" →
  ∃ l, sent (syncEvent h event w).2 = sent w ++ l ∧
       (event_requests l = [] ∨
        ∃ googleEvent, convertToGoogleEvent h event = Some googleEvent ∧
                       event_requests l = [PATCH g googleEvent]).
Proof.
  intros Hg Hne. unfold syncEvent. unfold bind at 1.
  destruct (ensureValidToken_quiet w) as (b & w1 & l & Hrun & Hs & Hl).
  rewrite Hrun. destruct b; cbn [negb]; [|exists l; split; [done|by left]].
  unfold try_catch, updateEvent.
  rewrite Hg, (truthy_Some_ne _ Hne). cbn [negb].
  destruct (ensureValidToken_quiet w1) as (b' & w2 & l' & Hrun' & Hs' & Hl').
  rewrite (bind_eq _ _ w1), (bind_eq ensureValidToken _ w1), Hrun'.
  assert (Hw2 : sent w2 = sent w ++ (l ++ l') ∧ event_requests (l ++ l') = []).
  { split; [by rewrite Hs', Hs, app_assoc|by rewrite event_requests_app, Hl, Hl']. }
  destruct Hw2 as [Hw2 Hquiet].
  apply String.eqb_neq in Hne.
  destruct b'; cbn [negb]; unfold throw, ret;
    [|exists (l ++ l'); split; [exact Hw2|by left]].
  rewrite Hne.
  destruct (convertToGoogleEvent h event) as [googleEvent|] eqn:Hc;
    [|exists (l ++ l'); split; [exact Hw2|by left]].
  pose proof (checked_makeRequest_sent (PATCH g googleEvent) w2) as Hm.
  assert (Hsent : ∀ x, sent x = sent w2 ∨ sent x = sent w2 ++ [PATCH g googleEvent] →
            ∃ l0, sent x = sent w ++ l0 ∧
                  (event_requests l0 = [] ∨
                   ∃ ge, Some googleEvent = Some ge ∧ event_requests l0 = [PATCH g ge])).
  { intros x [Hx|Hx]; rewrite Hx, Hw2.
    - exists (l ++ l'). split; [done|by left].
    - exists ((l ++ l') ++ [PATCH g googleEvent]). split; [by rewrite <- !app_assoc|].
      right. exists googleEvent. split; [done|].
      by rewrite event_requests_app, Hquiet. }
  unfold bind.
  destruct (makeRequest (PATCH g googleEvent) w2) as [[exn|j] w3]; cbn [fst snd] in *;
    exact (Hsent w3 Hm).
Qed.

End CheckedService.

Section CheckedDispatch.
Import CheckedCalendarService.

Lemma requests_of_bind {A B} (m : M A) (k : A → M B) w a w1 l1 l2 :
  m w = (inr a, w1) → sent w1 = sent w ++ l1 → sent (k a w1).2 = sent w1 ++ l2 →
  requests_of (bind m k) w = l1 ++ l2.
Proof.
  intros Hm H1 H2. apply requests_of_after.
  rewrite bind_eq, Hm, H2, H1. by rewrite app_assoc.
Qed.

Lemma checked_makeRequest_requests req w :
  sent (makeRequest req w).2 = sent w ++ (if has_token w then [req] else []).
Proof.
  unfold makeRequest, getAccessToken, has_token, bind, fetch, ret, throw, response_json.
  destruct (truthy (googleAccessToken w)); [|destruct (truthy (google_access_token w))];
    cbn [orb fst snd]; try (by rewrite app_nil_r).
  all: destruct (remote w) as [|[|status body] rs]; cbn [fst snd]; try reflexivity.
  all: destruct (response_ok status); cbn [negb fst snd];
    [by destruct body|by destruct (status =? 401)].
Qed.

Lemma checked_makeRequest_result req w j :
  has_token w = true → next_json w = Some j → (makeRequest req w).1 = inr j.
Proof.
  unfold makeRequest, getAccessToken, has_token, next_json, bind, fetch, ret, throw,
    response_json.
  intros Ht Hj.
  destruct (truthy (googleAccessToken w)); [|destruct (truthy (google_access_token w))];
    [| |discriminate Ht];
    destruct (remote w) as [|[|status [j'|]] rs]; try discriminate Hj;
    cbn [fst snd]; (destruct (response_ok status); [|discriminate Hj]);
    by injection Hj as ->.
Qed.

(** What the connection check sends addresses no event. *)
Lemma ensureValidToken_requests w :
  sent (ensureValidToken w).2 = sent w ++ requests_of ensureValidToken w ∧
  event_requests (requests_of ensureValidToken w) = [].
Proof.
  destruct (ensureValidToken_quiet w) as (b & w1 & l & Hrun & Hs & Hl).
  assert (Hr : requests_of ensureValidToken w = l).
  { apply requests_of_after. by rewrite Hrun. }
  rewrite Hr, Hrun. by split.
Qed.

Lemma checked_createEvent_requests h event w :
  sent (createEvent h event w).2
  = sent w ++ match convertToGoogleEvent h event with
              | Some googleEvent => if has_token w then [POST googleEvent] else []
              | None => []
              end.
Proof.
  unfold createEvent.
  destruct (convertToGoogleEvent h event) as [googleEvent|];
    [|by rewrite app_nil_r].
  rewrite bind_eq.
  pose proof (checked_makeRequest_requests (POST googleEvent) w) as Hm.
  by destruct (makeRequest (POST googleEvent) w) as [[exn|j] w1].
Qed.

(** The dispatch of the copy with the connection check, for an item
    without identifier. *)
Lemma checked_syncEvent_unlinked h event w connected w1 :
  truthy (res_googleEventId event) = false →
  ensureValidToken w = (inr connected, w1) →
  requests_of (syncEvent h event) w
  = requests_of ensureValidToken w
    ++ (if connected then
          match convertToGoogleEvent h event with
          | Some googleEvent => if has_token w1 then [POST googleEvent] else []
          | None => []
          end
        else []) ∧
  (connected = false →
   (syncEvent h event w).1 = inl (Error "Google Calendar not connected")) ∧
  (connected = true →
   ∀ googleEvent j, convertToGoogleEvent h event = Some googleEvent →
     has_token w1 = true → next_json w1 = Some j →
     (syncEvent h event w).1 = inr (json_id j)).
Proof.
  intros Hno Hrun.
  destruct (ensureValidToken_requests w) as [Hs _]. rewrite Hrun in Hs. cbn [snd] in Hs.
  split; [|split].
  - apply requests_of_after. unfold syncEvent. rewrite bind_eq, Hrun.
    destruct connected; cbn [negb]; [|by rewrite app_nil_r].
    unfold try_catch. rewrite Hno. cbn [negb]. rewrite bind_eq.
    pose proof (checked_createEvent_requests h event w1) as Hc.
    rewrite app_assoc, <- Hs.
    by destruct (createEvent h event w1) as [[exn|r] w2].
  - intros ->. unfold syncEvent. by rewrite bind_eq, Hrun.
  - intros -> googleEvent j Hc Ht Hj. unfold syncEvent. rewrite bind_eq, Hrun.
    cbn [negb]. unfold try_catch. rewrite Hno. cbn [negb].
    rewrite bind_eq. unfold createEvent. rewrite Hc, bind_eq.
    pose proof (checked_makeRequest_result (POST googleEvent) w1 j Ht Hj) as Hr.
    destruct (makeRequest (POST googleEvent) w1) as [[exn|j'] w2]; cbn [fst] in Hr;
      [discriminate Hr|]. by injection Hr as ->.
Qed.

(** The same for an item with an identifier: [updateEvent] runs the
    connection check a second time. *)
Lemma checked_syncEvent_linked h event g w connected w1 connected' w2 :
  res_googleEventId event = Some g → g ≠ "" →
  ensureValidToken w = (inr connected, w1) →
  ensureValidToken w1 = (inr connected', w2) →
  requests_of (syncEvent h event) w
  = requests_of ensureValidToken w
    ++ (if connected then
          requests_of ensureValidToken w1
          ++ (if connected' then
                match convertToGoogleEvent h event with
                | Some googleEvent => if has_token w2 then [PATCH g googleEvent] else []
                | None => []
                end
              else [])
        else []) ∧
  (connected = false →
   (syncEvent h event w).1 = inl (Error "Google Calendar not connected")).
Proof.
  intros Hg Hne Hrun Hrun'.
  destruct (ensureValidToken_requests w) as [Hs _]. rewrite Hrun in Hs. cbn [snd] in Hs.
  destruct (ensureValidToken_requests w1) as [Hs' _]. rewrite Hrun' in Hs'.
  cbn [snd] in Hs'.
  split.
  - apply requests_of_after. unfold syncEvent. rewrite bind_eq, Hrun.
    destruct connected; cbn [negb]; [|by rewrite app_nil_r].
    unfold try_catch. rewrite Hg, (truthy_Some_ne _ Hne). cbn [negb].
    rewrite bind_eq. unfold updateEvent. rewrite bind_eq, Hrun'.
    rewrite !app_assoc, <- Hs, <- Hs'.
    destruct connected'; cbn [negb]; [|by rewrite app_nil_r].
    rewrite Hg. apply String.eqb_neq in Hne. rewrite Hne.
    destruct (convertToGoogleEvent h event) as [googleEvent|];
      [|by rewrite app_nil_r].
    rewrite bind_eq.
    pose proof (checked_makeRequest_requests (PATCH g googleEvent) w2) as Hm.
    by destruct (makeRequest (PATCH g googleEvent) w2) as [[exn|j] w3].
  - intros ->. unfold syncEvent. by rewrite bind_eq, Hrun.
Qed.

End CheckedDispatch.

Section Repeated.
Import GoogleCalendarService.

(** A second call on the same item, in the world a successful create has
    left, is a second create. *)
Lemma syncEvent_twice_same_item h event w g :
  truthy (res_googleEventId event) = false →
  (syncEvent h event w).1 = inr (Some g) →
  ∃ googleEvent,
    convertToGoogleEvent h event = Some googleEvent ∧
    requests_of (syncEvent h event ;;; syncEvent h event) w
    = [POST googleEvent; POST googleEvent].
Proof.
  intros Hno Hres. rewrite (syncEvent_unlinked _ _ _ Hno) in Hres.
  destruct (convertToGoogleEvent h event) as [googleEvent|] eqn:Hc;
    [|discriminate Hres].
  destruct (authenticated w) eqn:Ha; [|discriminate Hres].
  destruct (next_json w) as [j|] eqn:Hj; [|discriminate Hres].
  exists googleEvent. split; [reflexivity|].
  apply requests_of_after. rewrite bind_eq.
  rewrite (syncEvent_unlinked _ _ _ Hno), Hc.
  rewrite (syncEvent_unlinked _ _ _ Hno), Hc. cbn [snd].
  rewrite !sent_after_makeRequest, Ha, (authenticated_after_success _ _ _ Ha Hj).
  by rewrite <- app_assoc.
Qed.

(** A second call on the item on which the caller has recorded the
    identifier is an update addressed by it. *)
Lemma syncEvent_twice_recorded h event w g :
  truthy (res_googleEventId event) = false →
  (syncEvent h event w).1 = inr (Some g) → g ≠ "" →
  ∃ googleEvent,
    convertToGoogleEvent h event = Some googleEvent ∧
    requests_of (syncEvent h event ;;; syncEvent h (record_link event (Some g))) w
    = [POST googleEvent; PATCH g googleEvent].
Proof.
  intros Hno Hres Hne. rewrite (syncEvent_unlinked _ _ _ Hno) in Hres.
  destruct (convertToGoogleEvent h event) as [googleEvent|] eqn:Hc;
    [|discriminate Hres].
  destruct (authenticated w) eqn:Ha; [|discriminate Hres].
  destruct (next_json w) as [j|] eqn:Hj; [|discriminate Hres].
  exists googleEvent. split; [reflexivity|].
  apply requests_of_after. rewrite bind_eq.
  rewrite (syncEvent_unlinked _ _ _ Hno), Hc.
  assert (Hg : res_googleEventId (record_link event (Some g)) = Some g).
  { by rewrite res_googleEventId_record_link, truthy_Some_ne. }
  rewrite (syncEvent_linked _ _ _ _ Hg Hne), convertToGoogleEvent_record_link, Hc.
  cbn [snd]. rewrite !sent_after_makeRequest, Ha.
  rewrite (authenticated_after_success _ _ _ Ha Hj).
  by rewrite <- app_assoc.
Qed.

Lemma syncEvent_linked_sends_only h event g :
  res_googleEventId event = Some g → g ≠ "" →
  sends_only (λ r, ∃ googleEvent, r = PATCH g googleEvent) (syncEvent h event).
Proof.
  intros Hg Hne w. rewrite (syncEvent_linked _ _ _ _ Hg Hne).
  destruct (convertToGoogleEvent h event) as [googleEvent|]; cbn [snd].
  - rewrite sent_after_makeRequest. eexists. split; [reflexivity|].
    destruct (authenticated w); repeat constructor. by exists googleEvent.
  - exists []. by rewrite app_nil_r.
Qed.

Lemma sends_only_for_of {A} (P : Request → Prop) (l : list A) (body : A → M unit) :
  (∀ a, a ∈ l → sends_only P (body a)) → sends_only P (for_of l body).
Proof.
  induction l as [|x l IH]; intros Hb; cbn [for_of]; [apply sends_only_ret|].
  apply sends_only_bind; [apply Hb, list_elem_of_here|].
  intros _. apply IH. intros a Ha. apply Hb. by apply list_elem_of_further.
Qed.

End Repeated.

(** C1, as amended: [syncEvent] dispatches on the identifier of the item.
    Without one (absent or empty) the only request it sends is a create, and
    its result is the identifier in the provider's answer; with one the only
    request it sends is an update addressed by that identifier. [syncEvent]
    does not record the identifier it returns: a second call on the same
    item, after a first one that succeeded, is a second create; it is an
    update addressed by the returned identifier when the caller has recorded
    that identifier on the item. Calls on an item that carries an
    identifier send updates addressed by it and no create, however many
    they are. The copy of the service with the connection check first runs
    the check, which addresses no event, throws when the check fails, and
    dispatches in the same way when it succeeds, the update running the
    check a second time. *)
Theorem C1_syncEvent_dispatch (h : Host) (event : MyEvent) (w : World) :
  (truthy (res_googleEventId event) = false →
   requests_of (GoogleCalendarService.syncEvent h event) w
   = match GoogleCalendarService.convertToGoogleEvent h event with
     | Some googleEvent => if authenticated w then [POST googleEvent] else []
     | None => []
     end ∧
   (∀ googleEvent j, GoogleCalendarService.convertToGoogleEvent h event = Some googleEvent →
      authenticated w = true → next_json w = Some j →
      (GoogleCalendarService.syncEvent h event w).1 = inr (json_id j)) ∧
   (∀ g, (GoogleCalendarService.syncEvent h event w).1 = inr (Some g) →
      ∃ googleEvent,
        GoogleCalendarService.convertToGoogleEvent h event = Some googleEvent ∧
        requests_of (GoogleCalendarService.syncEvent h event ;;;
                     GoogleCalendarService.syncEvent h event) w
        = [POST googleEvent; POST googleEvent]) ∧
   (∀ g, (GoogleCalendarService.syncEvent h event w).1 = inr (Some g) → g ≠ "" →
      ∃ googleEvent,
        GoogleCalendarService.convertToGoogleEvent h event = Some googleEvent ∧
        requests_of (GoogleCalendarService.syncEvent h event ;;;
                     GoogleCalendarService.syncEvent h (record_link event (Some g))) w
        = [POST googleEvent; PATCH g googleEvent]) ∧
   (∀ connected w1,
      CheckedCalendarService.ensureValidToken w = (inr connected, w1) →
      event_requests (requests_of CheckedCalendarService.ensureValidToken w) = [] ∧
      requests_of (CheckedCalendarService.syncEvent h event) w
      = requests_of CheckedCalendarService.ensureValidToken w
        ++ (if connected then
              match CheckedCalendarService.convertToGoogleEvent h event with
              | Some googleEvent => if has_token w1 then [POST googleEvent] else []
              | None => []
              end
            else []) ∧
      (connected = false →
       (CheckedCalendarService.syncEvent h event w).1
       = inl (Error "Google Calendar not connected")) ∧
      (connected = true →
       ∀ googleEvent j,
         CheckedCalendarService.convertToGoogleEvent h event = Some googleEvent →
         has_token w1 = true → next_json w1 = Some j →
         (CheckedCalendarService.syncEvent h event w).1 = inr (json_id j)))) ∧
  (∀ g, res_googleEventId event = Some g → g ≠ "" →
     requests_of (GoogleCalendarService.syncEvent h event) w
     = match GoogleCalendarService.convertToGoogleEvent h event with
       | Some googleEvent => if authenticated w then [PATCH g googleEvent] else []
       | None => []
       end ∧
     (∀ n, Forall (λ r, ∃ googleEvent, r = PATCH g googleEvent)
                  (requests_of
                     (for_of (replicate n event)
                        (λ e, GoogleCalendarService.syncEvent h e ;;; ret tt)) w)) ∧
     (∀ connected w1 connected' w2,
        CheckedCalendarService.ensureValidToken w = (inr connected, w1) →
        CheckedCalendarService.ensureValidToken w1 = (inr connected', w2) →
        event_requests (requests_of CheckedCalendarService.ensureValidToken w) = [] ∧
        event_requests (requests_of CheckedCalendarService.ensureValidToken w1) = [] ∧
        requests_of (CheckedCalendarService.syncEvent h event) w
        = requests_of CheckedCalendarService.ensureValidToken w
          ++ (if connected then
                requests_of CheckedCalendarService.ensureValidToken w1
                ++ (if connected' then
                      match CheckedCalendarService.convertToGoogleEvent h event with
                      | Some googleEvent =>
                          if has_token w2 then [PATCH g googleEvent] else []
                      | None => []
                      end
                    else [])
              else []) ∧
        (connected = false →
         (CheckedCalendarService.syncEvent h event w).1
         = inl (Error "Google Calendar not connected")))).
Proof.
  split.
  - intros Hno. split; [by apply requests_of_syncEvent_unlinked|].
    split; [|split; [|split]].
    + intros googleEvent j Hc Ha Hj.
      rewrite (syncEvent_unlinked _ _ _ Hno), Hc, Ha, Hj. reflexivity.
    + intros g Hres. by apply (syncEvent_twice_same_item h event w g).
    + intros g Hres Hne. by apply syncEvent_twice_recorded.
    + intros connected w1 Hrun.
      split; [apply ensureValidToken_requests|].
      by apply checked_syncEvent_unlinked.
  - intros g Hg Hne. split; [by apply requests_of_syncEvent_linked|]. split.
    + intros n. apply sends_only_requests_of, sends_only_for_of.
      intros e ->%elem_of_replicate_inv.
      apply sends_only_bind; [by apply syncEvent_linked_sends_only|].
      intros _. apply sends_only_ret.
    + intros connected w1 connected' w2 Hrun Hrun'.
      split; [apply ensureValidToken_requests|].
      split; [apply ensureValidToken_requests|].
      by apply (checked_syncEvent_linked h event g w connected w1 connected' w2).
Qed.


(* ===================================================================== *)
(** ** The dashboard: deleting and synchronising *)

Section DashboardFacts.
Import Dashboard.

(** A note in the component's list changes nothing of a calendar sync. *)
Lemma handleSyncCalendar_skips_note h evs1 note evs2 :
  truthy_bool (res_isNote note) = true →
  handleSyncCalendar h (evs1 ++ note :: evs2) = handleSyncCalendar h (evs1 ++ evs2).
Proof.
  intros Hnote. unfold handleSyncCalendar.
  rewrite !filter_app, filter_cons.
  destruct (decide _) as [Hd|Hd]; [|reflexivity].
  rewrite Hnote in Hd. destruct Hd.
Qed.

Lemma deleteDoc_run c i w :
  store_available w = true →
  deleteDoc c i w
  = (inr tt, set_collection c (delete i (collection_of c w)) (fresh_ids w) w).
Proof. intros H. unfold deleteDoc. by rewrite H. Qed.

(** Deleting a note sends nothing to the provider. *)
Lemma handleEventDelete_note evs eventId w :
  sent (handleEventDelete evs eventId true w).2 = sent w ∧
  (store_available w = true →
   notes (handleEventDelete evs eventId true w).2 = delete eventId (notes w) ∧
   events (handleEventDelete evs eventId true w).2 = events w).
Proof.
  unfold handleEventDelete, try_catch, bind, ret, toast, deleteDoc, collectionName.
  cbn [negb andb].
  destruct (store_available w); cbn; [split; [reflexivity|intros _; split; reflexivity]|].
  split; [reflexivity|discriminate].
Qed.

End DashboardFacts.

(** C4: deleting an event that carries an identifier removes its document
    from the local store and attempts one remote delete addressed by that
    identifier (the one request sent, given a credential); whatever the
    provider answers, the document is gone and the handler ends with the
    success notice. *)
Theorem C4_delete_local_first (evs : list MyEvent) (eventId : string)
    (event : MyEvent) (g : string) (w : World) :
  find (λ e, bool_decide (id e = Some eventId)) evs = Some event →
  res_googleEventId event = Some g → g ≠ "" →
  store_available w = true →
  events (Dashboard.handleEventDelete evs eventId false w).2 = delete eventId (events w) ∧
  notes (Dashboard.handleEventDelete evs eventId false w).2 = notes w ∧
  requests_of (Dashboard.handleEventDelete evs eventId false) w
  = (if authenticated w then [DELETE g] else []) ∧
  (Dashboard.handleEventDelete evs eventId false w).1 = inr tt ∧
  toasts (Dashboard.handleEventDelete evs eventId false w).2
  = toasts w ++ [toast_success "Event deleted successfully"].
Proof.
  intros Hfind Hg Hne Hstore.
  set (w1 := set_collection events_collection (delete eventId (events w)) (fresh_ids w) w).
  assert (Hrun : Dashboard.handleEventDelete evs eventId false w
                 = (inr tt, add_toast (toast_success "Event deleted successfully")
                              (after_makeRequest (DELETE g) w1))).
  { unfold Dashboard.handleEventDelete, try_catch, bind, toast, ret.
    rewrite Hfind. cbn [mbind option_bind Dashboard.collectionName negb andb].
    rewrite (deleteDoc_run _ _ _ Hstore).
    rewrite Hg, (truthy_Some_ne _ Hne).
    cbn [default from_option Datatypes.id collection_of]. fold w1.
    unfold GoogleCalendarService.deleteEvent, bind, ret.
    destruct (makeRequest_run (DELETE g) w1) as (r & -> & _).
    by destruct r as [e|j]. }
  rewrite Hrun. cbn [fst snd].
  destruct (store_after_makeRequest (DELETE g) w1) as [Hev Hnt].
  split; [exact Hev|]. split; [exact Hnt|]. split; [|split; [reflexivity|]].
  - apply requests_of_after. rewrite Hrun. cbn [snd].
    change (sent (add_toast ?t ?x)) with (sent x).
    by rewrite sent_after_makeRequest.
  - cbn [toasts add_toast]. f_equal.
    unfold after_makeRequest. destruct (authenticated w1); [|reflexivity].
    destruct (remote w1) as [|[|status body] rs]; try reflexivity.
    by destruct (negb (response_ok status) && (status =? 401)).
Qed.

(* ===================================================================== *)
(** ** The batch services *)

Section Merge.

Lemma strict_eq_true a b : strict_eq a b = true ↔ a = b.
Proof. unfold strict_eq. apply bool_decide_eq_true. Qed.

(** The second loop appends to [syncedEvents] a selection of the fetched
    events: none whose identifier an entry already carries, and none
    twice. *)
Lemma merge_google_events_appends googleEvents : ∀ syncedEvents,
  ∃ appended,
    merge_google_events googleEvents syncedEvents = syncedEvents ++ appended ∧
    sublist appended googleEvents ∧
    (∀ a x, a ∈ appended → x ∈ syncedEvents →
            res_googleEventId x ≠ res_googleEventId a) ∧
    NoDup (map res_googleEventId appended).
Proof.
  induction googleEvents as [|g rest IH]; intros syncedEvents; cbn [merge_google_events].
  - exists []. rewrite app_nil_r. repeat split; [constructor| |constructor].
    intros a x Ha. by apply elem_of_nil in Ha.
  - destruct (existsb _ syncedEvents) eqn:Hex; cbn [negb].
    + destruct (IH syncedEvents) as (app & Heq & Hsub & Hnew & Hnd).
      exists app. repeat split; try done. by apply sublist_cons.
    + destruct (IH (syncedEvents ++ [g])) as (app & Heq & Hsub & Hnew & Hnd).
      exists (g :: app). rewrite Heq, <- app_assoc. repeat split.
      * by apply sublist_skip.
      * intros a x Ha Hx Hsame. apply elem_of_cons in Ha as [->|Ha].
        -- assert (Hin : existsb
                    (λ local, strict_eq (res_googleEventId local) (res_googleEventId g))
                    syncedEvents = true); [|congruence].
           apply existsb_exists. exists x. split; [by apply list_elem_of_In|].
           by apply strict_eq_true.
        -- apply (Hnew a x Ha); [|done]. apply elem_of_app. by left.
      * cbn [map]. apply NoDup_cons. split; [|done].
        intros Hin. apply list_elem_of_fmap in Hin as (a & Heqa & Ha).
        apply (Hnew a g Ha); [|done]. apply elem_of_app. right. by apply list_elem_of_singleton.
Qed.

Lemma merge_key_eq a b :
  merge_key a = merge_key b → res_googleEventId a = res_googleEventId b.
Proof.
  unfold merge_key.
  destruct (res_googleEventId a), (res_googleEventId b); congruence.
Qed.

(** The merge adds no duplicate key. *)
Lemma merge_google_events_NoDup googleEvents syncedEvents :
  NoDup (map merge_key syncedEvents) →
  NoDup (map merge_key (merge_google_events googleEvents syncedEvents)).
Proof.
  intros Hnd.
  destruct (merge_google_events_appends googleEvents syncedEvents)
    as (app & -> & _ & Hnew & Hndapp).
  rewrite map_app. apply NoDup_app. split; [done|]. split.
  - intros k Hk Hk'.
    apply list_elem_of_fmap in Hk as (x & -> & Hx).
    apply list_elem_of_fmap in Hk' as (a & Heq & Ha).
    by apply (Hnew a x Ha Hx), merge_key_eq.
  - clear Hnew. induction app as [|a app IH]; [constructor|].
    cbn [map] in *. apply NoDup_cons in Hndapp as [Hnotin Hndapp].
    apply NoDup_cons. split; [|by apply IH].
    intros Hin. apply Hnotin.
    apply list_elem_of_fmap in Hin as (b & Heq & Hb).
    apply list_elem_of_fmap. exists b. split; [by apply merge_key_eq|done].
Qed.

Lemma push_all_pushed_for step :
  (∀ e w, ∃ p, (step e w).1 = inr p ∧ pushed_for e p) →
  ∀ l w, Forall2 pushed_for l (push_all step l w).1.
Proof.
  intros Hstep. induction l as [|e l IH]; intros w; cbn [push_all fst].
  - constructor.
  - constructor; [|apply IH].
    destruct (Hstep e w) as (p & -> & Hp). exact Hp.
Qed.

End Merge.

Section PushAll.
Variable step : MyEvent → M MyEvent.

Lemma push_all_app l1 l2 w :
  push_all step (l1 ++ l2) w
  = ((push_all step l1 w).1 ++ (push_all step l2 (push_all step l1 w).2).1,
     (push_all step l2 (push_all step l1 w).2).2).
Proof.
  revert w. induction l1 as [|e l1 IH]; intros w; cbn [push_all app fst snd].
  - by destruct (push_all step l2 w).
  - by rewrite IH.
Qed.

(** An item the step leaves alone, without touching the world, does not
    change the world the loop ends in. *)
Lemma push_all_skip l1 e l2 w :
  (∀ w0, step e w0 = (inr e, w0)) →
  (push_all step (l1 ++ e :: l2) w).2 = (push_all step (l1 ++ l2) w).2 ∧
  (push_all step (l1 ++ e :: l2) w).1
  = (push_all step l1 w).1 ++ e :: (push_all step l2 (push_all step l1 w).2).1.
Proof.
  intros Hskip. rewrite !push_all_app. cbn [push_all fst snd].
  rewrite !Hskip. cbn [fst snd result_or]. done.
Qed.

End PushAll.

Section GapiFacts.
Import GapiService.

Lemma gapi_sync_local_returns h e w :
  ∃ p, (sync_local h e w).1 = inr p ∧ pushed_for e p.
Proof.
  unfold sync_local, try_catch, bind, ret.
  destruct (truthy_bool (res_isNote e)); [exists e; split; [done|by left]|].
  destruct (truthy (res_googleEventId e)).
  - destruct (updateEvent h _ e w) as [[exn|[]] w1]; eexists; (split; [reflexivity|]).
    + by left.
    + right. eexists. by left.
  - destruct (createEvent h e w) as [[exn|g] w1]; eexists; (split; [reflexivity|]).
    + by left.
    + right. eexists. by left.
Qed.

Lemma gapi_sync_local_note h e w :
  truthy_bool (res_isNote e) = true → sync_local h e w = (inr e, w).
Proof. intros H. unfold sync_local. by rewrite H. Qed.

(** For an event without identifier the loop body is one create. *)
Lemma gapi_sync_local_unlinked h e w :
  truthy_bool (res_isNote e) = false → truthy (res_googleEventId e) = false →
  sync_local h e w
  = (inr (match (createEvent h e w).1 with
          | inr g => with_resource e (spread_googleEventId (resource e) g)
          | inl _ => e
          end),
     (createEvent h e w).2).
Proof.
  intros Hn Hg. unfold sync_local, try_catch, bind, ret. rewrite Hn, Hg.
  by destruct (createEvent h e w) as [[exn|g] w1].
Qed.

Lemma gapi_createEvent_sent h e w :
  sent (createEvent h e w).2
  = sent w ++ (if isSignedIn w
               then match convertToGoogleEvent h e with
                    | Some googleEvent => [POST googleEvent]
                    | None => []
                    end
               else []).
Proof.
  unfold createEvent, guard_signed_in, bind, ret, throw.
  destruct (isSignedIn w); cbn [snd]; [|by rewrite app_nil_r].
  destruct (convertToGoogleEvent h e) as [googleEvent|]; cbn [snd]; [|by rewrite app_nil_r].
  unfold gapi_request, result_of, bind, fetch, ret, throw.
  destruct (remote w) as [|[|status body] rs]; cbn [fst snd]; try reflexivity.
  destruct (response_ok status); cbn [fst snd]; [|reflexivity].
  by destruct body.
Qed.

Lemma gapi_sync_locals_push_all h l : ∀ acc w,
  sync_locals h l acc w
  = (inr (acc ++ (push_all (sync_local h) l w).1), (push_all (sync_local h) l w).2).
Proof.
  induction l as [|e l IH]; intros acc w; cbn [sync_locals push_all fst snd].
  - unfold ret. by rewrite app_nil_r.
  - unfold bind. destruct (gapi_sync_local_returns h e w) as (p & Hp & _).
    destruct (sync_local h e w) as [r w1]. cbn [fst snd] in *. subst r.
    rewrite IH. cbn [result_or]. by rewrite <- app_assoc.
Qed.

Lemma gapi_getEvents_run h a b w status j items rs :
  isSignedIn w = true → remote w = Http status (Some j) :: rs →
  response_ok status = true → json_items j = Some items →
  getEvents h a b w
  = (inr (map (convertFromGoogleEvent h) items),
     consume (GET (JsDate.toISOString a) (JsDate.toISOString b)) w).
Proof.
  intros Hs Hr Hok Hit.
  unfold getEvents, guard_signed_in, gapi_request, result_of, bind, fetch, ret, throw, consume.
  rewrite Hs, Hr. cbn [fst snd]. rewrite Hok. cbn [fst snd]. by rewrite Hit.
Qed.

(** A run of the batch: the entries pushed for the local items, followed
    by the fetched events that were missing. *)
Lemma gapi_syncEvents_run h localEvents w status j items rs :
  isSignedIn w = true → remote w = Http status (Some j) :: rs →
  response_ok status = true → json_items j = Some items →
  let w1 := consume (GET (JsDate.toISOString (sync_window h (now w)).1)
                         (JsDate.toISOString (sync_window h (now w)).2)) w in
  syncEvents h localEvents w
  = (inr (merge_google_events (map (convertFromGoogleEvent h) items)
            (push_all (sync_local h) localEvents w1).1),
     (push_all (sync_local h) localEvents w1).2).
Proof.
  intros Hs Hr Hok Hit w1.
  unfold syncEvents, bind, ret. unfold guard_signed_in at 1. rewrite Hs. unfold ret.
  rewrite (gapi_getEvents_run _ _ _ _ _ _ _ _ Hs Hr Hok Hit). fold w1.
  by rewrite gapi_sync_locals_push_all.
Qed.

(** Whatever the batch does, a note among the local items changes neither
    the requests sent nor anything else of the world it ends in. *)
Lemma gapi_syncEvents_skips_note h l1 note l2 w :
  truthy_bool (res_isNote note) = true →
  (syncEvents h (l1 ++ note :: l2) w).2 = (syncEvents h (l1 ++ l2) w).2.
Proof.
  intros Hnote. unfold syncEvents, bind, ret.
  destruct (guard_signed_in w) as [[exn|[]] w0]; [reflexivity|].
  destruct (getEvents h _ _ w0) as [[exn|googleEvents] w1]; [reflexivity|].
  rewrite !gapi_sync_locals_push_all. cbn [snd].
  apply push_all_skip. intros w2. by apply gapi_sync_local_note.
Qed.

End GapiFacts.

Section Materialise.

Lemma gapi_updateEvent_sent h g e w :
  sent (GapiService.updateEvent h g e w).2
  = sent w ++ (if isSignedIn w
               then match GapiService.convertToGoogleEvent h e with
                    | Some googleEvent => [PUT g googleEvent]
                    | None => []
                    end
               else []).
Proof.
  unfold GapiService.updateEvent, GapiService.guard_signed_in, bind, ret, throw.
  destruct (isSignedIn w); cbn [snd]; [|by rewrite app_nil_r].
  destruct (GapiService.convertToGoogleEvent h e) as [googleEvent|]; cbn [snd];
    [|by rewrite app_nil_r].
  unfold GapiService.gapi_request, bind, fetch, ret, throw.
  destruct (remote w) as [|[|status body] rs]; cbn [fst snd]; try reflexivity.
  by destruct (response_ok status).
Qed.

(** For an event with an identifier the loop body of the gapi service is
    one update addressed by it. *)
Lemma gapi_sync_local_linked_sent h e g w :
  truthy_bool (res_isNote e) = false → res_googleEventId e = Some g → g ≠ "" →
  sent (GapiService.sync_local h e w).2
  = sent w ++ (if isSignedIn w
               then match GapiService.convertToGoogleEvent h e with
                    | Some googleEvent => [PUT g googleEvent]
                    | None => []
                    end
               else []).
Proof.
  intros Hn Hg Hne. unfold GapiService.sync_local, try_catch, bind, ret.
  rewrite Hn, Hg, (truthy_Some_ne _ Hne). cbn [default from_option Datatypes.id].
  pose proof (gapi_updateEvent_sent h g e w) as Hs.
  by destruct (GapiService.updateEvent h g e w) as [[exn|[]] w1].
Qed.

End Materialise.

Section GapiMore.
Import GapiService.

Lemma keeps_guard_signed_in {B} (f : World → B) : keeps f guard_signed_in.
Proof. intros w. unfold guard_signed_in. by destruct (isSignedIn w). Qed.

Lemma gapi_sync_local_signed h e w :
  isSignedIn (sync_local h e w).2 = isSignedIn w.
Proof.
  revert w. change (keeps isSignedIn (sync_local h e)).
  unfold sync_local, createEvent, updateEvent, gapi_request, result_of.
  repeat first [apply keeps_guard_signed_in | apply keeps_fetch_isSignedIn | keeps_step].
Qed.

Lemma gapi_sync_local_sent h e w :
  isSignedIn w = true →
  sent (sync_local h e w).2 = sent w ++ gapi_requests_for h e.
Proof.
  intros Hs. unfold gapi_requests_for.
  destruct (truthy_bool (res_isNote e)) eqn:Hn.
  - by rewrite gapi_sync_local_note, app_nil_r.
  - destruct (truthy (res_googleEventId e)) eqn:Hg.
    + destruct (truthy_true_inv _ Hg) as (g & Hsome & Hne).
      rewrite (gapi_sync_local_linked_sent h e g w Hn Hsome Hne), Hs, Hsome.
      by destruct (convertToGoogleEvent h e).
    + rewrite (gapi_sync_local_unlinked h e w Hn Hg). cbn [snd].
      rewrite gapi_createEvent_sent, Hs.
      by destruct (convertToGoogleEvent h e).
Qed.

Lemma gapi_push_all_sent h l : ∀ w,
  isSignedIn w = true →
  sent (push_all (sync_local h) l w).2 = sent w ++ flat_map (gapi_requests_for h) l.
Proof.
  induction l as [|e l IH]; intros w Hs; cbn [push_all flat_map snd].
  - by rewrite app_nil_r.
  - rewrite IH by (by rewrite gapi_sync_local_signed).
    by rewrite gapi_sync_local_sent, app_assoc.
Qed.

End GapiMore.

Section WorkingFacts.
Import WorkingService.

Lemma working_sync_local_returns h e w :
  ∃ p, (sync_local h e w).1 = inr p ∧ pushed_for e p.
Proof.
  unfold sync_local, try_catch, bind, ret.
  destruct (truthy (res_googleEventId e)); cbn [negb].
  - exists e. split; [done|by left].
  - destruct (createEvent h e w) as [[exn|g] w1]; eexists; (split; [reflexivity|]).
    + by left.
    + right. eexists. by right.
Qed.

Lemma working_sync_local_unlinked h e w :
  truthy (res_googleEventId e) = false →
  sync_local h e w
  = (inr (match (createEvent h e w).1 with
          | inr g => with_resource e (spread_synced (resource e) g)
          | inl _ => e
          end),
     (createEvent h e w).2).
Proof.
  intros Hg. unfold sync_local, try_catch, bind, ret. rewrite Hg. cbn [negb].
  by destruct (createEvent h e w) as [[exn|g] w1].
Qed.

Lemma working_sync_local_linked h e w :
  truthy (res_googleEventId e) = true → sync_local h e w = (inr e, w).
Proof. intros Hg. unfold sync_local, try_catch, ret. by rewrite Hg. Qed.

Lemma working_createEvent_sent h e w :
  sent (createEvent h e w).2
  = sent w ++ (match convertToGoogleEvent h e with
               | Some googleEvent =>
                   if truthy (accessToken w) then [POST googleEvent] else []
               | None => []
               end).
Proof.
  unfold createEvent, throw.
  destruct (convertToGoogleEvent h e) as [googleEvent|]; cbn [snd]; [|by rewrite app_nil_r].
  unfold makeRequest, bind, ret, throw, fetch, response_json.
  destruct (truthy (accessToken w)); cbn [fst snd]; [|by rewrite app_nil_r].
  destruct (remote w) as [|[|status body] rs]; cbn [fst snd]; try reflexivity.
  destruct (response_ok status); cbn [negb fst snd]; [|reflexivity].
  by destruct body.
Qed.

Lemma working_sync_locals_push_all h l : ∀ acc w,
  sync_locals h l acc w
  = (inr (acc ++ (push_all (sync_local h) l w).1), (push_all (sync_local h) l w).2).
Proof.
  induction l as [|e l IH]; intros acc w; cbn [sync_locals push_all fst snd].
  - unfold ret. by rewrite app_nil_r.
  - unfold bind. destruct (working_sync_local_returns h e w) as (p & Hp & _).
    destruct (sync_local h e w) as [r w1]. cbn [fst snd] in *. subst r.
    rewrite IH. cbn [result_or]. by rewrite <- app_assoc.
Qed.

Lemma working_syncEvents_run h localEvents w status j rs :
  truthy (accessToken w) = true → remote w = Http status (Some j) :: rs →
  response_ok status = true →
  let w1 := consume (GET (JsDate.toISOString (sync_window h (now w)).1)
                         (JsDate.toISOString (sync_window h (now w)).2)) w in
  syncEvents h localEvents w
  = (inr (merge_google_events
            (map (convertFromGoogleEvent h) (default [] (json_items j)))
            (push_all (sync_local h) localEvents w1).1),
     (push_all (sync_local h) localEvents w1).2).
Proof.
  intros Ht Hr Hok w1.
  unfold syncEvents, bind, ret, getEvents, makeRequest, bind, ret, throw, fetch,
    response_json.
  assert (Hw1 : w1 = set_remote rs
                       (sent w ++ [GET (JsDate.toISOString (sync_window h (now w)).1)
                                       (JsDate.toISOString (sync_window h (now w)).2)]) w)
    by (unfold w1, consume; by rewrite Hr).
  rewrite Ht, Hr. cbn [fst snd]. rewrite Hok. cbn [negb]. unfold ret.
  by rewrite working_sync_locals_push_all, Hw1.
Qed.

End WorkingFacts.

Section WorkingMore.
Import WorkingService.

Lemma keeps_fetch_accessToken req : keeps accessToken (fetch req).
Proof. intros w. unfold fetch. by destruct (remote w) as [|[|status body] rs]. Qed.

Lemma working_sync_local_token h e w :
  accessToken (sync_local h e w).2 = accessToken w.
Proof.
  revert w. change (keeps accessToken (sync_local h e)).
  unfold sync_local, createEvent, makeRequest, response_json.
  repeat first
    [ apply keeps_fetch_accessToken
    | match goal with
      | |- keeps _ (λ w, if truthy (accessToken w) then _ else _) =>
          intros w; by destruct (truthy (accessToken w))
      end
    | keeps_step ].
Qed.

Lemma working_sync_local_sent h e w :
  truthy (accessToken w) = true →
  sent (sync_local h e w).2 = sent w ++ working_requests_for h e.
Proof.
  intros Ht. unfold working_requests_for.
  destruct (truthy (res_googleEventId e)) eqn:Hg.
  - by rewrite (working_sync_local_linked h e w Hg), app_nil_r.
  - rewrite (working_sync_local_unlinked h e w Hg). cbn [snd].
    rewrite working_createEvent_sent, Ht.
    by destruct (convertToGoogleEvent h e).
Qed.

Lemma working_push_all_sent h l : ∀ w,
  truthy (accessToken w) = true →
  sent (push_all (sync_local h) l w).2 = sent w ++ flat_map (working_requests_for h) l.
Proof.
  induction l as [|e l IH]; intros w Ht; cbn [push_all flat_map snd].
  - by rewrite app_nil_r.
  - rewrite IH by (by rewrite working_sync_local_token).
    by rewrite working_sync_local_sent, app_assoc.
Qed.

End WorkingMore.

Section BatchItem.
Variable step : MyEvent → M MyEvent.

(** The entry the loop pushes for one item of the list, and the world in
    which the loop reaches it. *)
Lemma push_all_item before e after w :
  (push_all step (before ++ e :: after) w).1
  = (push_all step before w).1
    ++ result_or e (step e (push_all step before w).2).1
    :: (push_all step after (step e (push_all step before w).2).2).1.
Proof. by rewrite push_all_app. Qed.

End BatchItem.

(** C5, as amended: the merge of a batch run appends to the entries pushed
    for the local items a selection of the fetched events, never one whose
    identifier an entry of the list already carries and never the same
    identifier twice; hence, when the entries pushed for the local items
    have pairwise distinct keys (the remote identifier when present, the
    local id otherwise), so has the merged result. Both batch services
    return such a merge. *)
Theorem C5_merge_adds_no_duplicate (googleEvents syncedEvents : list MyEvent) :
  (∃ appended,
     merge_google_events googleEvents syncedEvents = syncedEvents ++ appended ∧
     sublist appended googleEvents ∧
     (∀ a x, a ∈ appended → x ∈ syncedEvents →
             res_googleEventId x ≠ res_googleEventId a) ∧
     NoDup (map res_googleEventId appended)) ∧
  (NoDup (map merge_key syncedEvents) →
   NoDup (map merge_key (merge_google_events googleEvents syncedEvents))) ∧
  (∀ h localEvents w status j items rs,
     isSignedIn w = true → remote w = Http status (Some j) :: rs →
     response_ok status = true → json_items j = Some items →
     ∃ pushed,
       (GapiService.syncEvents h localEvents w).1
       = inr (merge_google_events (map (convertFromGoogleEvent h) items) pushed) ∧
       Forall2 pushed_for localEvents pushed) ∧
  (∀ h localEvents w status j rs,
     truthy (accessToken w) = true → remote w = Http status (Some j) :: rs →
     response_ok status = true →
     ∃ pushed,
       (WorkingService.syncEvents h localEvents w).1
       = inr (merge_google_events
                (map (convertFromGoogleEvent h) (default [] (json_items j))) pushed) ∧
       Forall2 pushed_for localEvents pushed).
Proof.
  split; [apply merge_google_events_appends|].
  split; [apply merge_google_events_NoDup|]. split.
  - intros h localEvents w status j items rs Hs Hr Hok Hit.
    rewrite (gapi_syncEvents_run _ _ _ _ _ _ _ Hs Hr Hok Hit).
    eexists. split; [reflexivity|].
    apply push_all_pushed_for, gapi_sync_local_returns.
  - intros h localEvents w status j rs Ht Hr Hok.
    rewrite (working_syncEvents_run _ _ _ _ _ _ Ht Hr Hok).
    eexists. split; [reflexivity|].
    apply push_all_pushed_for, working_sync_local_returns.
Qed.

(** C7: for a local event without identifier the loop body of a batch
    service sends one create, and when the create fails the entry pushed
    for the item is the item itself. A run of the batch whose listing
    succeeds attempts that create in its place among the requests of the
    other local items, and the list it returns holds, in the place of the
    item, the item with the identifier the create returned or, when the
    create failed, the item itself: before it come the entries of the items
    before it, after it the entries of the items after it, and only then
    the fetched events that were missing. No local item is dropped. *)
Theorem C7_failed_items_stay (h : Host) (localEvent : MyEvent) (w : World) :
  truthy (res_googleEventId localEvent) = false →
  truthy_bool (res_isNote localEvent) = false →
  (requests_of (GapiService.sync_local h localEvent) w
   = (if isSignedIn w
      then match GapiService.convertToGoogleEvent h localEvent with
           | Some googleEvent => [POST googleEvent]
           | None => []
           end
      else []) ∧
   (∀ exn, (GapiService.createEvent h localEvent w).1 = inl exn →
           (GapiService.sync_local h localEvent w).1 = inr localEvent)) ∧
  (requests_of (WorkingService.sync_local h localEvent) w
   = match WorkingService.convertToGoogleEvent h localEvent with
     | Some googleEvent => if truthy (accessToken w) then [POST googleEvent] else []
     | None => []
     end ∧
   (∀ exn, (WorkingService.createEvent h localEvent w).1 = inl exn →
           (WorkingService.sync_local h localEvent w).1 = inr localEvent)) ∧
  (∀ before after w0 status j items rs,
     isSignedIn w0 = true → remote w0 = Http status (Some j) :: rs →
     response_ok status = true → json_items j = Some items →
     let listing := GET (JsDate.toISOString (sync_window h (now w0)).1)
                        (JsDate.toISOString (sync_window h (now w0)).2) in
     let reached := (push_all (GapiService.sync_local h) before (consume listing w0)).2 in
     requests_of (GapiService.syncEvents h (before ++ localEvent :: after)) w0
     = listing :: flat_map (gapi_requests_for h) before
       ++ match GapiService.convertToGoogleEvent h localEvent with
          | Some googleEvent => [POST googleEvent]
          | None => []
          end
       ++ flat_map (gapi_requests_for h) after ∧
     ∃ pushed_before pushed_after appended,
       (GapiService.syncEvents h (before ++ localEvent :: after) w0).1
       = inr (pushed_before
              ++ match (GapiService.createEvent h localEvent reached).1 with
                 | inr g =>
                     with_resource localEvent
                       (spread_googleEventId (resource localEvent) g)
                 | inl _ => localEvent
                 end
              :: pushed_after ++ appended) ∧
       Forall2 pushed_for before pushed_before ∧
       Forall2 pushed_for after pushed_after ∧
       sublist appended (map (convertFromGoogleEvent h) items)) ∧
  (∀ before after w0 status j rs,
     truthy (accessToken w0) = true → remote w0 = Http status (Some j) :: rs →
     response_ok status = true →
     let listing := GET (JsDate.toISOString (sync_window h (now w0)).1)
                        (JsDate.toISOString (sync_window h (now w0)).2) in
     let reached :=
       (push_all (WorkingService.sync_local h) before (consume listing w0)).2 in
     requests_of (WorkingService.syncEvents h (before ++ localEvent :: after)) w0
     = listing :: flat_map (working_requests_for h) before
       ++ match WorkingService.convertToGoogleEvent h localEvent with
          | Some googleEvent => [POST googleEvent]
          | None => []
          end
       ++ flat_map (working_requests_for h) after ∧
     ∃ pushed_before pushed_after appended,
       (WorkingService.syncEvents h (before ++ localEvent :: after) w0).1
       = inr (pushed_before
              ++ match (WorkingService.createEvent h localEvent reached).1 with
                 | inr g =>
                     with_resource localEvent (spread_synced (resource localEvent) g)
                 | inl _ => localEvent
                 end
              :: pushed_after ++ appended) ∧
       Forall2 pushed_for before pushed_before ∧
       Forall2 pushed_for after pushed_after ∧
       sublist appended
         (map (convertFromGoogleEvent h) (default [] (json_items j)))).
Proof.
  intros Hg Hn. split; [|split; [|split]].
  - split.
    + apply requests_of_after.
      rewrite (gapi_sync_local_unlinked _ _ _ Hn Hg). cbn [snd].
      apply gapi_createEvent_sent.
    + intros exn Hfail. rewrite (gapi_sync_local_unlinked _ _ _ Hn Hg). cbn [fst].
      by rewrite Hfail.
  - split.
    + apply requests_of_after.
      rewrite (working_sync_local_unlinked _ _ _ Hg). cbn [snd].
      apply working_createEvent_sent.
    + intros exn Hfail. rewrite (working_sync_local_unlinked _ _ _ Hg). cbn [fst].
      by rewrite Hfail.
  - intros before after w0 status j items rs Hs Hr Hok Hit listing reached.
    rewrite (gapi_syncEvents_run _ _ _ _ _ _ _ Hs Hr Hok Hit). cbn [fst snd].
    fold listing. split.
    + apply requests_of_after.
      rewrite (gapi_syncEvents_run _ _ _ _ _ _ _ Hs Hr Hok Hit). cbn [snd].
      fold listing. rewrite gapi_push_all_sent by exact Hs.
      unfold consume. cbn [sent set_remote].
      rewrite flat_map_app. cbn [flat_map].
      unfold gapi_requests_for at 2. rewrite Hn, Hg.
      by rewrite <- !app_assoc.
    + destruct (merge_google_events_appends (map (convertFromGoogleEvent h) items)
                  (push_all (GapiService.sync_local h) (before ++ localEvent :: after)
                     (consume listing w0)).1)
        as (appended & -> & Hsub & _).
      rewrite push_all_item. fold reached.
      rewrite (gapi_sync_local_unlinked _ _ _ Hn Hg). cbn [fst snd result_or].
      eexists _, _, appended. rewrite <- app_assoc. cbn [app].
      split; [reflexivity|].
      split; [apply push_all_pushed_for, gapi_sync_local_returns|].
      split; [apply push_all_pushed_for, gapi_sync_local_returns|exact Hsub].
  - intros before after w0 status j rs Ht Hr Hok listing reached.
    rewrite (working_syncEvents_run _ _ _ _ _ _ Ht Hr Hok). cbn [fst snd].
    fold listing. split.
    + apply requests_of_after.
      rewrite (working_syncEvents_run _ _ _ _ _ _ Ht Hr Hok). cbn [snd].
      fold listing. rewrite working_push_all_sent by exact Ht.
      unfold consume. cbn [sent set_remote].
      rewrite flat_map_app. cbn [flat_map].
      unfold working_requests_for at 2. rewrite Hg.
      by rewrite <- !app_assoc.
    + destruct (merge_google_events_appends
                  (map (convertFromGoogleEvent h) (default [] (json_items j)))
                  (push_all (WorkingService.sync_local h) (before ++ localEvent :: after)
                     (consume listing w0)).1)
        as (appended & -> & Hsub & _).
      rewrite push_all_item. fold reached.
      rewrite (working_sync_local_unlinked _ _ _ Hg). cbn [fst snd result_or].
      eexists _, _, appended. rewrite <- app_assoc. cbn [app].
      split; [reflexivity|].
      split; [apply push_all_pushed_for, working_sync_local_returns|].
      split; [apply push_all_pushed_for, working_sync_local_returns|exact Hsub].
Qed.


(** C10: the item materialised from a fetched event is all-day exactly when
    the remote start has no dateTime; it carries the remote identifier as
    its googleEventId and is marked as synced. When the boundaries are
    date-only, its start is the local midnight that opens the remote start
    date and its end is the last second of the remote end date itself (the
    exclusive end date, not the day before). Fed to a sync afterwards, such
    an item counts as linked: no request sent for it is a create. *)
Theorem C10_materialised_remote_event (h : Host) (googleEvent : GoogleItem) :
  (allDay (convertFromGoogleEvent h googleEvent) = Some true
   ↔ truthy (dateTime (item_start googleEvent)) = false) ∧
  res_googleEventId (convertFromGoogleEvent h googleEvent) = Some (item_id googleEvent) ∧
  (r ← resource (convertFromGoogleEvent h googleEvent); syncedToGoogle r) = Some true ∧
  (∀ y m d,
     truthy (dateTime (item_start googleEvent)) = false →
     date (item_start googleEvent) = Some (JsDate.fmt_date y m d) →
     0 ≤ y ≤ 9999 → 1 ≤ m ≤ 12 → 1 ≤ d ≤ JsDate.days_in_month y m →
     start (convertFromGoogleEvent h googleEvent) = Some (local_time_on h y m d 0)) ∧
  (∀ y m d,
     truthy (dateTime (item_end googleEvent)) = false →
     date (item_end googleEvent) = Some (JsDate.fmt_date y m d) →
     0 ≤ y ≤ 9999 → 1 ≤ m ≤ 12 → 1 ≤ d ≤ JsDate.days_in_month y m →
     end_ (convertFromGoogleEvent h googleEvent)
     = Some (local_time_on h y m d (JsDate.MakeTime 23 59 59 0))) ∧
  (item_id googleEvent ≠ "" →
   ∀ w,
     Forall (λ r, is_create r = false)
            (requests_of (GapiService.sync_local h (convertFromGoogleEvent h googleEvent)) w) ∧
     requests_of (WorkingService.sync_local h (convertFromGoogleEvent h googleEvent)) w = [] ∧
     Forall (λ r, is_create r = false)
            (requests_of (GoogleCalendarService.syncEvent h
                            (convertFromGoogleEvent h googleEvent)) w)).
Proof.
  split; [|split; [reflexivity|split; [reflexivity|split; [|split]]]].
  - unfold convertFromGoogleEvent. cbn [allDay].
    destruct (truthy (dateTime (item_start googleEvent))); cbn [negb]; split; congruence.
  - intros y m d Hno Hdate Hy Hm Hd.
    unfold convertFromGoogleEvent. cbn [start]. rewrite Hno, Hdate.
    cbn [default from_option Datatypes.id].
    by apply parse_date_T000000.
  - intros y m d Hno Hdate Hy Hm Hd.
    unfold convertFromGoogleEvent. cbn [end_]. rewrite Hno, Hdate.
    cbn [default from_option Datatypes.id].
    by apply parse_date_T235959.
  - intros Hne w.
    assert (Hg : res_googleEventId (convertFromGoogleEvent h googleEvent)
                 = Some (item_id googleEvent)) by reflexivity.
    assert (Hn : truthy_bool (res_isNote (convertFromGoogleEvent h googleEvent)) = false)
      by reflexivity.
    split; [|split].
    + apply Forall_forall. intros r Hr.
      rewrite (requests_of_after _ _ _
                 (gapi_sync_local_linked_sent _ _ _ w Hn Hg Hne)) in Hr.
      destruct (isSignedIn w); [|by apply elem_of_nil in Hr].
      destruct (GapiService.convertToGoogleEvent h _); [|by apply elem_of_nil in Hr].
      apply list_elem_of_singleton in Hr. by subst r.
    + apply requests_of_after.
      rewrite working_sync_local_linked; [by rewrite app_nil_r|].
      rewrite Hg. by apply truthy_Some_ne.
    + rewrite (requests_of_syncEvent_linked _ _ _ _ Hg Hne).
      destruct (GoogleCalendarService.convertToGoogleEvent h _); [|constructor].
      destruct (authenticated w); repeat constructor.
Qed.

(* ===================================================================== *)
(** ** The editor: validation and notes *)

Section EditorFacts.
Import EditorPanel.

Lemma keeps_clock {B} (f : World → B) : keeps f (λ w, ret (now w) w).
Proof. by intros w. Qed.

Lemma keeps_Timestamp_fromDate {B} (f : World → B) d : keeps f (Timestamp_fromDate d).
Proof. unfold Timestamp_fromDate. repeat keeps_step. Qed.

Lemma keeps_encode {B} (f : World → B) data ts_start ts_end :
  keeps f (encode data ts_start ts_end).
Proof. unfold encode. repeat keeps_step. Qed.

(** Submitting a note sends nothing to the provider. *)
Lemma handleSubmit_note_sent h st w :
  s_isNote st = true → sent (handleSubmit h st w).2 = sent w.
Proof.
  intros Hnote. revert w. change (keeps sent (handleSubmit h st)).
  unfold handleSubmit. rewrite Hnote. cbn [negb andb].
  repeat first
    [ apply keeps_sent_toast | apply keeps_sent_updateDoc | apply keeps_sent_addDoc
    | apply keeps_Timestamp_fromDate | apply keeps_encode | apply keeps_clock
    | keeps_step ].
Qed.

(** A timed event whose end is not after its start stops at validation:
    a notice, and nothing else. *)
Lemma handleSubmit_rejected h st w :
  s_isNote st = false → s_allDay st = false →
  JsDate.date_le (eventEnd h st) (eventStart h st) = true →
  handleSubmit h st w
  = (inr tt,
     add_toast (toast_error (if String.eqb (trim (s_title st)) ""
                             then "Please enter a title"
                             else "End time must be after start time")) w).
Proof.
  intros Hnote Hall Hle. unfold eventEnd, eventStart in Hle. rewrite Hall in Hle.
  unfold handleSubmit, validateEventTimes, bind, ret, toast.
  destruct (String.eqb (trim (s_title st)) ""); [reflexivity|].
  rewrite Hnote, Hall. cbn [negb]. by rewrite Hle.
Qed.

Lemma Timestamp_fromDate_in_range t w :
  Timestamp_min ≤ t < Timestamp_max → Timestamp_fromDate (Some t) w = (inr (Some t), w).
Proof.
  intros Ht. unfold Timestamp_fromDate.
  replace ((t <? Timestamp_min) || (Timestamp_max <=? t)) with false; [reflexivity|].
  symmetry. apply orb_false_iff. split; [apply Z.ltb_ge|apply Z.leb_gt]; lia.
Qed.

(** The tail the two forms share: the document is added, the event is
    synchronised and the identifier the create returned is written to the
    document. *)
Lemma addDoc_then_syncEvent h (data : Doc) (event : string → MyEvent) (t : Toast)
    (s e : Z) (i : string) (ids : list string) (w : World) :
  (∀ docRef, res_googleEventId (event docRef) = None) →
  (∀ docRef, start (event docRef) = Some s) →
  (∀ docRef, end_ (event docRef) = Some e) →
  store_available w = true → fresh_ids w = i :: ids →
  let r := if authenticated w then j ← next_json w; json_id j else None in
  ∃ w3 googleEvent,
    (docRef <~ addDoc events_collection data ;;
     try_catch
       (googleEventId <~ GoogleCalendarService.syncEvent h (event docRef) ;;
        if truthy googleEventId then
          updateDoc events_collection docRef
            {| d_title := None; d_start := None; d_end := None;
               d_content := None; d_isNote := None; d_allDay := None;
               d_priority := None; d_googleEventId := googleEventId |}
        else ret tt)
       (λ _, ret tt) ;;;
     toast t) w
    = (inr tt, add_toast t w3) ∧
    GoogleCalendarService.convertToGoogleEvent h (event i) = Some googleEvent ∧
    toasts w3 = toasts w ∧
    sent w3 = sent w ++ (if authenticated w then [POST googleEvent] else []) ∧
    events w3 !! i
    = Some (if truthy r then merge_doc (link_data r) data else data).
Proof.
  intros Hgid Hstart Hend Hstore Hids r.
  destruct (convertToGoogleEvent_is_Some h (event i) s e (Hstart i) (Hend i))
    as [googleEvent Hconv].
  unfold addDoc. rewrite bind_eq, Hstore, Hids.
  cbn [collection_of set_collection].
  set (w1 := set_store _ _ _ w).
  unfold try_catch. rewrite bind_eq, bind_eq.
  rewrite (syncEvent_unlinked h (event i) w1) by (by rewrite Hgid).
  rewrite Hconv.
  change (if authenticated w1 then j ← next_json w1; json_id j else None) with r.
  set (w2 := after_makeRequest (POST googleEvent) w1).
  destruct (store_after_makeRequest (POST googleEvent) w1) as [Hev2 _].
  destruct (after_makeRequest_rest (POST googleEvent) w1) as (Ht2 & Hid2 & _ & Hst2).
  pose proof (sent_after_makeRequest (POST googleEvent) w1) as Hsent2.
  fold w2 in Hev2, Ht2, Hid2, Hst2, Hsent2.
  change (authenticated w1) with (authenticated w) in Hsent2.
  change (sent w1) with (sent w) in Hsent2.
  assert (Hlook : events w2 !! i = Some data) by (rewrite Hev2; apply lookup_insert_eq).
  destruct (truthy r) eqn:Hr.
  - unfold updateDoc. rewrite Hst2.
    change (store_available w1) with (store_available w). rewrite Hstore.
    cbn [collection_of]. rewrite Hlook. unfold toast.
    eexists _, googleEvent. split; [reflexivity|].
    cbn [set_collection toasts events set_store sent].
    split; [done|]. split; [exact Ht2|]. split; [exact Hsent2|].
    apply lookup_insert_eq.
  - unfold ret, toast. eexists _, googleEvent. split; [reflexivity|]. done.
Qed.

Lemma handleCreateEventFromDate_run h t form s e i ids w :
  String.eqb (trim (f_title form)) "" = false →
  JsDate.parse (hostTimezoneOffset h)
    (format_yyyy_MM_dd h t +:+ "T" +:+ f_startTime form) = Some s →
  JsDate.parse (hostTimezoneOffset h)
    (format_yyyy_MM_dd h t +:+ "T" +:+ f_endTime form) = Some e →
  Timestamp_min ≤ s < Timestamp_max → Timestamp_min ≤ e < Timestamp_max →
  store_available w = true → fresh_ids w = i :: ids →
  let r := if authenticated w then j ← next_json w; json_id j else None in
  ∃ w3 googleEvent,
    handleCreateEventFromDate h (Some (Some t)) form w
    = (inr tt, add_toast (toast_success "Event created successfully!") w3) ∧
    GoogleCalendarService.convertToGoogleEvent h
      {| id := Some i;
         title := trim (f_title form);
         start := Some s;
         end_ := Some e;
         allDay := Some false;
         resource := Some {| isNote := Some false;
                             content := None;
                             color := None;
                             priority := Some medium;
                             googleEventId := None;
                             syncedToGoogle := None |} |} = Some googleEvent ∧
    toasts w3 = toasts w ∧
    sent w3 = sent w ++ (if authenticated w then [POST googleEvent] else []) ∧
    events w3 !! i
    = Some {| d_title := Some (trim (f_title form));
              d_start := Some s;
              d_end := Some e;
              d_content := None;
              d_isNote := None;
              d_allDay := Some false;
              d_priority := Some medium;
              d_googleEventId := if truthy r then r else None |}.
Proof.
  intros Htitle Hs He Hrs Hre Hstore Hids r.
  unfold handleCreateEventFromDate. rewrite Htitle.
  unfold format. unfold try_catch at 1.
  rewrite bind_eq. unfold ret at 1. rewrite Hs.
  rewrite bind_eq. unfold ret at 1. rewrite He.
  rewrite bind_eq, (Timestamp_fromDate_in_range s w Hrs).
  rewrite bind_eq, (Timestamp_fromDate_in_range e w Hre).
  unfold encode. rewrite bind_eq. unfold ret at 1.
  match goal with
  | |- context [addDoc events_collection ?d] => set (data := d)
  end.
  destruct (addDoc_then_syncEvent h data
              (λ docRef, {| id := Some docRef;
                            title := trim (f_title form);
                            start := Some s;
                            end_ := Some e;
                            allDay := Some false;
                            resource := Some {| isNote := Some false;
                                                content := None;
                                                color := None;
                                                priority := Some medium;
                                                googleEventId := None;
                                                syncedToGoogle := None |} |})
              (toast_success "Event created successfully!") s e i ids w
              (λ _, eq_refl) (λ _, eq_refl) (λ _, eq_refl) Hstore Hids)
    as (w3 & googleEvent & Hrun & Hconv & Ht & Hsent & Hlook).
  rewrite Hrun. exists w3, googleEvent.
  split; [reflexivity|]. split; [exact Hconv|]. split; [exact Ht|]. split; [exact Hsent|].
  rewrite Hlook. fold r. destruct (truthy r) eqn:Hr; [|reflexivity].
  destruct r; [reflexivity|discriminate Hr].
Qed.

Lemma validateEventTimes_accepts h st s e w :
  eventStart h st = Some s → eventEnd h st = Some e →
  s_allDay st = true ∨ s < e →
  validateEventTimes h st w = (inr true, w).
Proof.
  intros Hs He Hok. unfold validateEventTimes, eventStart, eventEnd in *.
  destruct (s_allDay st); [reflexivity|].
  rewrite Hs, He. cbn [JsDate.date_le].
  destruct Hok as [?|Hlt]; [done|].
  by replace (e <=? s) with false by (symmetry; apply Z.leb_gt; lia).
Qed.

(** A new event that passes the validation: the run of the handler. *)
Lemma handleSubmit_new_event_run h st s e i ids w :
  s_isNote st = false →
  String.eqb (trim (s_title st)) "" = false →
  eventStart h st = Some s → eventEnd h st = Some e →
  s_allDay st = true ∨ s < e →
  Timestamp_min ≤ s < Timestamp_max → Timestamp_min ≤ e < Timestamp_max →
  s_event st = None →
  store_available w = true → fresh_ids w = i :: ids →
  let r := if authenticated w then j ← next_json w; json_id j else None in
  ∃ w3 googleEvent,
    handleSubmit h st w
    = (inr tt, add_toast (toast_success "Event created successfully") w3) ∧
    GoogleCalendarService.convertToGoogleEvent h
      {| id := Some i;
         title := trim (s_title st);
         start := Some s;
         end_ := Some e;
         allDay := Some (s_allDay st);
         resource := Some {| isNote := Some false;
                             content := Some (trim (s_content st));
                             color := None;
                             priority := Some (s_priority st);
                             googleEventId := None;
                             syncedToGoogle := None |} |} = Some googleEvent ∧
    toasts w3 = toasts w ∧
    sent w3 = sent w ++ (if authenticated w then [POST googleEvent] else []) ∧
    events w3 !! i
    = Some {| d_title := Some (trim (s_title st));
              d_start := Some s;
              d_end := Some e;
              d_content := some_if (negb (String.eqb (trim (s_content st)) ""))
                                   (trim (s_content st));
              d_isNote := None;
              d_allDay := Some (s_allDay st);
              d_priority := Some (s_priority st);
              d_googleEventId := if truthy r then r else None |}.
Proof.
  intros Hnote Htitle Hs He Hok Hrs Hre Hnew Hstore Hids r.
  unfold handleSubmit.
  rewrite Htitle, Hnote. cbn [negb].
  rewrite bind_eq, bind_eq, (validateEventTimes_accepts h st s e w Hs He Hok).
  unfold ret at 1 2. cbn [negb].
  rewrite Hnew, Hs, He. cbn [mbind option_bind truthy negb andb some_if].
  unfold try_catch at 1.
  rewrite bind_eq. unfold ret at 1.
  rewrite bind_eq, (Timestamp_fromDate_in_range s w Hrs).
  rewrite bind_eq, (Timestamp_fromDate_in_range e w Hre).
  unfold encode. rewrite bind_eq. unfold ret at 1.
  cbn [Dashboard.collectionName].
  match goal with
  | |- context [addDoc events_collection ?d] => set (data := d)
  end.
  destruct (addDoc_then_syncEvent h data
              (λ docRef, {| id := Some docRef;
                            title := trim (s_title st);
                            start := Some s;
                            end_ := Some e;
                            allDay := Some (s_allDay st);
                            resource := Some {| isNote := Some false;
                                                content := Some (trim (s_content st));
                                                color := None;
                                                priority := Some (s_priority st);
                                                googleEventId := None;
                                                syncedToGoogle := None |} |})
              (toast_success "Event created successfully") s e i ids w
              (λ _, eq_refl) (λ _, eq_refl) (λ _, eq_refl) Hstore Hids)
    as (w3 & googleEvent & Hrun & Hconv & Ht & Hsent & Hlook).
  rewrite Hrun. exists w3, googleEvent.
  split; [reflexivity|]. split; [exact Hconv|]. split; [exact Ht|]. split; [exact Hsent|].
  rewrite Hlook. fold r. destruct (truthy r) eqn:Hr; [|reflexivity].
  destruct r; [reflexivity|discriminate Hr].
Qed.

End EditorFacts.

(** C6, as amended: a note in the dashboard's list changes nothing of a
    calendar sync, a note among the local items of the gapi batch is pushed
    as it is and changes nothing of the world the batch ends in, deleting a
    note sends no request, and neither does submitting one from the editor.
    The batch of the working service does not look at [isNote]: for a note
    without identifier it sends a create, in the place of the note among
    the requests of the run. *)
Theorem C6_notes_stay_local (h : Host) (note : MyEvent) :
  truthy_bool (res_isNote note) = true →
  (∀ evs1 evs2,
     Dashboard.handleSyncCalendar h (evs1 ++ note :: evs2)
     = Dashboard.handleSyncCalendar h (evs1 ++ evs2)) ∧
  (∀ w, requests_of (Dashboard.handleSyncCalendar h [note]) w = []) ∧
  (∀ w, GapiService.sync_local h note w = (inr note, w)) ∧
  (∀ l1 l2 w,
     (GapiService.syncEvents h (l1 ++ note :: l2) w).2
     = (GapiService.syncEvents h (l1 ++ l2) w).2) ∧
  (∀ evs eventId w, requests_of (Dashboard.handleEventDelete evs eventId true) w = []) ∧
  (∀ st w, EditorPanel.s_isNote st = true →
           requests_of (EditorPanel.handleSubmit h st) w = []) ∧
  (∀ googleEvent,
     truthy (res_googleEventId note) = false →
     WorkingService.convertToGoogleEvent h note = Some googleEvent →
     (∀ w, truthy (accessToken w) = true →
           requests_of (WorkingService.sync_local h note) w = [POST googleEvent]) ∧
     (∀ l1 l2 w status j rs,
        truthy (accessToken w) = true → remote w = Http status (Some j) :: rs →
        response_ok status = true →
        requests_of (WorkingService.syncEvents h (l1 ++ note :: l2)) w
        = GET (JsDate.toISOString (sync_window h (now w)).1)
              (JsDate.toISOString (sync_window h (now w)).2)
          :: flat_map (working_requests_for h) l1
          ++ POST googleEvent :: flat_map (working_requests_for h) l2)).
Proof.
  intros Hnote. split; [|split; [|split; [|split; [|split; [|split]]]]].
  - intros evs1 evs2. by apply handleSyncCalendar_skips_note.
  - intros w.
    pose proof (handleSyncCalendar_skips_note h [] note [] Hnote) as Hskip.
    cbn [app] in Hskip. rewrite Hskip.
    apply requests_of_after. cbn. by rewrite app_nil_r.
  - intros w. by apply gapi_sync_local_note.
  - intros l1 l2 w. by apply gapi_syncEvents_skips_note.
  - intros evs eventId w. apply requests_of_after.
    rewrite (proj1 (handleEventDelete_note evs eventId w)). by rewrite app_nil_r.
  - intros st w Hst. apply requests_of_after.
    rewrite (handleSubmit_note_sent _ _ _ Hst). by rewrite app_nil_r.
  - intros googleEvent Hg Hconv. split.
    + intros w Ht. apply requests_of_after.
      rewrite (working_sync_local_unlinked h note w Hg). cbn [snd].
      by rewrite working_createEvent_sent, Hconv, Ht.
    + intros l1 l2 w status j rs Ht Hr Hok. apply requests_of_after.
      rewrite (working_syncEvents_run _ _ _ _ _ _ Ht Hr Hok). cbn [snd].
      rewrite working_push_all_sent by exact Ht.
      unfold consume. cbn [sent set_remote].
      rewrite flat_map_app. cbn [flat_map].
      unfold working_requests_for at 2. rewrite Hg, Hconv.
      by rewrite <- !app_assoc.
Qed.

(** C9, as amended: a timed event (not all-day) submitted through the
    editor's form whose end is before or equal to its start is rejected:
    the handler returns after a notice, with the document store, the
    requests sent and the rest of the world as they were. An all-day event
    is not checked: whatever the order of its boundaries it is written and
    synchronised. The form that creates an event on a detected date checks
    nothing either: whatever the order of its two times, the event is
    written and synchronised. *)
Theorem C9_timed_event_rejected (h : Host) (st : EditorPanel.State) (w : World) :
  (EditorPanel.s_isNote st = false → EditorPanel.s_allDay st = false →
   JsDate.date_le (EditorPanel.eventEnd h st) (EditorPanel.eventStart h st) = true →
   (∃ notice,
      EditorPanel.handleSubmit h st w = (inr tt, add_toast (toast_error notice) w)) ∧
   events (EditorPanel.handleSubmit h st w).2 = events w ∧
   notes (EditorPanel.handleSubmit h st w).2 = notes w ∧
   fresh_ids (EditorPanel.handleSubmit h st w).2 = fresh_ids w ∧
   sent (EditorPanel.handleSubmit h st w).2 = sent w ∧
   remote (EditorPanel.handleSubmit h st w).2 = remote w ∧
   google_access_token (EditorPanel.handleSubmit h st w).2 = google_access_token w) ∧
  (EditorPanel.s_allDay st = true →
   EditorPanel.validateEventTimes h st w = (inr true, w) ∧
   ∀ s e i ids,
     EditorPanel.s_isNote st = false →
     String.eqb (trim (EditorPanel.s_title st)) "" = false →
     EditorPanel.eventStart h st = Some s → EditorPanel.eventEnd h st = Some e →
     EditorPanel.Timestamp_min ≤ s < EditorPanel.Timestamp_max →
     EditorPanel.Timestamp_min ≤ e < EditorPanel.Timestamp_max →
     EditorPanel.s_event st = None →
     store_available w = true → fresh_ids w = i :: ids →
     ∃ doc googleEvent,
       events (EditorPanel.handleSubmit h st w).2 !! i = Some doc ∧
       d_start doc = Some s ∧ d_end doc = Some e ∧
       requests_of (EditorPanel.handleSubmit h st) w
       = if authenticated w then [POST googleEvent] else []) ∧
  (∀ t form s e i ids,
     String.eqb (trim (EditorPanel.f_title form)) "" = false →
     JsDate.parse (hostTimezoneOffset h)
       (EditorPanel.format_yyyy_MM_dd h t +:+ "T" +:+ EditorPanel.f_startTime form)
     = Some s →
     JsDate.parse (hostTimezoneOffset h)
       (EditorPanel.format_yyyy_MM_dd h t +:+ "T" +:+ EditorPanel.f_endTime form)
     = Some e →
     EditorPanel.Timestamp_min ≤ s < EditorPanel.Timestamp_max →
     EditorPanel.Timestamp_min ≤ e < EditorPanel.Timestamp_max →
     store_available w = true → fresh_ids w = i :: ids →
     ∃ doc googleEvent,
       events (EditorPanel.handleCreateEventFromDate h (Some (Some t)) form w).2 !! i
       = Some doc ∧
       d_start doc = Some s ∧ d_end doc = Some e ∧
       requests_of (EditorPanel.handleCreateEventFromDate h (Some (Some t)) form) w
       = (if authenticated w then [POST googleEvent] else []) ∧
       toasts (EditorPanel.handleCreateEventFromDate h (Some (Some t)) form w).2
       = toasts w ++ [toast_success "Event created successfully!"]).
Proof.
  split; [|split].
  - intros Hnote Hall Hle.
    rewrite (handleSubmit_rejected _ _ _ Hnote Hall Hle).
    split; [by eexists|]. repeat split.
  - intros Hall. split.
    { unfold EditorPanel.validateEventTimes. by rewrite Hall. }
    intros s e i ids Hnote Htitle Hs He Hrs Hre Hnew Hstore Hids.
    destruct (handleSubmit_new_event_run h st s e i ids w
                Hnote Htitle Hs He (or_introl Hall) Hrs Hre Hnew Hstore Hids)
      as (w3 & googleEvent & Hrun & _ & _ & Hsent & Hlook).
    eexists _, googleEvent. rewrite Hrun. cbn [snd events add_toast].
    split; [exact Hlook|]. split; [reflexivity|]. split; [reflexivity|].
    apply requests_of_after. by rewrite Hrun.
  - intros t form s e i ids Htitle Hs He Hrs Hre Hstore Hids.
    destruct (handleCreateEventFromDate_run h t form s e i ids w
                Htitle Hs He Hrs Hre Hstore Hids)
      as (w3 & googleEvent & Hrun & _ & Ht & Hsent & Hlook).
    eexists _, googleEvent. rewrite Hrun. cbn [snd events toasts add_toast].
    split; [exact Hlook|]. split; [reflexivity|]. split; [reflexivity|].
    split; [|by rewrite Ht].
    apply requests_of_after. by rewrite Hrun.
Qed.

(* ===================================================================== *)
(** ** The batch converter and all-day items *)

(** The converter of the batch services writes, for an all-day item, the
    UTC dates of the two time values: no day is added to the end, and the
    dates move with the offset of the host's zone. *)
Lemma convertToGoogleEvent_batch_all_day (h : Host) (event : MyEvent) (s e : Z) :
  allDay event = Some true → start event = Some s → end_ event = Some e →
  convertToGoogleEvent_batch h event
  = Some {| summary := title event;
            description := or_else (res_content event) "";
            colorId := None;
            g_start := date_only (JsDate.isoDate (JsDate.Day s));
            g_end := date_only (JsDate.isoDate (JsDate.Day e)) |}.
Proof.
  intros Hall Hs He. unfold convertToGoogleEvent_batch.
  rewrite Hall, Hs, He. cbn [truthy_bool mbind option_bind].
  by rewrite !split_T_toISOString.
Qed.

(** C2: the all-day item from 2024-06-01 through 2024-06-03. The token
    service (googleCalendarService.ts) sends the dates 2024-06-01 and
    2024-06-04 in any zone, as the claim says; the converter of
    googleCalendar.ts sends 2024-06-01 and 2024-06-03 on a host in UTC, and
    2024-05-31 and 2024-06-03 on a host in Asia/Kolkata. *)
Theorem C2_all_day_end_date_of_the_two_converters :
  (∀ h, ∃ googleEvent,
     GoogleCalendarService.convertToGoogleEvent h (vacation h) = Some googleEvent ∧
     g_start googleEvent = date_only "2024-06-01" ∧
     g_end googleEvent = date_only "2024-06-04") ∧
  (∃ googleEvent,
     GapiService.convertToGoogleEvent utc_host (vacation utc_host) = Some googleEvent ∧
     g_start googleEvent = date_only "2024-06-01" ∧
     g_end googleEvent = date_only "2024-06-03") ∧
  (∃ googleEvent,
     GapiService.convertToGoogleEvent kolkata (vacation kolkata) = Some googleEvent ∧
     g_start googleEvent = date_only "2024-05-31" ∧
     g_end googleEvent = date_only "2024-06-03").
Proof.
  split; [|split].
  - intros h.
    destruct (convertToGoogleEvent_exclusive_end h (vacation h) _ _ eq_refl eq_refl eq_refl)
      as (googleEvent & Hc & Hs & He).
    exists googleEvent. split; [exact Hc|]. rewrite Hs, He.
    unfold localDate, local_time_on. rewrite !LocalTime_UTC.
    rewrite !Day_MakeDate by (vm_compute; split; [discriminate|reflexivity]).
    split; f_equal; vm_compute; reflexivity.
  - eexists. split; [vm_compute; reflexivity|]. split; reflexivity.
  - eexists. split; [vm_compute; reflexivity|]. split; reflexivity.
Qed.

(* ===================================================================== *)
(** ** Scenarios *)

Lemma C8_witness :
  ∃ googleEvent,
    GoogleCalendarService.convertToGoogleEvent kolkata (standup kolkata None)
    = Some googleEvent ∧
    colorId googleEvent = Some "9".
Proof.
  exact (proj1 (C8_priority_colour_tag kolkata (standup kolkata None) _ _ eq_refl eq_refl)).
Defined.

(** C1 as stated fails: [syncEvent] does not record the identifier it
    returns, so that a second call on the same item, after a first call
    that succeeded, sends a second create. *)
Lemma C1_counterexample :
  ¬ (∀ h event w g,
       (GoogleCalendarService.syncEvent h event w).1 = inr (Some g) →
       (count_creates
          (requests_of (GoogleCalendarService.syncEvent h event ;;;
                        GoogleCalendarService.syncEvent h event) w) ≤ 1)%nat).
Proof.
  intros H.
  specialize (H kolkata (standup kolkata None) (browser [created "g1"; created "g2"])
                "g1" eq_refl).
  vm_compute in H. lia.
Qed.

Lemma C1_witness :
  (truthy (res_googleEventId (standup kolkata None)) = false ∧
   (GoogleCalendarService.syncEvent kolkata (standup kolkata None)
      (browser [created "g1"; created "g2"])).1 = inr (Some "g1") ∧
   (∃ googleEvent,
      requests_of (GoogleCalendarService.syncEvent kolkata (standup kolkata None) ;;;
                   GoogleCalendarService.syncEvent kolkata (standup kolkata None))
                  (browser [created "g1"; created "g2"])
      = [POST googleEvent; POST googleEvent]) ∧
   (∃ googleEvent,
      requests_of (GoogleCalendarService.syncEvent kolkata (standup kolkata None) ;;;
                   GoogleCalendarService.syncEvent kolkata
                     (record_link (standup kolkata None) (Some "g1")))
                  (browser [created "g1"; created "g2"])
      = [POST googleEvent; PATCH "g1" googleEvent])) ∧
  (res_googleEventId (standup kolkata (Some "g1")) = Some "g1" ∧
   ∀ n, Forall (λ r, ∃ googleEvent, r = PATCH "g1" googleEvent)
               (requests_of
                  (for_of (replicate n (standup kolkata (Some "g1")))
                     (λ e, GoogleCalendarService.syncEvent kolkata e ;;; ret tt))
                  (browser [NetworkError; created "g1"]))) ∧
  (∃ googleEvent,
     requests_of (CheckedCalendarService.syncEvent kolkata (standup kolkata None))
                 (connected_browser [Http 200 None; created "g1"])
     = [GET_primary; POST googleEvent]) ∧
  (CheckedCalendarService.syncEvent kolkata (standup kolkata None)
     (browser [created "g1"])).1
  = inl (Error "Google Calendar not connected").
Proof.
  split; [|split; [|split]].
  - split; [reflexivity|]. split; [vm_compute; reflexivity|].
    destruct (proj1 (C1_syncEvent_dispatch kolkata (standup kolkata None)
                       (browser [created "g1"; created "g2"])) eq_refl)
      as (_ & _ & Hsame & Hrecorded & _).
    split.
    + destruct (Hsame "g1") as (googleEvent & _ & Hreq); [vm_compute; reflexivity|].
      by exists googleEvent.
    + destruct (Hrecorded "g1") as (googleEvent & _ & Hreq);
        [vm_compute; reflexivity|discriminate|].
      by exists googleEvent.
  - split; [reflexivity|].
    apply (proj2 (C1_syncEvent_dispatch kolkata (standup kolkata (Some "g1"))
                    (browser [NetworkError; created "g1"])) "g1");
      [reflexivity|discriminate].
  - destruct (proj1 (C1_syncEvent_dispatch kolkata (standup kolkata None)
                       (connected_browser [Http 200 None; created "g1"])) eq_refl)
      as (_ & _ & _ & _ & Hchecked).
    destruct (Hchecked true
                (CheckedCalendarService.ensureValidToken
                   (connected_browser [Http 200 None; created "g1"])).2)
      as (_ & Hreq & _); [vm_compute; reflexivity|].
    destruct (CheckedCalendarService.convertToGoogleEvent kolkata (standup kolkata None))
      as [googleEvent|] eqn:Hconv; [|vm_compute in Hconv; discriminate Hconv].
    exists googleEvent. rewrite Hreq. vm_compute. reflexivity.
  - destruct (proj1 (C1_syncEvent_dispatch kolkata (standup kolkata None)
                       (browser [created "g1"])) eq_refl)
      as (_ & _ & _ & _ & Hchecked).
    destruct (Hchecked false
                (CheckedCalendarService.ensureValidToken (browser [created "g1"])).2)
      as (_ & _ & Hthrows & _); [vm_compute; reflexivity|].
    by apply Hthrows.
Defined.

(** The dashboard's sync does not keep the identifier [syncEvent] returns:
    the store is as before, and a second sync of the same list sends a
    second create. *)
Remark handleSyncCalendar_forgets_the_identifier :
  events (Dashboard.handleSyncCalendar kolkata [standup kolkata None]
            (browser [created "g1"; created "g2"])).2
  = events (browser [created "g1"; created "g2"]) ∧
  count_creates
    (requests_of (Dashboard.handleSyncCalendar kolkata [standup kolkata None] ;;;
                  Dashboard.handleSyncCalendar kolkata [standup kolkata None])
                 (browser [created "g1"; created "g2"])) = 2%nat.
Proof. split; vm_compute; reflexivity. Qed.


Lemma C4_witness :
  events (Dashboard.handleEventDelete [shopping_list; standup kolkata (Some "g1")] "ev2" false
            (browser [NetworkError])).2
  = delete "ev2" (events (browser [NetworkError])) ∧
  requests_of (Dashboard.handleEventDelete [shopping_list; standup kolkata (Some "g1")]
                 "ev2" false)
              (browser [NetworkError])
  = [DELETE "g1"].
Proof.
  destruct (C4_delete_local_first [shopping_list; standup kolkata (Some "g1")] "ev2"
              (standup kolkata (Some "g1")) "g1" (browser [NetworkError]))
    as (Hev & _ & Hreq & _); [reflexivity|reflexivity|discriminate|reflexivity|].
  split; [exact Hev|exact Hreq].
Defined.

(** C5 as stated fails: a local list that holds an entry twice comes back
    with the entry twice. *)
Lemma C5_counterexample :
  ¬ (∀ h localEvents w merged,
       (GapiService.syncEvents h localEvents w).1 = inr merged →
       NoDup (map merge_key merged)).
Proof.
  intros H.
  specialize (H kolkata [standup kolkata (Some "g1"); standup kolkata (Some "g1")]
                (browser [listed []])
                [standup kolkata (Some "g1"); standup kolkata (Some "g1")]).
  assert (Hrun : (GapiService.syncEvents kolkata
                    [standup kolkata (Some "g1"); standup kolkata (Some "g1")]
                    (browser [listed []])).1
                 = inr [standup kolkata (Some "g1"); standup kolkata (Some "g1")])
    by (vm_compute; reflexivity).
  specialize (H Hrun). cbn [map] in H.
  apply NoDup_cons in H as [Hnotin _]. apply Hnotin. by left.
Qed.

Lemma C5_witness :
  NoDup (map merge_key [standup kolkata (Some "g7")]) ∧
  NoDup (map merge_key
           (merge_google_events [convertFromGoogleEvent kolkata remote_vacation]
              [standup kolkata (Some "g7")])).
Proof.
  assert (Hnd : NoDup (map merge_key [standup kolkata (Some "g7")]))
    by (apply NoDup_singleton).
  split; [exact Hnd|].
  exact (proj1 (proj2 (C5_merge_adds_no_duplicate
                         [convertFromGoogleEvent kolkata remote_vacation]
                         [standup kolkata (Some "g7")])) Hnd).
Defined.

(** C6 as stated fails: the batch of the working service sends a create
    for a note. *)
Lemma C6_counterexample :
  ¬ (∀ h note w,
       truthy_bool (res_isNote note) = true →
       count_creates (requests_of (WorkingService.syncEvents h [note]) w) = 0%nat).
Proof.
  intros H.
  specialize (H kolkata shopping_list (browser [listed []; created "g9"]) eq_refl).
  vm_compute in H. discriminate H.
Qed.

Lemma C6_witness :
  truthy_bool (res_isNote shopping_list) = true ∧
  (∀ w, requests_of (Dashboard.handleSyncCalendar kolkata [shopping_list]) w = []) ∧
  ∃ googleEvent,
    requests_of (WorkingService.sync_local kolkata shopping_list) (browser [created "g9"])
    = [POST googleEvent].
Proof.
  split; [reflexivity|].
  destruct (C6_notes_stay_local kolkata shopping_list eq_refl)
    as (_ & Hsync & _ & _ & _ & _ & Hworking).
  split; [exact Hsync|].
  destruct (WorkingService.convertToGoogleEvent kolkata shopping_list)
    as [googleEvent|] eqn:Hconv; [|vm_compute in Hconv; discriminate Hconv].
  exists googleEvent.
  exact (proj1 (Hworking googleEvent eq_refl eq_refl) (browser [created "g9"]) eq_refl).
Defined.

Lemma C7_witness :
  ((GapiService.createEvent kolkata (standup kolkata None) (browser [NetworkError])).1
   = inl (Error "Failed to fetch") ∧
   (GapiService.sync_local kolkata (standup kolkata None) (browser [NetworkError])).1
   = inr (standup kolkata None)) ∧
  (count_creates
     (requests_of
        (GapiService.syncEvents kolkata [vacation kolkata; standup kolkata None])
        (browser [listed []; created "g5"; Http 500 None])) = 2%nat ∧
   ∃ pushed_before pushed_after appended,
     (GapiService.syncEvents kolkata [vacation kolkata; standup kolkata None]
        (browser [listed []; created "g5"; Http 500 None])).1
     = inr (pushed_before ++ standup kolkata None :: pushed_after ++ appended) ∧
     Forall2 pushed_for [vacation kolkata] pushed_before ∧
     Forall2 pushed_for [] pushed_after ∧
     sublist appended []).
Proof.
  split.
  - split; [vm_compute; reflexivity|].
    apply (proj2 (proj1 (C7_failed_items_stay kolkata (standup kolkata None)
                           (browser [NetworkError]) eq_refl eq_refl))
             (Error "Failed to fetch")).
    vm_compute; reflexivity.
  - destruct (proj1 (proj2 (proj2 (C7_failed_items_stay kolkata (standup kolkata None)
                                     (browser []) eq_refl eq_refl)))
                [vacation kolkata] [] (browser [listed []; created "g5"; Http 500 None])
                200
                {| json_id := None; json_items := Some []; json_access_token := None |}
                [] [created "g5"; Http 500 None] eq_refl eq_refl eq_refl eq_refl)
      as (Hreq & pushed_before & pushed_after & appended & Hres & Hb & Ha & Hsub).
    split.
    + change ([vacation kolkata; standup kolkata None])
        with ([vacation kolkata] ++ standup kolkata None :: []).
      rewrite Hreq. vm_compute. reflexivity.
    + exists pushed_before, pushed_after, appended.
      split; [exact Hres|]. split; [exact Hb|]. split; [exact Ha|exact Hsub].
Defined.

(** C9 as stated fails: an all-day event that ends before it starts is
    written and sent, and so is an event of the form for a detected date
    whose end time lies before its start time. *)
Lemma C9_counterexample :
  ¬ (∀ h st w,
       EditorPanel.s_isNote st = false →
       JsDate.date_le (EditorPanel.eventEnd h st) (EditorPanel.eventStart h st) = true →
       events (EditorPanel.handleSubmit h st w).2 = events w ∧
       sent (EditorPanel.handleSubmit h st w).2 = sent w) ∧
  ¬ (∀ h t form w,
       JsDate.date_le
         (JsDate.parse (hostTimezoneOffset h)
            (EditorPanel.format_yyyy_MM_dd h t +:+ "T" +:+ EditorPanel.f_endTime form))
         (JsDate.parse (hostTimezoneOffset h)
            (EditorPanel.format_yyyy_MM_dd h t +:+ "T" +:+ EditorPanel.f_startTime form))
       = true →
       events (EditorPanel.handleCreateEventFromDate h (Some (Some t)) form w).2
       = events w ∧
       sent (EditorPanel.handleCreateEventFromDate h (Some (Some t)) form w).2
       = sent w).
Proof.
  split.
  - intros H.
    destruct (H kolkata backwards_trip (browser [created "g9"])) as [_ Hsent];
      [reflexivity|vm_compute; reflexivity|].
    vm_compute in Hsent. discriminate Hsent.
  - intros H.
    destruct (H kolkata 1717200000000 backwards_call (browser [created "g9"]))
      as [_ Hsent]; [vm_compute; reflexivity|].
    vm_compute in Hsent. discriminate Hsent.
Qed.

Lemma C9_witness :
  JsDate.date_le (EditorPanel.eventEnd kolkata backwards_meeting)
                 (EditorPanel.eventStart kolkata backwards_meeting) = true ∧
  events (EditorPanel.handleSubmit kolkata backwards_meeting (browser [created "g9"])).2
  = events (browser [created "g9"]) ∧
  sent (EditorPanel.handleSubmit kolkata backwards_meeting (browser [created "g9"])).2
  = sent (browser [created "g9"]) ∧
  ∃ doc,
    events (EditorPanel.handleCreateEventFromDate kolkata (Some (Some 1717200000000))
              backwards_call (browser [created "g9"])).2 !! "doc1" = Some doc ∧
    d_start doc = Some (local_time_on kolkata 2024 6 1 (JsDate.MakeTime 10 0 0 0)) ∧
    d_end doc = Some (local_time_on kolkata 2024 6 1 (JsDate.MakeTime 9 0 0 0)).
Proof.
  assert (Hle : JsDate.date_le (EditorPanel.eventEnd kolkata backwards_meeting)
                  (EditorPanel.eventStart kolkata backwards_meeting) = true)
    by (vm_compute; reflexivity).
  split; [exact Hle|].
  destruct (C9_timed_event_rejected kolkata backwards_meeting (browser [created "g9"]))
    as (Htimed & _ & Hdetected).
  destruct (Htimed eq_refl eq_refl Hle) as (_ & Hev & _ & _ & Hsent & _).
  split; [exact Hev|]. split; [exact Hsent|].
  destruct (Hdetected 1717200000000 backwards_call
              (local_time_on kolkata 2024 6 1 (JsDate.MakeTime 10 0 0 0))
              (local_time_on kolkata 2024 6 1 (JsDate.MakeTime 9 0 0 0))
              "doc1" ["doc2"])
    as (doc & _ & Hlook & Hs & He & _);
    [reflexivity|vm_compute; reflexivity|vm_compute; reflexivity
    |vm_compute; split; [discriminate|reflexivity]
    |vm_compute; split; [discriminate|reflexivity]
    |reflexivity|reflexivity|].
  exists doc. split; [exact Hlook|]. split; [exact Hs|exact He].
Defined.

Lemma C10_witness :
  start (convertFromGoogleEvent kolkata remote_vacation)
  = Some (local_time_on kolkata 2024 6 1 0) ∧
  end_ (convertFromGoogleEvent kolkata remote_vacation)
  = Some (local_time_on kolkata 2024 6 4 (JsDate.MakeTime 23 59 59 0)) ∧
  ∀ w, Forall (λ r, is_create r = false)
              (requests_of (GoogleCalendarService.syncEvent kolkata
                              (convertFromGoogleEvent kolkata remote_vacation)) w).
Proof.
  destruct (C10_materialised_remote_event kolkata remote_vacation)
    as (_ & _ & _ & Hstart & Hend & Hlinked).
  split; [|split].
  - apply (Hstart 2024 6 1); [reflexivity|vm_compute; reflexivity|lia|lia|].
    vm_compute. split; discriminate.
  - apply (Hend 2024 6 4); [reflexivity|vm_compute; reflexivity|lia|lia|].
    vm_compute. split; discriminate.
  - intros w. apply Hlinked; discriminate.
Defined.

(* ===================================================================== *)
(** * Further properties *)

(** ** More calendar arithmetic and the text of an instant *)

(** The date functions are unfolded again for the lemmas on their text. *)
Transparent JsDate.toISOString JsDate.isoDate JsDate.split_head JsDate.parse
  JsDate.setDate JsDate.getDate JsDate.setMonth JsDate.getMonth
  JsDate.days_from_civil JsDate.civil_from_days.

Section CalendarMore.
Import JsDate.

Lemma doy_365_leap doe :
  0 ≤ doe < 146097 → doy_of_doe doe = 365 →
  ((yoe_of_doe doe + 1) mod 4 = 0 ∧ (yoe_of_doe doe + 1) mod 100 ≠ 0)
  ∨ yoe_of_doe doe = 399.
Proof.
  intros Hdoe. unfold doy_of_doe, yoe_of_doe. zdiv.
Qed.


(** The day of the month of a day number exists in its month. *)
Lemma civil_from_days_valid z y m d :
  civil_from_days z = (y, m, d) → 1 ≤ d ≤ days_in_month y m.
Proof.
  intros Hc. destruct (civil_from_days_range _ _ _ _ Hc) as [Hm Hd].
  split; [lia|]. revert Hc. unfold civil_from_days.
  set (z0 := z + 719468).
  set (era := z0 / 146097).
  set (doe := z0 mod 146097).
  assert (Hdoe : 0 ≤ doe < 146097) by (apply Z.mod_pos_bound; lia).
  pose proof (yoe_of_doe_bounds doe Hdoe) as Hyoe.
  pose proof (doy_of_doe_bounds doe Hdoe) as Hdoy.
  pose proof (doy_365_leap doe Hdoe) as Hleap.
  set (yoe := yoe_of_doe doe) in *.
  set (doy := doy_of_doe doe) in *.
  set (mp := (5 * doy + 2) / 153).
  assert (Hmp : 0 ≤ mp ≤ 11) by (unfold mp; zdiv).
  assert (Hd' : doy - (153 * mp + 2) / 5 + 1
                ≤ (153 * (mp + 1) + 2) / 5 - (153 * mp + 2) / 5) by (unfold mp; zdiv).
  intros [= Hy Hmm Hdd].
  unfold days_in_month, is_leap.
  destruct (m =? 2) eqn:E2; bool_to_Z.
  - assert (Emp : mp = 11) by (destruct (mp <? 10) eqn:Hlt; bool_to_Z; lia).
    rewrite Emp in *. change ((153 * 11 + 2) / 5) with 337 in *.
    change (11 <? 10) with false in *. cbv iota in *.
    destruct (((y mod 4 =? 0) && negb (y mod 100 =? 0)) || (y mod 400 =? 0)) eqn:Hl; [lia|].
    apply orb_false_iff in Hl. destruct Hl as [Hl1 Hl2].
    bool_to_Z.
    assert (doy ≠ 365); [|lia].
    intros E365. specialize (Hleap E365).
    replace (11 - 9 <=? 2) with true in Hy by reflexivity.
    destruct Hleap as [[H4 H100]|H399].
    + apply andb_false_iff in Hl1. destruct Hl1 as [Hl1|Hl1].
      * bool_to_Z. zdiv.
      * apply negb_false_iff in Hl1. bool_to_Z. zdiv.
    + zdiv.
  - destruct (mp <? 10) eqn:Hlt;
    destruct (m =? 4) eqn:E4; destruct (m =? 6) eqn:E6; destruct (m =? 9) eqn:E9;
      destruct (m =? 11) eqn:E11; cbn [orb]; bool_to_Z; try lia; zdiv.
Qed.

(** The years 0 to 9999 are the day numbers from -719528 to 2932896. *)
Lemma civil_from_days_year z y m d :
  civil_from_days z = (y, m, d) → -719528 ≤ z ≤ 2932896 → 0 ≤ y ≤ 9999.
Proof.
  intros Hc Hz.
  destruct (civil_from_days_range _ _ _ _ Hc) as [Hm Hd].
  pose proof (days_from_civil_of_days _ _ _ _ Hc) as Hinv.
  unfold days_from_civil in Hinv.
  destruct (m <=? 2) eqn:Hm2; destruct (2 <? m) eqn:Hm3; bool_to_Z; try lia.
  - zdiv.
  - zdiv.
Qed.

(** [d.setDate(d.getDate() + k)] moves the local calendar day by [k] and
    keeps the local time of the day. *)
Lemma setDate_days off t k :
  LocalTime off (setDate off t (getDate off t + k))
  = MakeDate (Day (LocalTime off t) + k) (TimeWithinDay (LocalTime off t)).
Proof.
  unfold setDate, getDate.
  destruct (civil_from_days (Day (LocalTime off t))) as [[y m] d] eqn:Hc.
  rewrite LocalTime_UTC.
  rewrite (MakeDay_of_days _ _ _ _ _ Hc). f_equal. lia.
Qed.

Lemma Day_setDate_days off t k :
  Day (LocalTime off (setDate off t (getDate off t + k))) = Day (LocalTime off t) + k.
Proof. rewrite setDate_days. apply Day_MakeDate, TimeWithinDay_bounds. Qed.

(** [new Date(d.getFullYear(), d.getMonth(), d.getDate())] is the local
    midnight that opens the day of [d], from the year 100 on. *)
Lemma Date_of_fields_local off t :
  100 ≤ CalendarPanel.getFullYear off t →
  CalendarPanel.Date_of_fields off (CalendarPanel.getFullYear off t) (getMonth off t)
    (getDate off t)
  = UTC off (MakeDate (Day (LocalTime off t)) 0).
Proof.
  unfold CalendarPanel.Date_of_fields, CalendarPanel.getFullYear, getMonth, getDate.
  destruct (civil_from_days (Day (LocalTime off t))) as [[y m] d] eqn:Hc.
  intros Hy.
  replace ((0 <=? y) && (y <=? 99)) with false
    by (symmetry; apply andb_false_iff; right; apply Z.leb_gt; lia).
  rewrite (MakeDay_of_days _ _ _ _ d Hc). do 2 f_equal. lia.
Qed.

End CalendarMore.

Section TextMore.
Import JsDate.

Ltac opt_next :=
  cbn [mbind option_bind expect]; rewrite ?Ascii.eqb_refl; cbn [mbind option_bind].

Lemma take_digits_fmt_3 n rest :
  0 ≤ n ≤ 999 → take_digits 3 0 (fmt_digits 3 n +:+ rest) = Some (n, rest).
Proof.
  intros. rewrite take_digits_fmt. do 2 f_equal.
  change (10 ^ Z.of_nat 3) with 1000. rewrite Z.mod_small; lia.
Qed.

(** [new Date(d.toISOString())] is [d], for the years 0 to 9999. *)
Lemma parse_toISOString off t :
  -62167219200000 ≤ t ≤ 253402300799999 → parse off (toISOString t) = Some t.
Proof.
  intros Ht. unfold toISOString, isoDate.
  destruct (civil_from_days (Day t)) as [[y m] d] eqn:Hc.
  assert (Hday : -719528 ≤ Day t ≤ 2932896) by (unfold Day, msPerDay; zdiv).
  pose proof (civil_from_days_year _ _ _ _ Hc Hday) as Hy.
  destruct (civil_from_days_range _ _ _ _ Hc) as [Hm _].
  pose proof (civil_from_days_valid _ _ _ _ Hc) as Hd.
  pose proof (days_in_month_le y m) as Hle.
  pose proof (TimeWithinDay_bounds t) as Htod.
  assert (Ht' : t = MakeDate (Day t) (TimeWithinDay t))
    by (unfold MakeDate, Day, TimeWithinDay, msPerDay; zdiv).
  set (tod := TimeWithinDay t) in *. unfold msPerDay in Htod.
  unfold parse, fmt_date, fmt_year, isoTime, msPerHour, msPerMinute, msPerSecond.
  replace ((0 <=? y) && (y <=? 9999)) with true
    by (symmetry; apply andb_true_iff; split; apply Z.leb_le; lia).
  rewrite !append_assoc, !append_cons, !append_nil_l.
  rewrite take_digits_fmt_4 by lia. opt_next.
  rewrite take_digits_fmt_2 by lia. opt_next.
  rewrite take_digits_fmt_2 by lia. opt_next.
  replace ((1 <=? m) && (m <=? 12) && (1 <=? d) && (d <=? 31)) with true
    by (symmetry; repeat (apply andb_true_iff; split); apply Z.leb_le; lia).
  cbn [negb].
  rewrite take_digits_fmt_2 by zdiv. opt_next.
  rewrite take_digits_fmt_2 by zdiv. opt_next.
  unfold take_seconds.
  rewrite take_digits_fmt_2 by zdiv. opt_next.
  rewrite take_digits_fmt_3 by zdiv. opt_next.
  cbn [take_zone].
  replace ((tod / 3600000 <=? 23) && (tod / 60000 mod 60 <=? 59)
           && (tod / 1000 mod 60 <=? 59)) with true
    by (symmetry; repeat (apply andb_true_iff; split); apply Z.leb_le; zdiv).
  cbn [negb orb mbind option_bind]. f_equal.
  rewrite (MakeDay_of_days _ _ _ _ d Hc).
  clearbody tod. revert Ht'. generalize (Day t). intros day ->.
  unfold MakeDate, MakeTime, msPerDay, msPerHour, msPerMinute, msPerSecond.
  zdiv.
Qed.

(** The text of [toISOString] is not empty. *)
Lemma toISOString_truthy t : truthy (Some (toISOString t)) = true.
Proof.
  unfold toISOString, truthy.
  destruct (isoDate (Day t)); [rewrite append_nil_l|rewrite append_cons]; reflexivity.
Qed.

End TextMore.

Opaque JsDate.toISOString JsDate.isoDate JsDate.split_head JsDate.parse
  JsDate.setDate JsDate.getDate JsDate.setMonth JsDate.getMonth
  JsDate.days_from_civil JsDate.civil_from_days.

(* ===================================================================== *)
(** ** The token service: what a call leaves behind *)


(** X1: [syncEvent] never throws; whatever the provider answers, it leaves the
    document store and the notices as they were and sends at most one
    request. *)
Theorem syncEvent_never_throws (h : Host) (event : MyEvent) (w : World) :
  (∃ r, (GoogleCalendarService.syncEvent h event w).1 = inr r) ∧
  events (GoogleCalendarService.syncEvent h event w).2 = events w ∧
  notes (GoogleCalendarService.syncEvent h event w).2 = notes w ∧
  toasts (GoogleCalendarService.syncEvent h event w).2 = toasts w ∧
  (length (requests_of (GoogleCalendarService.syncEvent h event) w) ≤ 1)%nat.
Proof.
  destruct (syncEvent_cases h event w) as (r & [Hrun|(req & Hrun)]).
  - rewrite (requests_of_after _ w []) by (rewrite Hrun, app_nil_r; reflexivity).
    rewrite Hrun. cbn. eauto 10 with lia.
  - rewrite (requests_of_after _ w (if authenticated w then [req] else []))
      by (rewrite Hrun; apply sent_after_makeRequest).
    rewrite Hrun. cbn [fst snd].
    destruct (store_after_makeRequest req w) as [He Hn].
    destruct (after_makeRequest_rest req w) as (Ht & _).
    repeat split; eauto. destruct (authenticated w); cbn; lia.
Qed.

(** X2: An answer 401 removes the stored token: the call returns null, and
    every later call returns null without sending anything, whatever the
    item. *)
Theorem expired_token_stops_sync (h : Host) (event : MyEvent) (googleEvent : GoogleEvent)
    (body : option Json) (rs : list Reply) (w : World) :
  authenticated w = true →
  remote w = Http 401 body :: rs →
  GoogleCalendarService.convertToGoogleEvent h event = Some googleEvent →
  (GoogleCalendarService.syncEvent h event w).1 = inr None ∧
  google_access_token (GoogleCalendarService.syncEvent h event w).2 = None ∧
  ∀ h' event',
    GoogleCalendarService.syncEvent h' event' (GoogleCalendarService.syncEvent h event w).2
    = (inr None, (GoogleCalendarService.syncEvent h event w).2).
Proof.
  intros Hauth Hremote Hconv.
  assert (Hrun : ∃ req, GoogleCalendarService.syncEvent h event w
                        = (inr None, set_token None (consume req w))).
  { destruct (truthy (res_googleEventId event)) eqn:Hg.
    - destruct (truthy_true_inv _ Hg) as (g & Hsome & Hne).
      rewrite (syncEvent_linked h event g w Hsome Hne), Hconv.
      exists (PATCH g googleEvent).
      unfold after_makeRequest, next_json. rewrite Hauth, Hremote. by destruct body.
    - rewrite (syncEvent_unlinked h event w Hg), Hconv.
      exists (POST googleEvent).
      unfold after_makeRequest, next_json. rewrite Hauth, Hremote. by destruct body. }
  destruct Hrun as (req & ->). cbn [fst snd].
  split; [reflexivity|]. split; [reflexivity|].
  intros h' event'.
  set (w1 := set_token None (consume req w)).
  assert (Hno : authenticated w1 = false)
    by (unfold authenticated, w1; cbn; apply andb_false_r).
  destruct (truthy (res_googleEventId event')) eqn:Hg.
  - destruct (truthy_true_inv _ Hg) as (g & Hsome & Hne).
    rewrite (syncEvent_linked h' event' g w1 Hsome Hne).
    destruct (GoogleCalendarService.convertToGoogleEvent h' event'); [|reflexivity].
    by rewrite after_makeRequest_unauthenticated, Hno.
  - rewrite (syncEvent_unlinked h' event' w1 Hg).
    destruct (GoogleCalendarService.convertToGoogleEvent h' event'); [|reflexivity].
    by rewrite after_makeRequest_unauthenticated, Hno.
Qed.

(** X3: Any other outcome of a request, a failure included, leaves the stored
    token in place. *)
Theorem token_kept_unless_401 (h : Host) (event : MyEvent) (w : World) :
  (∀ body rs, remote w ≠ Http 401 body :: rs) →
  google_access_token (GoogleCalendarService.syncEvent h event w).2
  = google_access_token w ∧
  ∀ googleEventId,
    google_access_token (GoogleCalendarService.deleteEvent googleEventId w).2
    = google_access_token w.
Proof.
  intros Hno. split.
  - destruct (syncEvent_cases h event w) as (r & [->|(req & ->)]); [reflexivity|].
    by apply after_makeRequest_token.
  - intros g. unfold GoogleCalendarService.deleteEvent. rewrite bind_eq.
    destruct (makeRequest_run (DELETE g) w) as (r & -> & _).
    destruct r; by apply after_makeRequest_token.
Qed.

(** X4: [updateEvent] on an item without identifier throws before anything is
    sent. *)
Theorem updateEvent_requires_identifier (h : Host) (event : MyEvent) (w : World) :
  truthy (res_googleEventId event) = false →
  GoogleCalendarService.updateEvent h event w
  = (inl (Error "No Google Event ID found to update"), w).
Proof.
  intros Hg. unfold GoogleCalendarService.updateEvent.
  destruct (res_googleEventId event) as [g|]; [|reflexivity].
  cbn [truthy] in Hg. apply negb_false_iff in Hg. by rewrite Hg.
Qed.

(** X5: An item with an invalid boundary is never sent: [syncEvent] returns
    null and the world is as before. *)
Theorem invalid_date_is_not_sent (h : Host) (event : MyEvent) (w : World) :
  start event = None ∨ end_ event = None →
  GoogleCalendarService.syncEvent h event w = (inr None, w).
Proof.
  intros Hinv.
  assert (Hconv : GoogleCalendarService.convertToGoogleEvent h event = None).
  { unfold GoogleCalendarService.convertToGoogleEvent.
    destruct Hinv as [Hs|He].
    - rewrite Hs. by destruct (truthy_bool (allDay event)).
    - rewrite He. destruct (truthy_bool (allDay event)); by destruct (start event). }
  destruct (truthy (res_googleEventId event)) eqn:Hg.
  - destruct (truthy_true_inv _ Hg) as (g & Hsome & Hne).
    by rewrite (syncEvent_linked h event g w Hsome Hne), Hconv.
  - by rewrite (syncEvent_unlinked h event w Hg), Hconv.
Qed.

(* ===================================================================== *)
(** ** The two directions of the translation *)

Section RoundTrip.

Lemma convertFromGoogleEvent_timed h gid googleEvent s e :
  g_start googleEvent
  = {| dateTime := Some (JsDate.toISOString s);
       timeZone := Some (hostTimeZone h); date := None |} →
  g_end googleEvent
  = {| dateTime := Some (JsDate.toISOString e);
       timeZone := Some (hostTimeZone h); date := None |} →
  min_four_digit_year ≤ s ≤ max_four_digit_year →
  min_four_digit_year ≤ e ≤ max_four_digit_year →
  start (convertFromGoogleEvent h (listed_as gid googleEvent)) = Some s ∧
  end_ (convertFromGoogleEvent h (listed_as gid googleEvent)) = Some e ∧
  allDay (convertFromGoogleEvent h (listed_as gid googleEvent)) = Some false.
Proof.
  intros Hs He Hsr Her.
  unfold convertFromGoogleEvent, listed_as.
  cbn [item_start item_end start end_ allDay]. rewrite Hs, He.
  cbn [dateTime date]. rewrite !toISOString_truthy.
  cbn [default from_option Datatypes.id negb].
  rewrite !parse_toISOString by assumption. done.
Qed.

End RoundTrip.

(** X6: A timed item whose boundaries lie in the years 0 to 9999, translated
    for the provider and materialised from what the provider then lists,
    has the boundaries it had, is timed, and carries the content; this
    holds for the converter of the batch services and for the converter of
    the token service. *)
Theorem timed_round_trip (h : Host) (event : MyEvent) (s e : Z) (gid : string) :
  truthy_bool (allDay event) = false →
  start event = Some s → end_ event = Some e →
  min_four_digit_year ≤ s ≤ max_four_digit_year →
  min_four_digit_year ≤ e ≤ max_four_digit_year →
  (∃ googleEvent,
     GapiService.convertToGoogleEvent h event = Some googleEvent ∧
     start (convertFromGoogleEvent h (listed_as gid googleEvent)) = Some s ∧
     end_ (convertFromGoogleEvent h (listed_as gid googleEvent)) = Some e ∧
     allDay (convertFromGoogleEvent h (listed_as gid googleEvent)) = Some false ∧
     res_content (convertFromGoogleEvent h (listed_as gid googleEvent))
     = Some (or_else (res_content event) "")) ∧
  (∃ googleEvent,
     GoogleCalendarService.convertToGoogleEvent h event = Some googleEvent ∧
     start (convertFromGoogleEvent h (listed_as gid googleEvent)) = Some s ∧
     end_ (convertFromGoogleEvent h (listed_as gid googleEvent)) = Some e ∧
     allDay (convertFromGoogleEvent h (listed_as gid googleEvent)) = Some false ∧
     res_content (convertFromGoogleEvent h (listed_as gid googleEvent))
     = Some (or_else (res_content event) "")).
Proof.
  intros Hall Hs He Hsr Her.
  assert (Hcontent : ∀ c, or_else (Some (or_else c "")) "" = or_else c "").
  { intros [c|]; [|reflexivity]. cbn. destruct (String.eqb c "") eqn:E; cbn; by rewrite ?E. }
  split.
  - unfold GapiService.convertToGoogleEvent, convertToGoogleEvent_batch.
    rewrite Hs, He, Hall. cbn [mbind option_bind].
    eexists. split; [reflexivity|].
    edestruct (convertFromGoogleEvent_timed h gid) as (H1 & H2 & H3);
      [..|split; [exact H1|split; [exact H2|split; [exact H3|]]]];
      [reflexivity|reflexivity|exact Hsr|exact Her|].
    unfold convertFromGoogleEvent, listed_as, res_content.
    cbn [resource mbind option_bind content item_description description].
    by rewrite Hcontent.
  - unfold GoogleCalendarService.convertToGoogleEvent.
    rewrite Hs, He, Hall. cbn [mbind option_bind].
    eexists. split; [reflexivity|].
    edestruct (convertFromGoogleEvent_timed h gid) as (H1 & H2 & H3);
      [..|split; [exact H1|split; [exact H2|split; [exact H3|]]]];
      [reflexivity|reflexivity|exact Hsr|exact Her|].
    unfold convertFromGoogleEvent, listed_as, res_content.
    cbn [resource mbind option_bind content item_description description].
    by rewrite Hcontent.
Qed.

(* ===================================================================== *)
(** ** The merge of the batch services *)

Section MergeMore.

Lemma merge_google_events_prefix googleEvents syncedEvents x :
  x ∈ syncedEvents → x ∈ merge_google_events googleEvents syncedEvents.
Proof.
  intros Hx.
  destruct (merge_google_events_appends googleEvents syncedEvents) as (app & -> & _).
  apply elem_of_app. by left.
Qed.

Lemma existsb_strict_eq l g :
  existsb (λ local, strict_eq (res_googleEventId local) (res_googleEventId g)) l = true
  ↔ ∃ x, x ∈ l ∧ res_googleEventId x = res_googleEventId g.
Proof.
  rewrite existsb_exists. split.
  - intros (x & Hin & Heq). exists x. split; [by apply list_elem_of_In|].
    by apply strict_eq_true.
  - intros (x & Hin & Heq). exists x. split; [by apply list_elem_of_In|].
    by apply strict_eq_true.
Qed.

Lemma merge_google_events_absorbs googleEvents : ∀ syncedEvents,
  (∀ g, g ∈ googleEvents →
        ∃ x, x ∈ syncedEvents ∧ res_googleEventId x = res_googleEventId g) →
  merge_google_events googleEvents syncedEvents = syncedEvents.
Proof.
  induction googleEvents as [|g rest IH]; intros acc Hall; [reflexivity|].
  cbn [merge_google_events].
  replace (existsb _ acc) with true
    by (symmetry; apply existsb_strict_eq, Hall; left).
  cbn [negb]. apply IH. intros g' Hg'. apply Hall. by right.
Qed.

Lemma merge_google_events_represents googleEvents : ∀ syncedEvents g,
  g ∈ googleEvents →
  ∃ x, x ∈ merge_google_events googleEvents syncedEvents ∧
       res_googleEventId x = res_googleEventId g.
Proof.
  induction googleEvents as [|g0 rest IH]; intros acc g Hg; [by apply elem_of_nil in Hg|].
  cbn [merge_google_events].
  apply elem_of_cons in Hg as [->|Hg].
  - destruct (existsb _ acc) eqn:Hex; cbn [negb].
    + apply existsb_strict_eq in Hex as (x & Hx & Heq).
      exists x. split; [by apply merge_google_events_prefix|exact Heq].
    + exists g0. split; [|reflexivity].
      apply merge_google_events_prefix, elem_of_app. right. by left.
  - destruct (negb _); by apply IH.
Qed.

End MergeMore.

(** X7: The merge loses no fetched event: each one is in the merged list, or an
    entry of the merged list carries its identifier. *)
Theorem merge_represents_every_fetched_event
    (googleEvents syncedEvents : list MyEvent) (g : MyEvent) :
  g ∈ googleEvents →
  ∃ x, x ∈ merge_google_events googleEvents syncedEvents ∧
       res_googleEventId x = res_googleEventId g.
Proof. apply merge_google_events_represents. Qed.

(** X8: Merging the same fetched events a second time adds nothing. *)
Theorem merge_google_events_idempotent (googleEvents syncedEvents : list MyEvent) :
  merge_google_events googleEvents (merge_google_events googleEvents syncedEvents)
  = merge_google_events googleEvents syncedEvents.
Proof.
  apply merge_google_events_absorbs. intros g Hg.
  by apply merge_google_events_represents.
Qed.

(* ===================================================================== *)
(** ** The batch services: what a run sends *)


(** X9: A run of the gapi batch whose listing succeeds sends the listing
    request and then, in the order of the list, one request for each local
    item that is no note and has valid dates: an update addressed by the
    identifier of the item, or a create when it has none. What the provider
    answers to these requests does not change what is sent. *)
Theorem gapi_syncEvents_requests (h : Host) (localEvents : list MyEvent) (w : World)
    (status : Z) (j : Json) (items : list GoogleItem) (rs : list Reply) :
  isSignedIn w = true → remote w = Http status (Some j) :: rs →
  response_ok status = true → json_items j = Some items →
  requests_of (GapiService.syncEvents h localEvents) w
  = GET (JsDate.toISOString (sync_window h (now w)).1)
        (JsDate.toISOString (sync_window h (now w)).2)
    :: flat_map (gapi_requests_for h) localEvents.
Proof.
  intros Hs Hr Hok Hit. apply requests_of_after.
  rewrite (gapi_syncEvents_run h localEvents w status j items rs Hs Hr Hok Hit).
  cbn [snd]. rewrite gapi_push_all_sent by exact Hs.
  unfold consume. cbn [sent set_remote]. by rewrite <- app_assoc.
Qed.

(** X10: Signed out, every operation of the gapi service throws and leaves the
    world as it was: nothing is sent. *)
Theorem gapi_signed_out_sends_nothing (h : Host) (w : World) :
  isSignedIn w = false →
  (∀ event, GapiService.createEvent h event w = (inl (Error "Not authenticated"), w)) ∧
  (∀ eventId event,
     GapiService.updateEvent h eventId event w = (inl (Error "Not authenticated"), w)) ∧
  (∀ eventId, GapiService.deleteEvent eventId w = (inl (Error "Not authenticated"), w)) ∧
  (∀ a b, GapiService.getEvents h a b w = (inl (Error "Not authenticated"), w)) ∧
  (∀ localEvents,
     GapiService.syncEvents h localEvents w = (inl (Error "Not authenticated"), w)).
Proof.
  intros Hs.
  repeat split; intros;
    unfold GapiService.createEvent, GapiService.updateEvent, GapiService.deleteEvent,
      GapiService.getEvents, GapiService.syncEvents, GapiService.guard_signed_in,
      bind, throw; by rewrite Hs.
Qed.

Section ListingFails.

Lemma gapi_getEvents_fails h a b w :
  isSignedIn w = true → next_fails w = true →
  ∃ exn, GapiService.getEvents h a b w
         = (inl exn, consume (GET (JsDate.toISOString a) (JsDate.toISOString b)) w).
Proof.
  intros Hs Hf. unfold next_fails in Hf.
  unfold GapiService.getEvents, GapiService.guard_signed_in, GapiService.gapi_request,
    bind, fetch, ret, throw, consume.
  rewrite Hs.
  destruct (remote w) as [|[|status body] rs]; cbn [fst snd tail]; eauto.
  apply negb_true_iff in Hf. rewrite Hf. eauto.
Qed.

Lemma working_getEvents_fails h a b w :
  truthy (accessToken w) = true → next_fails w = true →
  ∃ exn, WorkingService.getEvents h a b w
         = (inl exn, consume (GET (JsDate.toISOString a) (JsDate.toISOString b)) w).
Proof.
  intros Ht Hf. unfold next_fails in Hf.
  unfold WorkingService.getEvents, WorkingService.makeRequest, bind, fetch, ret, throw,
    consume.
  rewrite Ht.
  destruct (remote w) as [|[|status body] rs]; cbn [fst snd tail]; eauto.
  rewrite Hf. eauto.
Qed.

End ListingFails.

(** X11: When the listing fails, a batch throws after the one listing request:
    no local item is pushed. *)
Theorem batch_aborts_when_listing_fails (h : Host) (localEvents : list MyEvent)
    (w : World) :
  next_fails w = true →
  (isSignedIn w = true →
   (∃ exn, (GapiService.syncEvents h localEvents w).1 = inl exn) ∧
   requests_of (GapiService.syncEvents h localEvents) w
   = [GET (JsDate.toISOString (sync_window h (now w)).1)
          (JsDate.toISOString (sync_window h (now w)).2)]) ∧
  (truthy (accessToken w) = true →
   (∃ exn, (WorkingService.syncEvents h localEvents w).1 = inl exn) ∧
   requests_of (WorkingService.syncEvents h localEvents) w
   = [GET (JsDate.toISOString (sync_window h (now w)).1)
          (JsDate.toISOString (sync_window h (now w)).2)]).
Proof.
  intros Hf. split.
  - intros Hs.
    destruct (gapi_getEvents_fails h (sync_window h (now w)).1 (sync_window h (now w)).2
                w Hs Hf) as (exn & Hrun).
    assert (Hall : GapiService.syncEvents h localEvents w
                   = (inl exn, consume (GET (JsDate.toISOString (sync_window h (now w)).1)
                                            (JsDate.toISOString (sync_window h (now w)).2)) w)).
    { unfold GapiService.syncEvents, bind, ret.
      unfold GapiService.guard_signed_in at 1. rewrite Hs. unfold ret.
      by rewrite Hrun. }
    split; [rewrite Hall; eauto|].
    apply requests_of_after. by rewrite Hall.
  - intros Ht.
    destruct (working_getEvents_fails h (sync_window h (now w)).1 (sync_window h (now w)).2
                w Ht Hf) as (exn & Hrun).
    assert (Hall : WorkingService.syncEvents h localEvents w
                   = (inl exn, consume (GET (JsDate.toISOString (sync_window h (now w)).1)
                                            (JsDate.toISOString (sync_window h (now w)).2)) w)).
    { unfold WorkingService.syncEvents, bind, ret. by rewrite Hrun. }
    split; [rewrite Hall; eauto|].
    apply requests_of_after. by rewrite Hall.
Qed.

(** X12: The working service does not look at [isNote]: a note without
    identifier is pushed with a create like any other item. *)
Theorem working_service_pushes_notes (h : Host) (note : MyEvent)
    (googleEvent : GoogleEvent) (w : World) :
  truthy_bool (res_isNote note) = true →
  truthy (res_googleEventId note) = false →
  WorkingService.convertToGoogleEvent h note = Some googleEvent →
  truthy (accessToken w) = true →
  requests_of (WorkingService.sync_local h note) w = [POST googleEvent].
Proof.
  intros _ Hg Hconv Ht. apply requests_of_after.
  rewrite (working_sync_local_unlinked h note w Hg). cbn [snd].
  by rewrite working_createEvent_sent, Hconv, Ht.
Qed.

Section FirebaseMore.
Import FirebaseService.

Lemma firebase_makeRequest_throws p req w :
  ∃ msg, makeRequest p req w = (inl (Error msg), w).
Proof.
  unfold makeRequest, getAccessToken, bind, throw.
  destruct (currentUser w); cbn [negb]; [|eauto].
  destruct p; cbn [negb]; eauto.
Qed.

End FirebaseMore.

(** X13: No operation of the service on the Firebase sign-in ever reaches the
    provider: the token lookup always throws, so creating an event, listing
    and the batch all throw and leave the world as it was. *)
Theorem firebase_service_always_throws (hasGoogleProvider : bool) (h : Host) (w : World) :
  (∀ event, ∃ msg,
     FirebaseService.createEvent hasGoogleProvider h event w = (inl (Error msg), w)) ∧
  (∀ a b, ∃ msg,
     FirebaseService.getEvents hasGoogleProvider h a b w = (inl (Error msg), w)) ∧
  (∀ localEvents, ∃ msg,
     FirebaseService.syncEvents hasGoogleProvider h localEvents w = (inl (Error msg), w)).
Proof.
  split; [|split].
  - intros event. unfold FirebaseService.createEvent.
    destruct (FirebaseService.convertToGoogleEvent h event) as [googleEvent|].
    + rewrite bind_eq.
      destruct (firebase_makeRequest_throws hasGoogleProvider (POST googleEvent) w)
        as (msg & ->). eauto.
    + unfold throw. eauto.
  - intros a b. unfold FirebaseService.getEvents. rewrite bind_eq.
    destruct (firebase_makeRequest_throws hasGoogleProvider
                (GET (JsDate.toISOString a) (JsDate.toISOString b)) w) as (msg & ->).
    eauto.
  - intros localEvents.
    unfold FirebaseService.syncEvents, FirebaseService.getEvents, try_catch.
    rewrite bind_eq. unfold ret at 1. rewrite bind_eq, bind_eq.
    destruct (firebase_makeRequest_throws hasGoogleProvider
                (GET (JsDate.toISOString (sync_window h (now w)).1)
                     (JsDate.toISOString (sync_window h (now w)).2)) w) as (msg & ->).
    unfold throw. eauto.
Qed.

(* ===================================================================== *)
(** ** The service with the connection check *)

Section CheckedMore.
Import CheckedCalendarService.

Lemma ensureValidToken_no_credentials w :
  truthy (googleAccessToken w) = false → truthy (googleRefreshToken w) = false →
  currentUser w = false →
  ensureValidToken w = (inr false, w).
Proof.
  intros Ht Hr Hu. unfold ensureValidToken, try_catch.
  rewrite Ht, Hr. cbn [negb andb].
  unfold requestNewTokens, try_catch, ret. by rewrite Hu.
Qed.

Lemma ensureValidToken_accepted w status body rs :
  truthy (googleAccessToken w) = true →
  remote w = Http status body :: rs → response_ok status = true →
  ensureValidToken w = (inr true, consume GET_primary w).
Proof.
  intros Ht Hr Hok. unfold ensureValidToken, try_catch, bind, fetch, ret, consume.
  rewrite Ht. cbn [negb andb]. rewrite !Hr. cbn [fst snd tail]. by rewrite Hok.
Qed.

Lemma checked_makeRequest_with_token req w :
  truthy (googleAccessToken w) = true →
  sent (makeRequest req w).2 = sent w ++ [req].
Proof.
  intros Ht. unfold makeRequest, getAccessToken, bind, fetch, ret, throw, response_json.
  rewrite Ht.
  destruct (remote w) as [|[|status body] rs]; cbn [fst snd]; try reflexivity.
  destruct (response_ok status); cbn [negb fst snd];
    [by destruct body|by destruct (status =? 401)].
Qed.

End CheckedMore.

(** X14: Without any stored token and without a signed-in user the checked
    service throws and leaves the world as it was; its [syncEvent] does not
    return null then. *)
Theorem checked_service_not_connected (h : Host) (w : World) :
  truthy (googleAccessToken w) = false → truthy (googleRefreshToken w) = false →
  currentUser w = false →
  (∀ event, CheckedCalendarService.syncEvent h event w
            = (inl (Error "Google Calendar not connected"), w)) ∧
  (∀ event, CheckedCalendarService.updateEvent h event w
            = (inl (Error "Google Calendar not connected"), w)) ∧
  (∀ googleEventId, CheckedCalendarService.deleteEvent googleEventId w
                    = (inl (Error "Google Calendar not connected"), w)).
Proof.
  intros Ht Hr Hu.
  pose proof (ensureValidToken_no_credentials w Ht Hr Hu) as Hcheck.
  repeat split; intros;
    unfold CheckedCalendarService.syncEvent, CheckedCalendarService.updateEvent,
      CheckedCalendarService.deleteEvent; by rewrite bind_eq, Hcheck.
Qed.

(** X15: With a token the provider accepts, the connection check is one test
    request, and a sync of an item without identifier is that test followed
    by the create. *)
Theorem checked_sync_tests_then_creates (h : Host) (event : MyEvent)
    (googleEvent : GoogleEvent) (w : World) (status : Z) (body : option Json)
    (rs : list Reply) :
  truthy (googleAccessToken w) = true →
  remote w = Http status body :: rs → response_ok status = true →
  truthy (res_googleEventId event) = false →
  CheckedCalendarService.convertToGoogleEvent h event = Some googleEvent →
  CheckedCalendarService.ensureValidToken w = (inr true, consume GET_primary w) ∧
  requests_of (CheckedCalendarService.syncEvent h event) w
  = [GET_primary; POST googleEvent].
Proof.
  intros Ht Hr Hok Hg Hconv.
  pose proof (ensureValidToken_accepted w status body rs Ht Hr Hok) as Hcheck.
  split; [exact Hcheck|].
  apply requests_of_after.
  unfold CheckedCalendarService.syncEvent. rewrite bind_eq, Hcheck. cbn [negb].
  unfold try_catch, CheckedCalendarService.createEvent. rewrite Hg, Hconv. cbn [negb].
  rewrite bind_eq, bind_eq.
  pose proof (checked_makeRequest_with_token (POST googleEvent) (consume GET_primary w) Ht)
    as Hsent.
  destruct (CheckedCalendarService.makeRequest (POST googleEvent) (consume GET_primary w))
    as [[exn|j] w1]; cbn [fst snd] in *; unfold ret; cbn [fst snd];
    rewrite Hsent; unfold consume; cbn [sent set_remote]; by rewrite <- app_assoc.
Qed.

(** X16: A refresh that the token endpoint refuses removes both stored tokens;
    without a signed-in user no popup is opened and the result is false. *)
Theorem refresh_failure_clears_tokens (refreshToken : string) (w : World) :
  next_fails w = true → currentUser w = false →
  (CheckedCalendarService.refreshAccessToken refreshToken w).1 = inr false ∧
  googleAccessToken (CheckedCalendarService.refreshAccessToken refreshToken w).2 = None ∧
  googleRefreshToken (CheckedCalendarService.refreshAccessToken refreshToken w).2 = None ∧
  popups (CheckedCalendarService.refreshAccessToken refreshToken w).2 = popups w ∧
  requests_of (CheckedCalendarService.refreshAccessToken refreshToken) w
  = [POST_oauth_token refreshToken].
Proof.
  intros Hf Hu. unfold next_fails in Hf.
  unfold requests_of, CheckedCalendarService.refreshAccessToken,
    CheckedCalendarService.requestNewTokens, try_catch, bind, fetch, ret, throw.
  destruct (remote w) as [|[|status body] rs]; cbn [fst snd negb];
    try (cbn; rewrite Hu; cbn; repeat split; apply drop_app_length).
  apply negb_true_iff in Hf. rewrite Hf.
  cbn; rewrite Hu; cbn; repeat split; apply drop_app_length.
Qed.

(* ===================================================================== *)
(** ** The dashboard: notices, failures and the snapshot listeners *)

Section DashboardMore.
Import Dashboard.

Lemma syncEvent_returns h event w :
  ∃ r w', GoogleCalendarService.syncEvent h event w = (inr r, w') ∧
          toasts w' = toasts w ∧ events w' = events w ∧ notes w' = notes w.
Proof.
  destruct (syncEvent_cases h event w) as (r & [Hrun|(req & Hrun)]).
  - by exists r, w.
  - exists r, (after_makeRequest req w). split; [exact Hrun|].
    destruct (store_after_makeRequest req w) as [He Hn].
    by destruct (after_makeRequest_rest req w) as (Ht & _).
Qed.

Lemma for_of_syncEvent h l : ∀ w,
  ∃ w', for_of l (λ event, GoogleCalendarService.syncEvent h event ;;; ret tt) w
        = (inr tt, w') ∧
        toasts w' = toasts w ∧ events w' = events w ∧ notes w' = notes w.
Proof.
  induction l as [|e l IH]; intros w; cbn [for_of].
  - by exists w.
  - rewrite bind_eq, bind_eq.
    destruct (syncEvent_returns h e w) as (r & w1 & -> & Ht & He & Hn).
    unfold ret at 1.
    destruct (IH w1) as (w2 & -> & Ht2 & He2 & Hn2).
    exists w2. split; [reflexivity|]. by rewrite Ht2, He2, Hn2.
Qed.

Lemma handleSyncCalendar_run h evs w :
  ∃ w', handleSyncCalendar h evs w
        = (inr tt, add_toast (toast_success "Calendar synced successfully") w') ∧
        toasts w' = toasts w ∧ events w' = events w ∧ notes w' = notes w.
Proof.
  unfold handleSyncCalendar, try_catch. rewrite bind_eq.
  destruct (for_of_syncEvent h (filter (λ e, negb (truthy_bool (res_isNote e))) evs) w)
    as (w' & -> & Ht & He & Hn).
  by exists w'.
Qed.

End DashboardMore.

(** X17: The dashboard's sync always ends with the success notice and never
    with the failure notice: [syncEvent] swallows every failure, so the
    handler reports success whatever the provider answered. The document
    store is not written. *)
Theorem handleSyncCalendar_always_reports_success (h : Host) (evs : list MyEvent)
    (w : World) :
  (Dashboard.handleSyncCalendar h evs w).1 = inr tt ∧
  toasts (Dashboard.handleSyncCalendar h evs w).2
  = toasts w ++ [toast_success "Calendar synced successfully"] ∧
  events (Dashboard.handleSyncCalendar h evs w).2 = events w ∧
  notes (Dashboard.handleSyncCalendar h evs w).2 = notes w.
Proof.
  destruct (handleSyncCalendar_run h evs w) as (w' & -> & Ht & He & Hn).
  cbn [fst snd toasts events notes add_toast]. by rewrite Ht, He, Hn.
Qed.

(** X18: When the store refuses the delete, the handler shows the failure notice
    and does nothing else: the provider is not contacted. *)
Theorem handleEventDelete_store_failure (evs : list MyEvent) (eventId : string)
    (isNote : bool) (w : World) :
  store_available w = false →
  Dashboard.handleEventDelete evs eventId isNote w
  = (inr tt, add_toast (toast_error "Failed to delete event") w).
Proof.
  intros Hs. unfold Dashboard.handleEventDelete, try_catch, bind, deleteDoc, toast.
  by rewrite Hs.
Qed.

(** X19: Deleting an event that the dashboard's list does not hold, or holds
    without identifier, removes the document and sends nothing: a remote
    copy, if there is one, stays. *)
Theorem handleEventDelete_unlinked (evs : list MyEvent) (eventId : string) (w : World) :
  truthy (e ← find (λ e, bool_decide (id e = Some eventId)) evs; res_googleEventId e)
  = false →
  store_available w = true →
  Dashboard.handleEventDelete evs eventId false w
  = (inr tt,
     add_toast (toast_success "Event deleted successfully")
       (set_collection events_collection (delete eventId (events w)) (fresh_ids w) w)) ∧
  requests_of (Dashboard.handleEventDelete evs eventId false) w = [].
Proof.
  intros Hg Hs.
  assert (Hrun : Dashboard.handleEventDelete evs eventId false w
                 = (inr tt,
                    add_toast (toast_success "Event deleted successfully")
                      (set_collection events_collection (delete eventId (events w))
                         (fresh_ids w) w))).
  { unfold Dashboard.handleEventDelete, try_catch. rewrite bind_eq.
    unfold Dashboard.collectionName. rewrite (deleteDoc_run _ _ _ Hs).
    rewrite Hg. cbn [negb andb]. reflexivity. }
  split; [exact Hrun|].
  apply requests_of_after. rewrite Hrun. cbn. by rewrite app_nil_r.
Qed.

Section FeedMore.
Import DashboardFeed.

Lemma filter_all {A} (P : A → Prop) `{∀ x, Decision (P x)} (l : list A) :
  Forall P l → filter P l = l.
Proof.
  induction 1 as [|x l Hx Hl IH]; [reflexivity|].
  by rewrite filter_cons_True, IH.
Qed.

Lemma filter_none {A} (P : A → Prop) `{∀ x, Decision (P x)} (l : list A) :
  Forall (λ x, ¬ P x) l → filter P l = [].
Proof.
  induction 1 as [|x l Hx Hl IH]; [reflexivity|].
  by rewrite filter_cons_False.
Qed.

Lemma eventsList_no_note docs :
  Forall (λ e, truthy_bool (res_isNote e) = false) (eventsList docs).
Proof.
  apply Forall_forall. intros e He.
  apply list_elem_of_In, in_map_iff in He as (doc & <- & _). reflexivity.
Qed.

Lemma notesList_all_notes docs :
  Forall (λ e, truthy_bool (res_isNote e) = true) (notesList docs).
Proof.
  apply Forall_forall. intros e He.
  apply list_elem_of_In, in_map_iff in He as (doc & <- & _). reflexivity.
Qed.

Lemma filter_notes_eventsList docs :
  filter (λ e, truthy_bool (res_isNote e)) (eventsList docs) = [].
Proof.
  apply filter_none. eapply Forall_impl; [apply eventsList_no_note|].
  intros e He. cbn beta in *. rewrite He. cbn. tauto.
Qed.

Lemma filter_events_eventsList docs :
  filter (λ e, negb (truthy_bool (res_isNote e))) (eventsList docs) = eventsList docs.
Proof.
  apply filter_all. eapply Forall_impl; [apply eventsList_no_note|].
  intros e He. cbn beta in *. rewrite He. cbn. tauto.
Qed.

Lemma filter_notes_notesList docs :
  filter (λ e, truthy_bool (res_isNote e)) (notesList docs) = notesList docs.
Proof.
  apply filter_all. eapply Forall_impl; [apply notesList_all_notes|].
  intros e He. cbn beta in *. rewrite He. cbn. tauto.
Qed.

Lemma filter_events_notesList docs :
  filter (λ e, negb (truthy_bool (res_isNote e))) (notesList docs) = [].
Proof.
  apply filter_none. eapply Forall_impl; [apply notesList_all_notes|].
  intros e He. cbn beta in *. rewrite He. cbn. tauto.
Qed.

Lemma filter_events_of_notes (l : list MyEvent) :
  filter (λ e, negb (truthy_bool (res_isNote e))) (filter (λ e, truthy_bool (res_isNote e)) l)
  = [].
Proof.
  apply filter_none, Forall_forall. intros e He.
  apply list_elem_of_filter in He as [He _]. cbn beta.
  destruct (truthy_bool (res_isNote e)); cbn in *; tauto.
Qed.

Lemma filter_notes_of_events (l : list MyEvent) :
  filter (λ e, truthy_bool (res_isNote e)) (filter (λ e, negb (truthy_bool (res_isNote e))) l)
  = [].
Proof.
  apply filter_none, Forall_forall. intros e He.
  apply list_elem_of_filter in He as [He _]. cbn beta.
  destruct (truthy_bool (res_isNote e)); cbn in *; tauto.
Qed.

Lemma feed_after_both eventDocs noteDocs prev :
  onNotesSnapshot noteDocs (onEventsSnapshot eventDocs prev)
  = eventsList eventDocs ++ notesList noteDocs ∧
  onEventsSnapshot eventDocs (onNotesSnapshot noteDocs prev)
  = notesList noteDocs ++ eventsList eventDocs.
Proof.
  unfold onNotesSnapshot, onEventsSnapshot.
  rewrite !filter_app.
  by rewrite filter_events_of_notes, filter_events_eventsList,
    filter_notes_of_events, filter_notes_notesList.
Qed.

End FeedMore.

(** X20: Once both listeners have fired, the dashboard's list is the items of
    the two latest snapshots and nothing else, whatever it held before and
    in whichever order the listeners fired. *)
Theorem snapshots_determine_state (eventDocs noteDocs : list SnapshotDoc)
    (prev : list MyEvent) :
  DashboardFeed.onNotesSnapshot noteDocs (DashboardFeed.onEventsSnapshot eventDocs prev)
  = DashboardFeed.eventsList eventDocs ++ DashboardFeed.notesList noteDocs ∧
  DashboardFeed.onEventsSnapshot eventDocs (DashboardFeed.onNotesSnapshot noteDocs prev)
  = DashboardFeed.notesList noteDocs ++ DashboardFeed.eventsList eventDocs.
Proof. apply feed_after_both. Qed.

(** X21: A later snapshot of a collection replaces the items of the earlier one:
    nothing of the earlier snapshot stays in the list, and the items of the
    other collection are kept. *)
Theorem latest_snapshot_wins (docs docs' : list SnapshotDoc) (prev : list MyEvent) :
  DashboardFeed.onEventsSnapshot docs' (DashboardFeed.onEventsSnapshot docs prev)
  = DashboardFeed.onEventsSnapshot docs' prev ∧
  DashboardFeed.onNotesSnapshot docs' (DashboardFeed.onNotesSnapshot docs prev)
  = DashboardFeed.onNotesSnapshot docs' prev.
Proof.
  unfold DashboardFeed.onNotesSnapshot, DashboardFeed.onEventsSnapshot.
  rewrite !filter_app.
  rewrite filter_notes_eventsList, filter_events_notesList, !app_nil_r.
  by rewrite !list_filter_filter_l by done.
Qed.

(** X22: The documents of the notes collection have no part in a calendar sync:
    the listener marks every one of them as a note, whatever the document
    says, so the sync of the dashboard's list is the sync of the items of
    the events snapshot. *)
Theorem notes_feed_is_never_synced (h : Host) (eventDocs noteDocs : list SnapshotDoc)
    (prev : list MyEvent) :
  Dashboard.handleSyncCalendar h
    (DashboardFeed.onNotesSnapshot noteDocs (DashboardFeed.onEventsSnapshot eventDocs prev))
  = Dashboard.handleSyncCalendar h (DashboardFeed.eventsList eventDocs).
Proof.
  destruct (feed_after_both eventDocs noteDocs prev) as [-> _].
  unfold Dashboard.handleSyncCalendar.
  by rewrite filter_app, filter_events_notesList, app_nil_r.
Qed.

(** X23: An identifier stored in a document of the events collection reaches the
    item the listener builds from it, and every request a later sync sends
    for that item is an update addressed by the identifier. *)
Theorem stored_identifier_links_item (h : Host) (c : gmap string Doc) (i : string)
    (doc : Doc) (s e : Z) (g : string) :
  c !! i = Some doc → d_start doc = Some s → d_end doc = Some e →
  d_googleEventId doc = Some g → g ≠ "" →
  ∃ ev, ev ∈ DashboardFeed.eventsList (snapshot_docs c) ∧
        id ev = Some i ∧ start ev = Some s ∧ end_ ev = Some e ∧
        res_googleEventId ev = Some g ∧
        ∀ w, Forall (λ r, ∃ googleEvent, r = PATCH g googleEvent)
                    (requests_of (GoogleCalendarService.syncEvent h ev) w).
Proof.
  intros Hlook Hs He Hg Hne.
  set (sd := {| doc_id := i; doc_data := doc; doc_date := None |}).
  assert (Hin : sd ∈ snapshot_docs c).
  { unfold snapshot_docs. apply list_elem_of_In, in_map_iff.
    exists (i, doc). split; [reflexivity|].
    by apply list_elem_of_In, elem_of_map_to_list. }
  eexists. split; [|split; [|split; [|split; [|split]]]].
  - unfold DashboardFeed.eventsList. apply list_elem_of_In, in_map_iff.
    exists sd. split; [reflexivity|].
    apply list_elem_of_In, list_elem_of_filter. split; [|exact Hin].
    cbn. rewrite Hs, He. split; eauto.
  - reflexivity.
  - exact Hs.
  - exact He.
  - unfold res_googleEventId. cbn. by rewrite Hg, (truthy_Some_ne _ Hne).
  - intros w.
    rewrite (requests_of_syncEvent_linked h _ g w);
      [|unfold res_googleEventId; cbn; by rewrite Hg, (truthy_Some_ne _ Hne)|exact Hne].
    destruct (GoogleCalendarService.convertToGoogleEvent h _); [|constructor].
    destruct (authenticated w); repeat constructor. eauto.
Qed.

(* ===================================================================== *)
(** ** The header's sync button *)

(** X24: The header looks for the token in the local storage, the service reads
    the one of the session storage: without the former the handler shows
    "Google Calendar not connected" and does nothing, whatever the session
    holds. With it, the dashboard's handler runs, and the success notice is
    shown twice, once by each handler. *)
Theorem header_sync (h : Host) (evs : list MyEvent) (w : World) :
  (truthy (googleAccessToken w) = false →
   Header.handleGoogleCalendarSync (Some (Dashboard.handleSyncCalendar h evs)) w
   = (inr tt, add_toast (toast_error "Google Calendar not connected") w)) ∧
  (truthy (googleAccessToken w) = true →
   (Header.handleGoogleCalendarSync (Some (Dashboard.handleSyncCalendar h evs)) w).1
   = inr tt ∧
   toasts (Header.handleGoogleCalendarSync (Some (Dashboard.handleSyncCalendar h evs)) w).2
   = toasts w ++ [toast_success "Calendar synced successfully";
                  toast_success "Calendar synced successfully"] ∧
   sent (Header.handleGoogleCalendarSync (Some (Dashboard.handleSyncCalendar h evs)) w).2
   = sent (Dashboard.handleSyncCalendar h evs w).2).
Proof.
  split; intros Ht.
  - unfold Header.handleGoogleCalendarSync, try_catch. by rewrite bind_eq, Ht.
  - destruct (handleSyncCalendar_run h evs w) as (w' & Hrun & Htoasts & _).
    assert (Hall : Header.handleGoogleCalendarSync (Some (Dashboard.handleSyncCalendar h evs)) w
                   = (inr tt,
                      add_toast (toast_success "Calendar synced successfully")
                        (add_toast (toast_success "Calendar synced successfully") w'))).
    { unfold Header.handleGoogleCalendarSync, try_catch. rewrite bind_eq, Ht.
      unfold ret at 1. by rewrite bind_eq, Hrun. }
    rewrite Hall, Hrun. cbn [fst snd toasts sent add_toast].
    by rewrite Htoasts, <- app_assoc.
Qed.

(* ===================================================================== *)
(** ** The editor: what a submit writes *)

Section EditorMore.
Import EditorPanel.

Lemma all_space_trim_start_fuel n : ∀ s,
  (String.length s ≤ n)%nat → all_space s = true → trim_start s = "".
Proof.
  induction n as [|n IH]; intros s Hlen Hs.
  - destruct s; [reflexivity|cbn in Hlen; lia].
  - destruct s as [|a r1]; [reflexivity|]. cbn [all_space trim_start String.length] in *.
    destruct (is_space a); [apply IH; [lia|exact Hs]|].
    destruct r1 as [|b r2]; [discriminate Hs|]. cbn [String.length] in Hlen.
    destruct (is_space2 a b); [apply IH; [lia|exact Hs]|].
    destruct r2 as [|c r3]; [discriminate Hs|]. cbn [String.length] in Hlen.
    apply andb_true_iff in Hs as [-> Hs]. apply IH; [lia|exact Hs].
Qed.

Lemma trim_all_space s : all_space s = true → trim s = "".
Proof.
  intros H. unfold trim.
  by rewrite (all_space_trim_start_fuel (String.length s) s).
Qed.

End EditorMore.

(** X25: A title of white space only is rejected with a notice, and nothing else
    happens. *)
Theorem blank_title_is_rejected (h : Host) (st : EditorPanel.State) (w : World) :
  all_space (EditorPanel.s_title st) = true →
  EditorPanel.handleSubmit h st w
  = (inr tt, add_toast (toast_error "Please enter a title") w).
Proof.
  intros H. unfold EditorPanel.handleSubmit. by rewrite (trim_all_space _ H).
Qed.

(** X27: Submitting a new event that passes the validation, with a title
    that is not blank and boundaries in the years 1 to 9999, always writes
    its document, whatever the provider does afterwards; the document
    carries the identifier the create returned, when it returned one. *)
Theorem new_event_is_saved (h : Host) (st : EditorPanel.State) (s e : Z)
    (i : string) (ids : list string) (w : World) :
  EditorPanel.s_isNote st = false →
  String.eqb (trim (EditorPanel.s_title st)) "" = false →
  EditorPanel.eventStart h st = Some s → EditorPanel.eventEnd h st = Some e →
  EditorPanel.s_allDay st = true ∨ s < e →
  EditorPanel.Timestamp_min ≤ s < EditorPanel.Timestamp_max →
  EditorPanel.Timestamp_min ≤ e < EditorPanel.Timestamp_max →
  EditorPanel.s_event st = None →
  store_available w = true → fresh_ids w = i :: ids →
  let r := if authenticated w then j ← next_json w; json_id j else None in
  (EditorPanel.handleSubmit h st w).1 = inr tt ∧
  (∃ doc,
     events (EditorPanel.handleSubmit h st w).2 !! i = Some doc ∧
     d_title doc = Some (trim (EditorPanel.s_title st)) ∧
     d_start doc = Some s ∧ d_end doc = Some e ∧
     d_allDay doc = Some (EditorPanel.s_allDay st) ∧
     d_googleEventId doc = if truthy r then r else None) ∧
  toasts (EditorPanel.handleSubmit h st w).2
  = toasts w ++ [toast_success "Event created successfully"].
Proof.
  intros Hnote Htitle Hs He Hok Hrs Hre Hnew Hstore Hids r.
  destruct (handleSubmit_new_event_run h st s e i ids w
              Hnote Htitle Hs He Hok Hrs Hre Hnew Hstore Hids)
    as (w3 & googleEvent & -> & _ & Ht & _ & Hlook).
  cbn [fst snd toasts events add_toast]. split; [reflexivity|].
  split; [|by rewrite Ht].
  eexists. split; [exact Hlook|]. done.
Qed.

Section EditMore.
Import EditorPanel.

Lemma token_makeRequest_sends_only (P : Request → Prop) req :
  P req → sends_only P (GoogleCalendarService.makeRequest req).
Proof.
  intros Hreq w. rewrite makeRequest_world, sent_after_makeRequest.
  eexists. split; [reflexivity|]. destruct (authenticated w); by repeat constructor.
Qed.

Lemma updateEvent_sends_only h event g :
  res_googleEventId event = Some g →
  sends_only (λ r, ∃ googleEvent, r = PATCH g googleEvent)
             (GoogleCalendarService.updateEvent h event).
Proof.
  intros Hg. unfold GoogleCalendarService.updateEvent. rewrite Hg.
  repeat first [apply token_makeRequest_sends_only; eauto | sends_step].
Qed.

Lemma validateEventTimes_keeps_sent h st : keeps sent (validateEventTimes h st).
Proof.
  unfold validateEventTimes.
  repeat first [apply keeps_sent_toast | keeps_step].
Qed.

Lemma handleSubmit_edit_sends_only (P : Request → Prop) h st ev i :
  s_isNote st = false → s_event st = Some ev → id ev = Some i → i ≠ "" →
  (truthy (res_googleEventId ev) = true →
   sends_only P (GoogleCalendarService.updateEvent h
     {| id := Some i;
        title := trim (s_title st);
        start := eventStart h st;
        end_ := eventEnd h st;
        allDay := Some (s_allDay st);
        resource := Some {| isNote := Some false;
                            content := Some (trim (s_content st));
                            color := None;
                            priority := Some (s_priority st);
                            googleEventId := res_googleEventId ev;
                            syncedToGoogle := None |} |})) →
  sends_only P (handleSubmit h st).
Proof.
  intros Hnote Hev Hid Hne Hupd. unfold handleSubmit.
  rewrite Hnote, Hev. cbn [mbind option_bind negb andb]. rewrite Hid.
  cbn [mbind option_bind]. apply String.eqb_neq in Hne. rewrite Hne.
  cbn [negb some_if Dashboard.collectionName].
  destruct (String.eqb (trim (s_title st)) "");
    [apply sends_only_keeps, keeps_sent_toast|].
  apply sends_only_bind.
  { apply sends_only_bind; [apply sends_only_keeps, validateEventTimes_keeps_sent|].
    intros ?. apply sends_only_ret. }
  intros invalid. destruct invalid; [apply sends_only_ret|].
  apply sends_only_try_catch; [|intros ?; apply sends_only_keeps, keeps_sent_toast].
  apply sends_only_bind; [by apply sends_only_keeps|]. intros t.
  apply sends_only_bind; [apply sends_only_keeps, keeps_Timestamp_fromDate|].
  intros ts_start.
  apply sends_only_bind; [apply sends_only_keeps, keeps_Timestamp_fromDate|].
  intros ts_end.
  apply sends_only_bind; [apply sends_only_keeps, keeps_encode|]. intros data.
  apply sends_only_bind; [apply sends_only_keeps, keeps_sent_updateDoc|]. intros _.
  apply sends_only_bind; [|intros _; apply sends_only_keeps, keeps_sent_toast].
  destruct (truthy (res_googleEventId ev)) eqn:Hg; [|apply sends_only_ret].
  apply sends_only_try_catch; [by apply Hupd|intros ?; apply sends_only_ret].
Qed.

End EditMore.

(** X28: Editing an existing event never sends a create. When the event has an
    identifier, every request sent is an update addressed by it; when it
    has none, nothing is sent, so an event whose first create failed is not
    linked by editing it. *)
Theorem editing_never_creates (h : Host) (st : EditorPanel.State) (ev : MyEvent)
    (i : string) (w : World) :
  EditorPanel.s_isNote st = false → EditorPanel.s_event st = Some ev →
  id ev = Some i → i ≠ "" →
  Forall (λ r, is_create r = false) (requests_of (EditorPanel.handleSubmit h st) w) ∧
  (∀ g, res_googleEventId ev = Some g →
        Forall (λ r, ∃ googleEvent, r = PATCH g googleEvent)
               (requests_of (EditorPanel.handleSubmit h st) w)) ∧
  (truthy (res_googleEventId ev) = false →
   requests_of (EditorPanel.handleSubmit h st) w = []).
Proof.
  intros Hnote Hev Hid Hne.
  assert (Hlinked : ∀ g, res_googleEventId ev = Some g →
            Forall (λ r, ∃ googleEvent, r = PATCH g googleEvent)
                   (requests_of (EditorPanel.handleSubmit h st) w)).
  { intros g Hg. apply sends_only_requests_of.
    apply (handleSubmit_edit_sends_only _ h st ev i Hnote Hev Hid Hne).
    intros _. apply updateEvent_sends_only. by rewrite <- Hg. }
  assert (Hunlinked : truthy (res_googleEventId ev) = false →
            requests_of (EditorPanel.handleSubmit h st) w = []).
  { intros Hg. apply sends_only_nothing.
    apply (handleSubmit_edit_sends_only _ h st ev i Hnote Hev Hid Hne).
    intros Hg'. congruence. }
  split; [|split; assumption].
  destruct (res_googleEventId ev) as [g|] eqn:Hg.
  - eapply Forall_impl; [by apply Hlinked|]. by intros r (googleEvent & ->).
  - rewrite Hunlinked by reflexivity. constructor.
Qed.

(* ===================================================================== *)
(** ** The calendar panel and the date detection *)

(** X29: An all-day item is shown on a day exactly when the day lies between
    the local day of its start and the local day of its end; so an all-day
    item whose end day lies before its start day is shown on no day. (The
    years are taken from 100 on, where the three-argument [Date]
    constructor reads the year as it is.) *)
Theorem all_day_item_shown_in_its_range (off : Z) (events : list MyEvent)
    (event : MyEvent) (s e date : Z) :
  truthy_bool (allDay event) = true →
  start event = Some s → end_ event = Some e →
  100 ≤ CalendarPanel.getFullYear off s →
  100 ≤ CalendarPanel.getFullYear off e →
  100 ≤ CalendarPanel.getFullYear off date →
  event ∈ CalendarPanel.getEventsForDate off events date
  ↔ event ∈ events ∧
    JsDate.Day (JsDate.LocalTime off s) ≤ JsDate.Day (JsDate.LocalTime off date)
    ≤ JsDate.Day (JsDate.LocalTime off e).
Proof.
  intros Hall Hs He Hys Hye Hyd.
  unfold CalendarPanel.getEventsForDate. rewrite list_elem_of_filter.
  unfold CalendarPanel.shown_on. rewrite Hall, Hs, He.
  rewrite !Date_of_fields_local by assumption.
  unfold JsDate.UTC, JsDate.MakeDate, JsDate.msPerDay, JsDate.msPerMinute.
  rewrite andb_True, !Is_true_true, !Z.leb_le.
  split; intros [H1 H2]; (split; [try done|try done]); lia.
Qed.

(** X30: A phrase with "this" names the same day as the phrase with "next": the
    coming day of that weekday, one to seven days after today and never
    today itself, at the time of the day of the clock. *)
Theorem weekday_phrase_names_the_coming_day (off : Z) (isNext : bool)
    (targetDay now : Z) :
  0 ≤ targetDay ≤ 6 →
  DateDetection.weekday_date off isNext targetDay now
  = DateDetection.weekday_date off true targetDay now ∧
  DateDetection.getDay off (DateDetection.weekday_date off isNext targetDay now)
  = targetDay ∧
  1 ≤ JsDate.Day (JsDate.LocalTime off (DateDetection.weekday_date off isNext targetDay now))
      - JsDate.Day (JsDate.LocalTime off now) ≤ 7 ∧
  JsDate.TimeWithinDay (JsDate.LocalTime off (DateDetection.weekday_date off isNext targetDay now))
  = JsDate.TimeWithinDay (JsDate.LocalTime off now).
Proof.
  intros Ht.
  assert (Hsame : DateDetection.weekday_date off isNext targetDay now
                  = DateDetection.weekday_date off true targetDay now).
  { unfold DateDetection.weekday_date. destruct isNext; [reflexivity|].
    cbn [orb]. by destruct (_ =? 0). }
  split; [exact Hsame|]. rewrite Hsame. clear Hsame.
  unfold DateDetection.weekday_date, DateDetection.getDay. cbn [orb].
  set (today := JsDate.Day (JsDate.LocalTime off now)).
  assert (Hcur : 0 ≤ (today + 4) mod 7 < 7) by (apply Z.mod_pos_bound; lia).
  rewrite Z.rem_mod_nonneg by lia.
  set (k := if (targetDay - (today + 4) mod 7 + 7) mod 7 =? 0 then 7
            else (targetDay - (today + 4) mod 7 + 7) mod 7).
  assert (Hk : 1 ≤ k ≤ 7 ∧ (today + k + 4) mod 7 = targetDay).
  { unfold k. destruct (_ =? 0) eqn:E; bool_to_Z; zdiv. }
  rewrite Day_setDate_days, setDate_days. fold today.
  pose proof (TimeWithinDay_bounds (JsDate.LocalTime off now)) as Hb.
  split; [tauto|]. split; [lia|].
  unfold JsDate.TimeWithinDay, JsDate.MakeDate, JsDate.msPerDay in *. zdiv.
Qed.

(* ===================================================================== *)
(** ** Further scenarios *)

Lemma expired_token_scenario :
  google_access_token
    (GoogleCalendarService.syncEvent kolkata (standup kolkata None)
       (browser [Http 401 None])).2 = None ∧
  GoogleCalendarService.syncEvent kolkata (standup kolkata (Some "g1"))
    (GoogleCalendarService.syncEvent kolkata (standup kolkata None)
       (browser [Http 401 None])).2
  = (inr None,
     (GoogleCalendarService.syncEvent kolkata (standup kolkata None)
        (browser [Http 401 None])).2).
Proof.
  destruct (GoogleCalendarService.convertToGoogleEvent kolkata (standup kolkata None))
    as [googleEvent|] eqn:Hconv; [|vm_compute in Hconv; discriminate Hconv].
  destruct (expired_token_stops_sync kolkata (standup kolkata None) googleEvent None []
              (browser [Http 401 None]) eq_refl eq_refl Hconv) as (_ & Htoken & Hlater).
  split; [exact Htoken|apply Hlater].
Defined.

Lemma server_error_keeps_token_scenario :
  google_access_token
    (GoogleCalendarService.syncEvent kolkata (standup kolkata None)
       (browser [Http 500 None])).2 = Some "token".
Proof.
  refine (proj1 (token_kept_unless_401 kolkata (standup kolkata None)
                   (browser [Http 500 None]) _)).
  intros body rs H. vm_compute in H. discriminate H.
Defined.

Lemma update_without_identifier_scenario :
  GoogleCalendarService.updateEvent kolkata (standup kolkata None) (browser [created "g1"])
  = (inl (Error "No Google Event ID found to update"), browser [created "g1"]).
Proof.
  apply (updateEvent_requires_identifier kolkata (standup kolkata None)
           (browser [created "g1"])).
  reflexivity.
Defined.

Lemma undated_item_scenario :
  GoogleCalendarService.syncEvent kolkata undated (browser [created "g1"])
  = (inr None, browser [created "g1"]).
Proof.
  apply (invalid_date_is_not_sent kolkata undated (browser [created "g1"])).
  left. reflexivity.
Defined.

Lemma standup_round_trip_scenario :
  ∃ googleEvent,
    GapiService.convertToGoogleEvent kolkata (standup kolkata None) = Some googleEvent ∧
    start (convertFromGoogleEvent kolkata (listed_as "g1" googleEvent))
    = start (standup kolkata None) ∧
    end_ (convertFromGoogleEvent kolkata (listed_as "g1" googleEvent))
    = end_ (standup kolkata None).
Proof.
  destruct (timed_round_trip kolkata (standup kolkata None)
              (local_time_on kolkata 2024 5 1 (JsDate.MakeTime 9 0 0 0))
              (local_time_on kolkata 2024 5 1 (JsDate.MakeTime 9 30 0 0)) "g1")
    as [(googleEvent & Hconv & Hs & He & _) _];
    [reflexivity|reflexivity|reflexivity
    |vm_compute; split; discriminate|vm_compute; split; discriminate|].
  exists googleEvent. split; [exact Hconv|]. split; [exact Hs|exact He].
Defined.

Lemma fetched_vacation_scenario :
  ∃ x, x ∈ merge_google_events [convertFromGoogleEvent kolkata remote_vacation]
             [standup kolkata (Some "g7")] ∧
       res_googleEventId x
       = res_googleEventId (convertFromGoogleEvent kolkata remote_vacation).
Proof.
  apply (merge_represents_every_fetched_event
           [convertFromGoogleEvent kolkata remote_vacation]
           [standup kolkata (Some "g7")]
           (convertFromGoogleEvent kolkata remote_vacation)).
  apply list_elem_of_here.
Defined.

Lemma gapi_batch_scenario :
  requests_of (GapiService.syncEvents kolkata
                 [shopping_list; standup kolkata None; standup kolkata (Some "g1")])
              (browser [listed []; NetworkError])
  = GET (JsDate.toISOString (sync_window kolkata 1717200000000).1)
        (JsDate.toISOString (sync_window kolkata 1717200000000).2)
    :: flat_map (gapi_requests_for kolkata)
         [shopping_list; standup kolkata None; standup kolkata (Some "g1")].
Proof.
  apply (gapi_syncEvents_requests kolkata
           [shopping_list; standup kolkata None; standup kolkata (Some "g1")]
           (browser [listed []; NetworkError]) 200
           {| json_id := None; json_items := Some []; json_access_token := None |}
           [] [NetworkError]);
    reflexivity.
Defined.

Lemma gapi_signed_out_scenario :
  GapiService.syncEvents kolkata [standup kolkata None] (session false true [listed []])
  = (inl (Error "Not authenticated"), session false true [listed []]).
Proof.
  apply (gapi_signed_out_sends_nothing kolkata (session false true [listed []])).
  reflexivity.
Defined.

Lemma listing_refused_scenario :
  requests_of (GapiService.syncEvents kolkata [standup kolkata None])
              (browser [Http 500 None; created "g1"])
  = [GET (JsDate.toISOString (sync_window kolkata 1717200000000).1)
         (JsDate.toISOString (sync_window kolkata 1717200000000).2)] ∧
  requests_of (WorkingService.syncEvents kolkata [standup kolkata None])
              (browser [Http 500 None; created "g1"])
  = [GET (JsDate.toISOString (sync_window kolkata 1717200000000).1)
         (JsDate.toISOString (sync_window kolkata 1717200000000).2)].
Proof.
  destruct (batch_aborts_when_listing_fails kolkata [standup kolkata None]
              (browser [Http 500 None; created "g1"])) as [Hgapi Hworking];
    [reflexivity|].
  split; [apply Hgapi|apply Hworking]; reflexivity.
Defined.

Lemma working_note_scenario :
  ∃ googleEvent,
    requests_of (WorkingService.sync_local kolkata shopping_list) (browser [created "g9"])
    = [POST googleEvent].
Proof.
  destruct (WorkingService.convertToGoogleEvent kolkata shopping_list)
    as [googleEvent|] eqn:Hconv; [|vm_compute in Hconv; discriminate Hconv].
  exists googleEvent.
  apply (working_service_pushes_notes kolkata shopping_list googleEvent
           (browser [created "g9"]));
    [reflexivity|reflexivity|exact Hconv|reflexivity].
Defined.

Lemma not_connected_scenario :
  CheckedCalendarService.syncEvent kolkata (standup kolkata None)
    (session false true [created "g1"])
  = (inl (Error "Google Calendar not connected"), session false true [created "g1"]).
Proof.
  apply (checked_service_not_connected kolkata (session false true [created "g1"]));
    reflexivity.
Defined.

Lemma test_then_create_scenario :
  ∃ googleEvent,
    requests_of (CheckedCalendarService.syncEvent kolkata (standup kolkata None))
                (set_local_tokens (Some "local") None (browser [Http 200 None; created "g1"]))
    = [GET_primary; POST googleEvent].
Proof.
  destruct (CheckedCalendarService.convertToGoogleEvent kolkata (standup kolkata None))
    as [googleEvent|] eqn:Hconv; [|vm_compute in Hconv; discriminate Hconv].
  exists googleEvent.
  apply (checked_sync_tests_then_creates kolkata (standup kolkata None) googleEvent
           (set_local_tokens (Some "local") None (browser [Http 200 None; created "g1"]))
           200 None [created "g1"]);
    [reflexivity|reflexivity|reflexivity|reflexivity|exact Hconv].
Defined.

Lemma refresh_refused_scenario :
  googleRefreshToken
    (CheckedCalendarService.refreshAccessToken "refresh"
       (set_local_tokens (Some "old") (Some "refresh") (session false true [Http 400 None]))).2
  = None.
Proof.
  destruct (refresh_failure_clears_tokens "refresh"
              (set_local_tokens (Some "old") (Some "refresh")
                 (session false true [Http 400 None])))
    as (_ & _ & Hrefresh & _); [reflexivity|reflexivity|].
  exact Hrefresh.
Defined.

Lemma delete_store_down_scenario :
  Dashboard.handleEventDelete [standup kolkata (Some "g1")] "ev2" false
    (session true false [created "g1"])
  = (inr tt, add_toast (toast_error "Failed to delete event")
               (session true false [created "g1"])).
Proof.
  apply (handleEventDelete_store_failure [standup kolkata (Some "g1")] "ev2" false
           (session true false [created "g1"])).
  reflexivity.
Defined.

Lemma delete_unlinked_scenario :
  requests_of (Dashboard.handleEventDelete [standup kolkata None] "ev2" false)
              (browser [created "g1"]) = [].
Proof.
  apply (handleEventDelete_unlinked [standup kolkata None] "ev2" (browser [created "g1"]));
    reflexivity.
Defined.

Lemma linked_document_scenario :
  ∃ ev, ev ∈ DashboardFeed.eventsList (snapshot_docs {[ "doc1" := linked_doc "g1" ]}) ∧
        res_googleEventId ev = Some "g1".
Proof.
  destruct (stored_identifier_links_item kolkata {[ "doc1" := linked_doc "g1" ]} "doc1"
              (linked_doc "g1") 1714534200000 1714536000000 "g1")
    as (ev & Hin & _ & _ & _ & Hg & _);
    [apply lookup_singleton_eq|reflexivity|reflexivity|reflexivity|discriminate|].
  exists ev. split; [exact Hin|exact Hg].
Defined.

Lemma header_button_scenario :
  Header.handleGoogleCalendarSync
    (Some (Dashboard.handleSyncCalendar kolkata [standup kolkata None]))
    (browser [created "g1"])
  = (inr tt, add_toast (toast_error "Google Calendar not connected")
               (browser [created "g1"])) ∧
  toasts (Header.handleGoogleCalendarSync
            (Some (Dashboard.handleSyncCalendar kolkata [standup kolkata None]))
            (set_local_tokens (Some "local") None (browser [created "g1"]))).2
  = [toast_success "Calendar synced successfully";
     toast_success "Calendar synced successfully"].
Proof.
  split.
  - apply (proj1 (header_sync kolkata [standup kolkata None] (browser [created "g1"]))).
    reflexivity.
  - apply (proj2 (header_sync kolkata [standup kolkata None]
                    (set_local_tokens (Some "local") None (browser [created "g1"])))).
    reflexivity.
Defined.

Lemma blank_title_scenario :
  EditorPanel.handleSubmit kolkata untitled_form (browser [created "g1"])
  = (inr tt, add_toast (toast_error "Please enter a title") (browser [created "g1"])).
Proof.
  apply (blank_title_is_rejected kolkata untitled_form (browser [created "g1"])).
  reflexivity.
Defined.

Lemma planning_saved_scenario :
  ∃ doc,
    events (EditorPanel.handleSubmit kolkata (planning "2024-06-05" None)
              (browser [created "g1"])).2 !! "doc1" = Some doc ∧
    d_googleEventId doc = Some "g1".
Proof.
  destruct (new_event_is_saved kolkata (planning "2024-06-05" None)
              (local_time_on kolkata 2024 6 5 (JsDate.MakeTime 10 0 0 0))
              (local_time_on kolkata 2024 6 5 (JsDate.MakeTime 11 0 0 0))
              "doc1" ["doc2"] (browser [created "g1"]))
    as (_ & (doc & Hlook & _ & _ & _ & _ & Hg) & _);
    [reflexivity|reflexivity|vm_compute; reflexivity|vm_compute; reflexivity
    |right; vm_compute; reflexivity
    |vm_compute; split; [discriminate|reflexivity]
    |vm_compute; split; [discriminate|reflexivity]
    |reflexivity|reflexivity|reflexivity|].
  exists doc. split; [exact Hlook|exact Hg].
Defined.

Lemma planning_edited_scenario :
  Forall (λ r, ∃ googleEvent, r = PATCH "g1" googleEvent)
         (requests_of (EditorPanel.handleSubmit kolkata
                         (planning "2024-06-05" (Some (standup kolkata (Some "g1")))))
                      (editing_session "g1" [created "g1"])) ∧
  length (requests_of (EditorPanel.handleSubmit kolkata
                         (planning "2024-06-05" (Some (standup kolkata (Some "g1")))))
                      (editing_session "g1" [created "g1"])) = 1%nat ∧
  requests_of (EditorPanel.handleSubmit kolkata
                 (planning "2024-06-05" (Some (standup kolkata None))))
              (editing_session "g1" [created "g1"]) = [].
Proof.
  split; [|split].
  - apply (proj1 (proj2 (editing_never_creates kolkata
                           (planning "2024-06-05" (Some (standup kolkata (Some "g1"))))
                           (standup kolkata (Some "g1")) "ev2"
                           (editing_session "g1" [created "g1"])
                           eq_refl eq_refl eq_refl ltac:(discriminate))) "g1").
    reflexivity.
  - vm_compute. reflexivity.
  - apply (proj2 (proj2 (editing_never_creates kolkata
                           (planning "2024-06-05" (Some (standup kolkata None)))
                           (standup kolkata None) "ev2"
                           (editing_session "g1" [created "g1"])
                           eq_refl eq_refl eq_refl ltac:(discriminate)))).
    reflexivity.
Defined.

Lemma vacation_shown_scenario :
  vacation kolkata
  ∈ CalendarPanel.getEventsForDate (-330) [vacation kolkata]
      (local_time_on kolkata 2024 6 2 (JsDate.MakeTime 15 0 0 0)).
Proof.
  apply (all_day_item_shown_in_its_range (-330) [vacation kolkata] (vacation kolkata)
           (local_time_on kolkata 2024 6 1 0)
           (local_time_on kolkata 2024 6 3 (JsDate.MakeTime 23 59 59 0))
           (local_time_on kolkata 2024 6 2 (JsDate.MakeTime 15 0 0 0)));
    [reflexivity|reflexivity|reflexivity
    |vm_compute; discriminate|vm_compute; discriminate|vm_compute; discriminate|].
  split; [apply list_elem_of_here|]. vm_compute. split; discriminate.
Defined.

Lemma this_monday_scenario :
  DateDetection.getDay (-330) (DateDetection.weekday_date (-330) false 1 1717200000000) = 1.
Proof.
  apply (proj1 (proj2 (weekday_phrase_names_the_coming_day (-330) false 1 1717200000000
                         ltac:(lia)))).
Defined.
